(** * sports_analyzer: the prediction-and-evaluation core

    A shallow embedding of
      - backend/services/prediction_engine.py  (factor calculators, weighted
        combination, single-game prediction),
      - backend/services/backtester.py         (historical replay, scoring,
        betting simulation),
      - backend/services/optimizer.py          (weight search, ablation),
    with the parts of backend/models/database.py and config/data_sources.py
    they read, followed by the properties the specification states about
    them.

    Modelling conventions.
      - Python numbers (int and float alike) are exact rationals, kept in
        lowest terms so that equal numbers are syntactically equal; binary
        round-off of float is outside the model - except in the betting
        simulation, where ints and floats are kept apart and every float
        operation is rounded as IEEE 754 binary64 has it.
      - Python objects read from JSON or handed in by callers are [pyval]s;
        operations on them fail with the exception Python would raise.
      - A [try: ... except Exception: ...] block is [try_except].
      - [datetime.now()] reads a clock that is threaded through the code
        that calls it.
      - The games table is the list of its rows in the order of the query
        [ORDER BY game_date DESC]; nothing in the modelled code writes it. *)

From Stdlib Require Import List String Ascii DecimalString ZArith QArith Qround Qabs.
From Stdlib Require Import Bool Lia Lqa.
From Stdlib Require SpecFloat.
Import ListNotations.
Set Warnings "-register-all".
Open Scope string_scope.
Open Scope list_scope.

(* ===================================================================== *)
(** ** Exceptions and the error monad *)
(* ===================================================================== *)

Inductive exn : Type :=
| KeyError
| TypeError
| AttributeError
| ValueError
| ZeroDivisionError
| JSONDecodeError
| OverflowError.

Inductive result (A : Type) : Type :=
| Ok (a : A)
| Raised (e : exn).
Arguments Ok {A} a.
Arguments Raised {A} e.

Definition bind {A B : Type} (m : result A) (k : A -> result B) : result B :=
  match m with
  | Ok a => k a
  | Raised e => Raised e
  end.

Declare Scope py_scope.
Delimit Scope py_scope with py.
Notation "x <- m ;; k" := (bind m (fun x => k))
  (at level 61, m at next level, right associativity) : py_scope.
Open Scope py_scope.

(** [try: body  except Exception as e: handler] *)
Definition try_except {A : Type} (body : result A) (handler : result A) : result A :=
  match body with
  | Ok a => Ok a
  | Raised _ => handler
  end.

Definition raises {A : Type} (m : result A) : Prop :=
  exists e, m = Raised e.

(* ===================================================================== *)
(** ** Numbers *)
(* ===================================================================== *)

Module Num.
Local Open Scope Q_scope.

(** A number written in the source, in lowest terms. *)
Definition lit (q : Q) : Q := Qred q.

Definition add (x y : Q) : Q := Qred (x + y).
Definition sub (x y : Q) : Q := Qred (x - y).
Definition mul (x y : Q) : Q := Qred (x * y).
(** Division by a divisor the caller knows to be nonzero. *)
Definition div (x y : Q) : Q := Qred (x / y).
Definition abs (x : Q) : Q := Qred (Qabs x).

Definition eqb (x y : Q) : bool := Qeq_bool x y.
Definition ltb (x y : Q) : bool :=
  match Qcompare x y with Lt => true | _ => false end.
Definition gtb (x y : Q) : bool := ltb y x.
Definition geb (x y : Q) : bool := negb (ltb x y).

Definition of_nat (n : nat) : Q := inject_Z (Z.of_nat n).

(** Python's two-argument [min(a, b)]: [b] when [b < a], otherwise [a]. *)
Definition min (a b : Q) : Q := if ltb b a then b else a.

(** Round to the nearest integer, exact halves to the even neighbour. *)
Definition round_half_even (y : Q) : Z :=
  let f := Qfloor y in
  match Qcompare (y - inject_Z f) (1 # 2) with
  | Lt => f
  | Gt => (f + 1)%Z
  | Eq => if Z.even f then f else (f + 1)%Z
  end.

(** Python's [round(x, 1)]. *)
Definition round1 (x : Q) : Q := Qred (round_half_even (x * 10) # 10).

End Num.

Infix "+!" := Num.add (at level 50, left associativity).
Infix "-!" := Num.sub (at level 50, left associativity).
Infix "*!" := Num.mul (at level 40, left associativity).
Infix "/!" := Num.div (at level 40, left associativity).

(* ===================================================================== *)
(** ** Binary64 floats and Python's two kinds of number *)
(* ===================================================================== *)

(** Python's [float]: IEEE 754 binary64 as the reference implementation of
    the Standard Library has it, with signed zeros, infinities and NaN, and
    every operation rounded to nearest, ties to even. *)
Module Float.

Definition t : Type := SpecFloat.spec_float.

Definition prec : Z := 53.
Definition emax : Z := 1024.

Definition add : t -> t -> t := SpecFloat.SFadd prec emax.
Definition sub : t -> t -> t := SpecFloat.SFsub prec emax.
Definition mul : t -> t -> t := SpecFloat.SFmul prec emax.
Definition div : t -> t -> t := SpecFloat.SFdiv prec emax.

(** An integer as it stands, before any rounding. *)
Definition raw (z : Z) : t :=
  match z with
  | Z0 => SpecFloat.S754_zero false
  | Zpos m => SpecFloat.S754_finite false m 0
  | Zneg m => SpecFloat.S754_finite true m 0
  end.

(** [float(z)]: the nearest float; an infinity when [z] is out of range. *)
Definition of_Z (z : Z) : t := SpecFloat.binary_normalize prec emax z 0 false.

(** The float nearest to the fraction [n / d]: what a decimal literal
    denotes, and what the true division of two ints returns. *)
Definition nearest (n : Z) (d : positive) : t := div (raw n) (raw (Zpos d)).

Definition is_zero (x : t) : bool :=
  match x with
  | SpecFloat.S754_zero _ => true
  | _ => false
  end.

Definition is_infinite (x : t) : bool :=
  match x with
  | SpecFloat.S754_infinity _ => true
  | _ => false
  end.

(** [x < y]; false as soon as one of them is NaN. *)
Definition ltb : t -> t -> bool := SpecFloat.SFltb.

(** The number a finite float stands for. *)
Definition to_Q (x : t) : option Q :=
  match x with
  | SpecFloat.S754_zero _ => Some 0%Q
  | SpecFloat.S754_finite s m e =>
      let q := (inject_Z (Zpos m) * 2 ^ e)%Q in
      Some (Qred (if s then - q else q))
  | _ => None
  end.

End Float.

(** A Python number: an [int] of any size or a [float]. *)
Inductive number : Type :=
| NInt (z : Z)
| NFloat (f : Float.t).

(** The conversion of an operand that meets a float: an int too large for
    a float raises. *)
Definition to_float (a : number) : result Float.t :=
  match a with
  | NFloat f => Ok f
  | NInt z =>
      if Float.is_infinite (Float.of_Z z) then Raised OverflowError
      else Ok (Float.of_Z z)
  end.

(** [a + b], [a - b], [a * b]: exact on two ints, otherwise on floats. *)
Definition num_add (a b : number) : result number :=
  match a, b with
  | NInt x, NInt y => Ok (NInt (x + y))
  | _, _ => x <- to_float a ;; y <- to_float b ;; Ok (NFloat (Float.add x y))
  end.

Definition num_sub (a b : number) : result number :=
  match a, b with
  | NInt x, NInt y => Ok (NInt (x - y))
  | _, _ => x <- to_float a ;; y <- to_float b ;; Ok (NFloat (Float.sub x y))
  end.

Definition num_mul (a b : number) : result number :=
  match a, b with
  | NInt x, NInt y => Ok (NInt (x * y))
  | _, _ => x <- to_float a ;; y <- to_float b ;; Ok (NFloat (Float.mul x y))
  end.

(** [a / b]: always a float.  Two ints give the float nearest to their
    quotient and raise when it is out of range. *)
Definition num_div (a b : number) : result number :=
  match a, b with
  | NInt x, NInt y =>
      match y with
      | Z0 => Raised ZeroDivisionError
      | _ =>
          let q := Float.div (Float.raw x) (Float.raw y) in
          if Float.is_infinite q then Raised OverflowError else Ok (NFloat q)
      end
  | _, _ =>
      x <- to_float a ;;
      y <- to_float b ;;
      if Float.is_zero y then Raised ZeroDivisionError
      else Ok (NFloat (Float.div x y))
  end.

(** [a > 0] *)
Definition num_positive (a : number) : bool :=
  match a with
  | NInt z => (0 <? z)%Z
  | NFloat f => Float.ltb (SpecFloat.S754_zero false) f
  end.

(* ===================================================================== *)
(** ** Python dictionaries with string keys *)
(* ===================================================================== *)

(** Insertion-ordered, as Python's [dict]: an association list read at the
    first binding of a key and written in place. *)
Definition dict (A : Type) : Type := list (string * A).

Fixpoint lookup {A : Type} (k : string) (d : dict A) : option A :=
  match d with
  | [] => None
  | (k', v) :: d' => if String.eqb k k' then Some v else lookup k d'
  end.

(** [d[k] = v] *)
Fixpoint store {A : Type} (k : string) (v : A) (d : dict A) : dict A :=
  match d with
  | [] => [(k, v)]
  | (k', v') :: d' =>
      if String.eqb k k' then (k', v) :: d' else (k', v') :: store k v d'
  end.

(** The dictionary left by [d.pop(k)]. *)
Definition remove {A : Type} (k : string) (d : dict A) : dict A :=
  filter (fun kv => negb (String.eqb k (fst kv))) d.

Definition keys {A : Type} (d : dict A) : list string := map fst d.
Definition values {A : Type} (d : dict A) : list A := map snd d.

(** [d[k]] *)
Definition getitem {A : Type} (d : dict A) (k : string) : result A :=
  match lookup k d with
  | Some v => Ok v
  | None => Raised KeyError
  end.

(** [d.get(k, default)] *)
Definition get {A : Type} (d : dict A) (k : string) (default : A) : A :=
  match lookup k d with
  | Some v => v
  | None => default
  end.

(* ===================================================================== *)
(** ** Python values *)
(* ===================================================================== *)

(** What [json.loads] yields and what callers hand to the engine. *)
Inductive pyval : Type :=
| PNone
| PBool (b : bool)
| PNum (q : Q)
| PStr (s : string)
| PList (l : list pyval)
| PDict (d : list (string * pyval)).

(** [bool] is a subclass of [int]: [True] counts as 1 and [False] as 0. *)
Definition as_num (v : pyval) : option Q :=
  match v with
  | PBool true => Some 1
  | PBool false => Some 0
  | PNum q => Some (Qred q)
  | _ => None
  end.

(** Truth value of an object, as tested by [if], [not], [and], [or]. *)
Definition truthy (v : pyval) : bool :=
  match v with
  | PNone => false
  | PBool b => b
  | PNum q => negb (Qeq_bool q 0)
  | PStr s => negb (String.eqb s "")
  | PList l => match l with [] => false | _ => true end
  | PDict d => match d with [] => false | _ => true end
  end.

(** [a == b] *)
Fixpoint py_eq (a b : pyval) {struct a} : bool :=
  match a, b with
  | PNone, PNone => true
  | PStr s, PStr t => String.eqb s t
  | PList l, PList m =>
      (fix all2 (l : list pyval) (m : list pyval) {struct l} : bool :=
         match l, m with
         | [], [] => true
         | x :: l', y :: m' => py_eq x y && all2 l' m'
         | _, _ => false
         end) l m
  | PDict d, PDict e =>
      Nat.eqb (List.length d) (List.length e) &&
      (fix sub (d : list (string * pyval)) {struct d} : bool :=
         match d with
         | [] => true
         | (k, v) :: d' =>
             match lookup k e with
             | Some w => py_eq v w
             | None => false
             end && sub d'
         end) d
  | _, _ =>
      match as_num a, as_num b with
      | Some x, Some y => Qeq_bool x y
      | _, _ => false
      end
  end.

(** [a + b]: numbers add, strings and lists concatenate. *)
Definition py_add (a b : pyval) : result pyval :=
  match as_num a, as_num b with
  | Some x, Some y => Ok (PNum (x +! y))
  | _, _ =>
      match a, b with
      | PStr s, PStr t => Ok (PStr (s ++ t))
      | PList l, PList m => Ok (PList (l ++ m))
      | _, _ => Raised TypeError
      end
  end.

(** [x * b] for a float [x]: only a number can be scaled by a float. *)
Definition py_scale (x : Q) (b : pyval) : result pyval :=
  match as_num b with
  | Some y => Ok (PNum (x *! y))
  | None => Raised TypeError
  end.

(** [a / b] *)
Definition py_div (a b : pyval) : result Q :=
  match as_num a, as_num b with
  | Some x, Some y =>
      if Qeq_bool y 0 then Raised ZeroDivisionError else Ok (x /! y)
  | _, _ => Raised TypeError
  end.

(** [v.get(k, default)]: only a dict has the method. *)
Definition py_get (v : pyval) (k : string) (default : pyval) : result pyval :=
  match v with
  | PDict d => Ok (get d k default)
  | _ => Raised AttributeError
  end.

(** [v[k]] with a string key. *)
Definition py_getitem (v : pyval) (k : string) : result pyval :=
  match v with
  | PDict d => getitem d k
  | _ => Raised TypeError
  end.

(** Whether [v] can be a dictionary key. *)
Definition hashable (v : pyval) : bool :=
  match v with
  | PList _ | PDict _ => false
  | _ => true
  end.

(** An f-string before rendering: literal text and formatted fields
    [{v:spec}] (an empty [spec] is a plain [{v}]).  The rendered digits are
    not modelled; whether rendering fails is. *)
Inductive piece : Type :=
| Lit (s : string)
| Fmt (v : pyval) (spec : string).

Definition fstring : Type := list piece.

(** [format(v, spec)] with a float presentation type ([f] or [%]) accepts
    numbers only; a [None], string, list or dict raises. *)
Definition float_field (v : pyval) : result Q :=
  match as_num v with
  | Some q => Ok q
  | None => Raised TypeError
  end.

(* ===================================================================== *)
(** ** Clocked computations *)
(* ===================================================================== *)

(** A reading of the wall clock; [datetime.now().isoformat()] is the text of
    one. *)
Definition time : Type := nat.

(** Code that may call [datetime.now()]: it is run at a clock reading and
    leaves a later one. *)
Definition clocked (A : Type) : Type := time -> result A * time.

Definition ret {A : Type} (a : A) : clocked A := fun t => (Ok a, t).

Definition lift {A : Type} (r : result A) : clocked A := fun t => (r, t).

Definition cbind {A B : Type} (m : clocked A) (k : A -> clocked B) : clocked B :=
  fun t =>
    match m t with
    | (Ok a, t') => k a t'
    | (Raised e, t') => (Raised e, t')
    end.

Notation "x <~ m ;; k" := (cbind m (fun x => k))
  (at level 61, m at next level, right associativity) : py_scope.

(** [datetime.now()]: no two readings are the same. *)
Definition now : clocked time := fun t => (Ok t, S t).

Definition ctry_except {A : Type} (body handler : clocked A) : clocked A :=
  fun t =>
    match body t with
    | (Ok a, t') => (Ok a, t')
    | (Raised _, t') => handler t'
    end.

(* ===================================================================== *)
(** ** config/data_sources.py *)
(* ===================================================================== *)

Module Stadium.
Record t : Type := { city : string; state : string; dome : bool }.
End Stadium.

Definition stadium (c s : string) (d : bool) : Stadium.t :=
  {| Stadium.city := c; Stadium.state := s; Stadium.dome := d |}.

Definition NFL_STADIUMS : dict Stadium.t :=
  [ ("1", stadium "Atlanta" "GA" true);
    ("2", stadium "Buffalo" "NY" false);
    ("3", stadium "Chicago" "IL" false);
    ("4", stadium "Cincinnati" "OH" false);
    ("5", stadium "Cleveland" "OH" false);
    ("6", stadium "Arlington" "TX" true);
    ("7", stadium "Denver" "CO" false);
    ("8", stadium "Detroit" "MI" true);
    ("9", stadium "Green Bay" "WI" false);
    ("10", stadium "Nashville" "TN" false);
    ("11", stadium "Indianapolis" "IN" true);
    ("12", stadium "Kansas City" "MO" false);
    ("13", stadium "Las Vegas" "NV" true);
    ("14", stadium "Los Angeles" "CA" false);
    ("15", stadium "Miami Gardens" "FL" false);
    ("16", stadium "Minneapolis" "MN" true);
    ("17", stadium "Foxborough" "MA" false);
    ("18", stadium "New Orleans" "LA" true);
    ("19", stadium "East Rutherford" "NJ" false);
    ("20", stadium "East Rutherford" "NJ" false);
    ("21", stadium "Philadelphia" "PA" false);
    ("22", stadium "Glendale" "AZ" true);
    ("23", stadium "Pittsburgh" "PA" false);
    ("24", stadium "Los Angeles" "CA" false);
    ("25", stadium "Santa Clara" "CA" false);
    ("26", stadium "Seattle" "WA" false);
    ("27", stadium "Tampa" "FL" false);
    ("28", stadium "Landover" "MD" false);
    ("29", stadium "Charlotte" "NC" false);
    ("30", stadium "Jacksonville" "FL" false);
    ("33", stadium "Baltimore" "MD" false);
    ("34", stadium "Houston" "TX" true) ].

(** [NFL_STADIUMS.get(key, {})] for an arbitrary key object: an unhashable
    key raises, a key that is no string of the table finds nothing. *)
Definition stadiums_get (key : pyval) : result (option Stadium.t) :=
  if hashable key then
    match key with
    | PStr s => Ok (lookup s NFL_STADIUMS)
    | _ => Ok None
    end
  else Raised TypeError.

(* ===================================================================== *)
(** ** backend/models/database.py: the games table *)
(* ===================================================================== *)

(** A column as sqlite3 hands it back. *)
Inductive sqlval : Type :=
| SNull
| SNum (q : Q)
| SText (s : string).

Definition of_sql (c : sqlval) : pyval :=
  match c with
  | SNull => PNone
  | SNum q => PNum q
  | SText s => PStr s
  end.

(** [a > b] on two columns: numbers by value, texts by code points; any
    other pairing raises. *)
Definition sql_gt (a b : sqlval) : result bool :=
  match a, b with
  | SNum x, SNum y => Ok (Num.gtb x y)
  | SText s, SText u => Ok (String.ltb u s)
  | _, _ => Raised TypeError
  end.

(** [a - b] on two columns. *)
Definition sql_sub (a b : sqlval) : result Q :=
  match a, b with
  | SNum x, SNum y => Ok (x -! y)
  | _, _ => Raised TypeError
  end.

(** A TEXT column holding JSON, by what [json.loads] makes of it. *)
Inductive json_text : Type :=
| NoText                (* NULL or the empty string: falsy *)
| Malformed             (* text that [json.loads] rejects *)
| Json (doc : pyval).   (* text that parses to [doc] *)

Definition json_loads (t : json_text) : result pyval :=
  match t with
  | Json doc => Ok doc
  | _ => Raised JSONDecodeError
  end.

Definition has_text (t : json_text) : bool :=
  match t with
  | NoText => false
  | _ => true
  end.

Module Game.
Record t : Type := {
  espn_id : sqlval;
  game_date : sqlval;
  home_team_id : sqlval;
  home_team_name : sqlval;
  away_team_id : sqlval;
  away_team_name : sqlval;
  status : sqlval;
  home_score : sqlval;
  away_score : sqlval;
  weather_data : json_text;
  raw_data : json_text
}.
End Game.

Fixpoint mapM {A B : Type} (f : A -> result B) (l : list A) : result (list B) :=
  match l with
  | [] => Ok []
  | a :: l' => b <- f a ;; bs <- mapM f l' ;; Ok (b :: bs)
  end.

(** A list comprehension [[a for a in l if p(a)]] whose test can raise. *)
Fixpoint filterM {A : Type} (p : A -> result bool) (l : list A) : result (list A) :=
  match l with
  | [] => Ok []
  | a :: l' =>
      keep <- p a ;;
      rest <- filterM p l' ;;
      Ok (if keep then a :: rest else rest)
  end.

Section Database.

(** The rows of [games], most recent first. *)
Variable db : list Game.t.

(** [SportsDatabase.get_games]: the parsed JSON is stored under the keys
    [weather] and [raw], which the modelled callers never read, so a
    fetched game is its row. *)
Definition get_games (limit : nat) : result (list Game.t) :=
  mapM (fun game =>
          _ <- (if has_text (Game.weather_data game)
                then json_loads (Game.weather_data game) else Ok PNone) ;;
          _ <- (if has_text (Game.raw_data game)
                then json_loads (Game.raw_data game) else Ok PNone) ;;
          Ok game)
       (firstn limit db).

End Database.

(* ===================================================================== *)
(** ** backend/services/prediction_engine.py *)
(* ===================================================================== *)

Module PredictionFactor.
Record t : Type := {
  name : string;
  value : Q;
  weight : Q;
  confidence : Q;
  explanation : fstring
}.
End PredictionFactor.

(** [PredictionFactor(name, value, weight, confidence, explanation)] *)
Definition Factor (n : string) (v w c : Q) (e : fstring) : PredictionFactor.t :=
  {| PredictionFactor.name := n;
     PredictionFactor.value := v;
     PredictionFactor.weight := w;
     PredictionFactor.confidence := c;
     PredictionFactor.explanation := e |}.

Module GamePrediction.
Record t : Type := {
  game_id : pyval;
  home_team : pyval;
  away_team : pyval;
  predicted_winner : pyval;
  confidence : Q;
  spread_prediction : Q;
  total_prediction : pyval;
  factors : list PredictionFactor.t;
  algorithm_version : string;
  created_at : time
}.
End GamePrediction.

(** The dictionary returned by [_calculate_final_prediction]. *)
Module FinalPrediction.
Record t : Type := {
  winner : pyval;
  confidence : Q;
  spread : Q;
  total : pyval
}.
End FinalPrediction.

Module AdvancedPredictionEngine.
Record t : Type := {
  factor_weights : dict Q;
  version : string
}.
End AdvancedPredictionEngine.

(** [AdvancedPredictionEngine()] *)
Definition new_engine : AdvancedPredictionEngine.t :=
  {| AdvancedPredictionEngine.factor_weights :=
       [ ("team_strength", Num.lit 0.35);
         ("head_to_head", Num.lit 0.20);
         ("home_advantage", Num.lit 0.15);
         ("rest_advantage", Num.lit 0.10);
         ("weather_impact", Num.lit 0.10);
         ("motivation", Num.lit 0.05);
         ("injuries", Num.lit 0.05) ];
     AdvancedPredictionEngine.version := "1.0" |}.

Section PredictionEngine.

Variable db : list Game.t.
Variable self : AdvancedPredictionEngine.t.

(** [self.factor_weights[key]] *)
Definition weight_of (key : string) : result Q :=
  getitem (AdvancedPredictionEngine.factor_weights self) key.

Definition default_record : pyval :=
  PDict [("wins", PNum 0); ("losses", PNum 0); ("ties", PNum 0)].

(** [record['wins'] + record['losses'] + record['ties']] *)
Definition games_played (record : pyval) : result pyval :=
  wins <- py_getitem record "wins" ;;
  losses <- py_getitem record "losses" ;;
  played <- py_add wins losses ;;
  ties <- py_getitem record "ties" ;;
  py_add played ties.

(** [(record['wins'] + 0.5 * record['ties']) / games] *)
Definition win_pct (record games : pyval) : result Q :=
  wins <- py_getitem record "wins" ;;
  ties <- py_getitem record "ties" ;;
  half_ties <- py_scale (Num.lit 0.5) ties ;;
  points <- py_add wins half_ties ;;
  py_div points games.

(** The [try] block of [_calculate_team_strength_factor]. *)
Definition team_strength_try (home_team away_team : pyval)
  : result PredictionFactor.t :=
  home_record <- py_get home_team "record" default_record ;;
  away_record <- py_get away_team "record" default_record ;;
  home_games <- games_played home_record ;;
  away_games <- games_played away_record ;;
  if py_eq home_games (PNum 0) || py_eq away_games (PNum 0) then
    w <- weight_of "team_strength" ;;
    Ok (Factor "Team Strength" 0 w (Num.lit 0.1)
          [Lit "Insufficient season data"])
  else
    home_win_pct <- win_pct home_record home_games ;;
    away_win_pct <- win_pct away_record away_games ;;
    let strength_diff := (home_win_pct -! away_win_pct) *! 14 in
    w <- weight_of "team_strength" ;;
    total_games <- py_add home_games away_games ;;
    share <- py_div total_games (PNum 20) ;;
    home_wins <- py_getitem home_record "wins" ;;
    home_losses <- py_getitem home_record "losses" ;;
    away_wins <- py_getitem away_record "wins" ;;
    away_losses <- py_getitem away_record "losses" ;;
    Ok (Factor "Team Strength" strength_diff w
          (Num.min (Num.lit 0.9) share)
          [Lit "Home: "; Fmt (PNum home_win_pct) ".1%"; Lit " (";
           Fmt home_wins ""; Lit "-"; Fmt home_losses "";
           Lit ") vs Away: "; Fmt (PNum away_win_pct) ".1%"; Lit " (";
           Fmt away_wins ""; Lit "-"; Fmt away_losses ""; Lit ")"]).

Definition _calculate_team_strength_factor (home_team away_team : pyval)
  : result PredictionFactor.t :=
  try_except
    (team_strength_try home_team away_team)
    (Ok (Factor "Team Strength" 0 0 0 [Lit "Calculation error"])).

Definition _get_historical_matchups (team1_id team2_id : pyval)
  : result (list Game.t) :=
  try_except
    (games <- get_games db 100 ;;
     Ok (filter
           (fun game =>
              (py_eq (of_sql (Game.home_team_id game)) team1_id &&
               py_eq (of_sql (Game.away_team_id game)) team2_id)
              ||
              (py_eq (of_sql (Game.home_team_id game)) team2_id &&
               py_eq (of_sql (Game.away_team_id game)) team1_id))
           games))
    (Ok []).

(** [l[-n:]] *)
Definition last_n {A : Type} (n : nat) (l : list A) : list A :=
  skipn (List.length l - n) l.

(** The loop over [recent_games], carrying [home_wins] and
    [total_point_diff]. *)
Fixpoint head_to_head_loop (home_team_id : pyval) (recent_games : list Game.t)
    (home_wins : nat) (total_point_diff : Q) : result (nat * Q) :=
  match recent_games with
  | [] => Ok (home_wins, total_point_diff)
  | game :: rest =>
      if py_eq (of_sql (Game.home_team_id game)) home_team_id then
        won <- sql_gt (Game.home_score game) (Game.away_score game) ;;
        margin <- sql_sub (Game.home_score game) (Game.away_score game) ;;
        head_to_head_loop home_team_id rest
          (if won then S home_wins else home_wins)
          (total_point_diff +! margin)
      else
        won <- sql_gt (Game.away_score game) (Game.home_score game) ;;
        margin <- sql_sub (Game.away_score game) (Game.home_score game) ;;
        head_to_head_loop home_team_id rest
          (if won then S home_wins else home_wins)
          (total_point_diff +! margin)
  end.

(** The [try] block of [_calculate_head_to_head_factor]. *)
Definition head_to_head_try (home_team_id away_team_id : pyval)
  : result PredictionFactor.t :=
  historical_games <- _get_historical_matchups home_team_id away_team_id ;;
  if (List.length historical_games <? 3)%nat then
    w <- weight_of "head_to_head" ;;
    Ok (Factor "Head-to-Head" 0 w (Num.lit 0.2)
          [Lit "Limited historical data"])
  else
    let recent_games := last_n 5 historical_games in
    totals <- head_to_head_loop home_team_id recent_games 0 0 ;;
    let n := Num.of_nat (List.length recent_games) in
    let avg_point_diff := snd totals /! n in
    w <- weight_of "head_to_head" ;;
    Ok (Factor "Head-to-Head" avg_point_diff w
          (Num.min (Num.lit 0.8) (n /! 5))
          [Lit "Last "; Fmt (PNum n) ""; Lit " games: avg margin ";
           Fmt (PNum avg_point_diff) "+.1f"; Lit " points"]).

Definition _calculate_head_to_head_factor (home_team_id away_team_id : pyval)
  : result PredictionFactor.t :=
  try_except
    (head_to_head_try home_team_id away_team_id)
    (Ok (Factor "Head-to-Head" 0 0 0 [Lit "Historical data unavailable"])).

(** The [try] block of [_calculate_home_advantage_factor]. *)
Definition home_advantage_try (home_team_id : pyval)
  : result PredictionFactor.t :=
  stadium_info <- stadiums_get home_team_id ;;
  let base_advantage := Num.lit 2.5 in
  let base_advantage :=
    if match stadium_info with
       | Some info => Stadium.dome info
       | None => false
       end
    then base_advantage +! Num.lit 0.5
    else base_advantage in
  w <- weight_of "home_advantage" ;;
  Ok (Factor "Home Advantage" base_advantage w (Num.lit 0.9)
        [Lit "Standard home advantage: "; Fmt (PNum base_advantage) ".1f";
         Lit " points"]).

Definition _calculate_home_advantage_factor (home_team_id : pyval)
  : result PredictionFactor.t :=
  try_except
    (home_advantage_try home_team_id)
    (w <- weight_of "home_advantage" ;;
     Ok (Factor "Home Advantage" (Num.lit 2.5) w (Num.lit 0.8)
           [Lit "Standard advantage"])).

(** The [try] block of [_calculate_rest_factor]. *)
Definition rest_try (game : pyval) : result PredictionFactor.t :=
  w <- weight_of "rest_advantage" ;;
     Ok (Factor "Rest Advantage" 0 w (Num.lit 0.1)
        [Lit "Rest data not implemented"]).

Definition _calculate_rest_factor (game : pyval) : result PredictionFactor.t :=
  try_except
    (rest_try game)
    (Ok (Factor "Rest Advantage" 0 0 0 [Lit "Data unavailable"])).

(** The [try] block of [_calculate_weather_factor]. *)
Definition weather_try (game : pyval) : result PredictionFactor.t :=
  weather <- py_get game "weather" (PDict []) ;;
     indoor <- (if negb (truthy weather) then Ok true
             else st <- py_get weather "status" PNone ;;
                  Ok (py_eq st (PStr "not_needed"))) ;;
  if indoor then
    w <- weight_of "weather_impact" ;;
    Ok (Factor "Weather" 0 w (Num.lit 0.9)
          [Lit "Indoor game - no weather impact"])
  else
    st <- py_get weather "status" PNone ;;
    if py_eq st (PStr "unavailable") then
      w <- weight_of "weather_impact" ;;
      Ok (Factor "Weather" 0 w (Num.lit 0.1)
            [Lit "Weather data unavailable"])
    else
      game_impact <- py_get weather "game_impact" (PDict []) ;;
      total_impact <- py_get game_impact "total_score_impact" (PNum 0) ;;
      w <- weight_of "weather_impact" ;;
      (* the field {total_impact:+.1f} renders a number or fails *)
      impact <- float_field total_impact ;;
      conditions <- py_get weather "conditions" (PStr "unknown") ;;
      Ok (Factor "Weather" impact w (Num.lit 0.7)
            [Lit "Weather impact: "; Fmt total_impact "+.1f";
             Lit " points ("; Fmt conditions ""; Lit ")"]).

Definition _calculate_weather_factor (game : pyval) : result PredictionFactor.t :=
  try_except
    (weather_try game)
    (Ok (Factor "Weather" 0 0 0 [Lit "Weather calculation error"])).

(** The [try] block of [_calculate_motivation_factor]. *)
Definition motivation_try (game : pyval)
  : result PredictionFactor.t :=
  w <- weight_of "motivation" ;;
  Ok (Factor "Motivation" 0 w (Num.lit 0.2)
        [Lit "Motivation factors not implemented"]).

Definition _calculate_motivation_factor (game : pyval)
  : result PredictionFactor.t :=
  try_except
    (motivation_try game)
    (Ok (Factor "Motivation" 0 0 0 [Lit "Motivation data unavailable"])).

(** The [try] block of [_calculate_injury_factor]. *)
Definition injury_try (home_team_id away_team_id : pyval)
  : result PredictionFactor.t :=
  w <- weight_of "injuries" ;;
  Ok (Factor "Injuries" 0 w (Num.lit 0.1)
        [Lit "Injury analysis not implemented"]).

Definition _calculate_injury_factor (home_team_id away_team_id : pyval)
  : result PredictionFactor.t :=
  try_except
    (injury_try home_team_id away_team_id)
    (Ok (Factor "Injuries" 0 0 0 [Lit "Injury data unavailable"])).

(** One turn of the loop over [factors], on
    [(total_weighted_value, total_weight)]. *)
Definition add_factor (totals : Q * Q) (factor : PredictionFactor.t) : Q * Q :=
  if Num.gtb (PredictionFactor.confidence factor) 0 then
    let weighted_value :=
      PredictionFactor.value factor *! PredictionFactor.weight factor
        *! PredictionFactor.confidence factor in
    (fst totals +! weighted_value,
     snd totals +! PredictionFactor.weight factor
                     *! PredictionFactor.confidence factor)
  else totals.

Definition _calculate_final_prediction (factors : list PredictionFactor.t)
    (home_team away_team : pyval) : result FinalPrediction.t :=
  let totals := fold_left add_factor factors (0, 0) in
  let total_weighted_value := fst totals in
  let total_weight := snd totals in
  let predicted_spread :=
    if Num.gtb total_weight 0 then total_weighted_value /! total_weight
    else 0 in
  chosen <-
    (if Num.gtb predicted_spread 0 then
       winner <- py_getitem home_team "name" ;;
       Ok (winner, Num.min 85 (Num.abs predicted_spread *! 8 +! 50))
     else
       winner <- py_getitem away_team "name" ;;
       Ok (winner, Num.min 85 (Num.abs predicted_spread *! 8 +! 50))) ;;
  Ok {| FinalPrediction.winner := fst chosen;
        FinalPrediction.confidence := Num.round1 (snd chosen);
        FinalPrediction.spread := Num.round1 predicted_spread;
        FinalPrediction.total := PNone |}.

Definition _predict_single_game (game : pyval)
  : clocked (option GamePrediction.t) :=
  status <~ lift (py_get game "status" PNone) ;;
  if negb (py_eq status (PStr "STATUS_SCHEDULED")) then ret None
  else
    home_team <~ lift (py_getitem game "home_team") ;;
    away_team <~ lift (py_getitem game "away_team") ;;
    f1 <~ lift (_calculate_team_strength_factor home_team away_team) ;;
    home_id <~ lift (py_getitem home_team "id") ;;
    away_id <~ lift (py_getitem away_team "id") ;;
    f2 <~ lift (_calculate_head_to_head_factor home_id away_id) ;;
    f3 <~ lift (_calculate_home_advantage_factor home_id) ;;
    f4 <~ lift (_calculate_rest_factor game) ;;
    f5 <~ lift (_calculate_weather_factor game) ;;
    f6 <~ lift (_calculate_motivation_factor game) ;;
    f7 <~ lift (_calculate_injury_factor home_id away_id) ;;
    let factors := [f1; f2; f3; f4; f5; f6; f7] in
    prediction_result <~
      lift (_calculate_final_prediction factors home_team away_team) ;;
    game_id <~ lift (py_getitem game "espn_id") ;;
    home_name <~ lift (py_getitem home_team "name") ;;
    away_name <~ lift (py_getitem away_team "name") ;;
    stamp <~ now ;;
    ret (Some
           {| GamePrediction.game_id := game_id;
              GamePrediction.home_team := home_name;
              GamePrediction.away_team := away_name;
              GamePrediction.predicted_winner :=
                FinalPrediction.winner prediction_result;
              GamePrediction.confidence :=
                FinalPrediction.confidence prediction_result;
              GamePrediction.spread_prediction :=
                FinalPrediction.spread prediction_result;
              GamePrediction.total_prediction :=
                FinalPrediction.total prediction_result;
              GamePrediction.factors := factors;
              GamePrediction.algorithm_version :=
                AdvancedPredictionEngine.version self;
              GamePrediction.created_at := stamp |}).

End PredictionEngine.

(* ===================================================================== *)
(** ** backend/services/backtester.py *)
(* ===================================================================== *)

(** An entry of [confidence_buckets]. *)
Module Bucket.
Record t : Type := { correct : nat; total : nat }.
End Bucket.

(** A factor as stored with a replayed prediction. *)
Module FactorEntry.
Record t : Type := { name : string; value : Q; weight : Q }.
End FactorEntry.

(** An entry of [results['predictions']]. *)
Module PredictionEntry.
Record t : Type := {
  game_id : sqlval;
  matchup : fstring;
  predicted_winner : pyval;
  actual_winner : pyval;
  confidence : Q;
  correct : bool;
  factors : list FactorEntry.t
}.
End PredictionEntry.

(** An entry of the table built by [_analyze_factors]. *)
Module FactorStats.
Record t : Type := {
  total_predictions : nat;
  correct_predictions : nat;
  avg_impact : Q;
  accuracy : Q
}.
End FactorStats.

(** The [results] dictionary of [run_backtest]. *)
Module BacktestResults.
Record t : Type := {
  total_games : nat;
  completed_games : nat;
  correct_predictions : nat;
  accuracy : Q;
  avg_confidence : Q;
  predictions : list PredictionEntry.t;
  performance_by_confidence : dict Bucket.t;
  factor_analysis : dict FactorStats.t
}.
End BacktestResults.

(** What [run_backtest] returns: the error dictionary
    [{'error': ..., 'games_analyzed': 0}] or the results. *)
Inductive backtest_report : Type :=
| NoGames (error : string) (games_analyzed : nat)
| Results (results : BacktestResults.t).

(** The dictionary returned by [simulate_betting_performance]. *)
Module Betting.
Record t : Type := {
  total_bets : nat;
  total_wagered : number;
  total_winnings : number;
  profit_loss : number;
  roi_percentage : number;
  break_even_accuracy : Float.t
}.
End Betting.

Module Backtester.
Record t : Type := { prediction_engine : AdvancedPredictionEngine.t }.
End Backtester.

(** [Backtester()] *)
Definition new_backtester : Backtester.t :=
  {| Backtester.prediction_engine := new_engine |}.

(** What the loop of [run_backtest] updates: the counters of [results],
    [total_confidence], [confidence_buckets] and [results['predictions']]. *)
Module Tally.
Record t : Type := {
  completed_games : nat;
  correct_predictions : nat;
  total_confidence : Q;
  confidence_buckets : dict Bucket.t;
  predictions : list PredictionEntry.t
}.
End Tally.

Section Backtesting.

Variable db : list Game.t.
Variable self : Backtester.t.

Definition _is_game_completed (game : Game.t) : result bool :=
  if py_eq (of_sql (Game.status game)) (PStr "STATUS_FINAL") then Ok true
  else
    home_scored <- sql_gt (Game.home_score game) (SNum 0) ;;
    if home_scored then Ok true
    else sql_gt (Game.away_score game) (SNum 0).

Definition _get_historical_games (start_date end_date : option string)
  : result (list Game.t) :=
  try_except
    (all_games <- get_games db 500 ;;
     filterM _is_game_completed all_games)
    (Ok []).

Definition _predict_historical_game (game : Game.t)
  : clocked (option GamePrediction.t) :=
  ctry_except
    (weather <~ lift (if has_text (Game.weather_data game)
                      then json_loads (Game.weather_data game)
                      else Ok (PDict [])) ;;
     let game_data :=
       PDict
         [ ("espn_id", of_sql (Game.espn_id game));
           ("status", PStr "STATUS_SCHEDULED");
           ("home_team",
             PDict [ ("id", of_sql (Game.home_team_id game));
                     ("name", of_sql (Game.home_team_name game));
                     ("record", PDict [("wins", PNum 0); ("losses", PNum 0);
                                       ("ties", PNum 0)]) ]);
           ("away_team",
             PDict [ ("id", of_sql (Game.away_team_id game));
                     ("name", of_sql (Game.away_team_name game));
                     ("record", PDict [("wins", PNum 0); ("losses", PNum 0);
                                       ("ties", PNum 0)]) ]);
           ("weather", weather) ] in
     _predict_single_game db (Backtester.prediction_engine self) game_data)
    (ret None).

Definition _get_actual_winner (game : Game.t) : result pyval :=
  let home_score := Game.home_score game in
  let away_score := Game.away_score game in
  home_won <- sql_gt home_score away_score ;;
  if home_won then Ok (of_sql (Game.home_team_name game))
  else
    away_won <- sql_gt away_score home_score ;;
    if away_won then Ok (of_sql (Game.away_team_name game))
    else Ok (PStr "TIE").

Definition _get_confidence_bucket (confidence : Q) : string :=
  if Num.geb confidence 80 then "80%+"
  else if Num.geb confidence 70 then "70-80%"
  else if Num.geb confidence 60 then "60-70%"
  else "50-60%".

(** The inner loop of [_analyze_factors], over the factors of one
    prediction. *)
Definition count_factor (is_correct : bool) (factor_performance : dict FactorStats.t)
    (factor : FactorEntry.t) : dict FactorStats.t :=
  let name := FactorEntry.name factor in
  let stats :=
    get factor_performance name
      {| FactorStats.total_predictions := 0;
         FactorStats.correct_predictions := 0;
         FactorStats.avg_impact := 0;
         FactorStats.accuracy := 0 |} in
  store name
    {| FactorStats.total_predictions := S (FactorStats.total_predictions stats);
       FactorStats.correct_predictions :=
         if is_correct then S (FactorStats.correct_predictions stats)
         else FactorStats.correct_predictions stats;
       FactorStats.avg_impact :=
         FactorStats.avg_impact stats +! Num.abs (FactorEntry.value factor);
       FactorStats.accuracy := FactorStats.accuracy stats |}
    factor_performance.

(** The closing loop of [_analyze_factors]. *)
Definition average_stats (stats : FactorStats.t) : FactorStats.t :=
  if (0 <? FactorStats.total_predictions stats)%nat then
    let n := Num.of_nat (FactorStats.total_predictions stats) in
    {| FactorStats.total_predictions := FactorStats.total_predictions stats;
       FactorStats.correct_predictions := FactorStats.correct_predictions stats;
       FactorStats.avg_impact := FactorStats.avg_impact stats /! n;
       FactorStats.accuracy :=
         Num.of_nat (FactorStats.correct_predictions stats) /! n |}
  else stats.

Definition _analyze_factors (predictions : list PredictionEntry.t)
  : dict FactorStats.t :=
  let factor_performance :=
    fold_left
      (fun acc pred =>
         fold_left (count_factor (PredictionEntry.correct pred))
           (PredictionEntry.factors pred) acc)
      predictions [] in
  map (fun entry => (fst entry, average_stats (snd entry))) factor_performance.

(** The body of the loop of [run_backtest] for a game that was predicted. *)
Definition record_prediction (game : Game.t) (prediction : GamePrediction.t)
    (tally : Tally.t) : result Tally.t :=
  let completed_games := S (Tally.completed_games tally) in
  actual_winner <- _get_actual_winner game ;;
  let predicted_winner := GamePrediction.predicted_winner prediction in
  let is_correct := py_eq actual_winner predicted_winner in
  let correct_predictions :=
    if is_correct then S (Tally.correct_predictions tally)
    else Tally.correct_predictions tally in
  let confidence := GamePrediction.confidence prediction in
  let total_confidence := Tally.total_confidence tally +! confidence in
  let bucket := _get_confidence_bucket confidence in
  counts <- getitem (Tally.confidence_buckets tally) bucket ;;
  let counts :=
    {| Bucket.total := S (Bucket.total counts);
       Bucket.correct :=
         if is_correct then S (Bucket.correct counts)
         else Bucket.correct counts |} in
  Ok {| Tally.completed_games := completed_games;
        Tally.correct_predictions := correct_predictions;
        Tally.total_confidence := total_confidence;
        Tally.confidence_buckets :=
          store bucket counts (Tally.confidence_buckets tally);
        Tally.predictions :=
          Tally.predictions tally ++
          [ {| PredictionEntry.game_id := Game.espn_id game;
               PredictionEntry.matchup :=
                 [Fmt (of_sql (Game.away_team_name game)) ""; Lit " @ ";
                  Fmt (of_sql (Game.home_team_name game)) ""];
               PredictionEntry.predicted_winner := predicted_winner;
               PredictionEntry.actual_winner := actual_winner;
               PredictionEntry.confidence := confidence;
               PredictionEntry.correct := is_correct;
               PredictionEntry.factors :=
                 map (fun f =>
                        {| FactorEntry.name := PredictionFactor.name f;
                           FactorEntry.value := PredictionFactor.value f;
                           FactorEntry.weight := PredictionFactor.weight f |})
                     (GamePrediction.factors prediction) |} ] |}.

(** [for game in historical_games: ...] of [run_backtest]. *)
Fixpoint backtest_loop (historical_games : list Game.t) (tally : Tally.t)
  : clocked Tally.t :=
  match historical_games with
  | [] => ret tally
  | game :: rest =>
      completed <~ lift (_is_game_completed game) ;;
      if negb completed then backtest_loop rest tally
      else
        prediction <~ _predict_historical_game game ;;
        match prediction with
        | None => backtest_loop rest tally
        | Some p =>
            tally' <~ lift (record_prediction game p tally) ;;
            backtest_loop rest tally'
        end
  end.

Definition run_backtest (start_date end_date : option string)
  : clocked backtest_report :=
  historical_games <~ lift (_get_historical_games start_date end_date) ;;
  match historical_games with
  | [] => ret (NoGames "No historical games found for backtesting" 0)
  | _ =>
      let confidence_buckets :=
        [ ("50-60%", {| Bucket.correct := 0; Bucket.total := 0 |});
          ("60-70%", {| Bucket.correct := 0; Bucket.total := 0 |});
          ("70-80%", {| Bucket.correct := 0; Bucket.total := 0 |});
          ("80%+", {| Bucket.correct := 0; Bucket.total := 0 |}) ] in
      tally <~ backtest_loop historical_games
                 {| Tally.completed_games := 0;
                    Tally.correct_predictions := 0;
                    Tally.total_confidence := 0;
                    Tally.confidence_buckets := confidence_buckets;
                    Tally.predictions := [] |} ;;
      let completed := Tally.completed_games tally in
      let measured := (0 <? completed)%nat in
      ret (Results
             {| BacktestResults.total_games := List.length historical_games;
                BacktestResults.completed_games := completed;
                BacktestResults.correct_predictions :=
                  Tally.correct_predictions tally;
                BacktestResults.accuracy :=
                  if measured
                  then Num.of_nat (Tally.correct_predictions tally)
                         /! Num.of_nat completed
                  else 0;
                BacktestResults.avg_confidence :=
                  if measured
                  then Tally.total_confidence tally /! Num.of_nat completed
                  else 0;
                BacktestResults.predictions := Tally.predictions tally;
                BacktestResults.performance_by_confidence :=
                  Tally.confidence_buckets tally;
                BacktestResults.factor_analysis :=
                  _analyze_factors (Tally.predictions tally) |})
  end.

(** [backtest_results.get('predictions', [])] *)
Definition predictions_of (backtest_results : backtest_report)
  : list PredictionEntry.t :=
  match backtest_results with
  | NoGames _ _ => []
  | Results results => BacktestResults.predictions results
  end.

(** One turn of the loop of [simulate_betting_performance], on
    [(total_bets, total_winnings, total_wagered)].  The stake is an int (as
    the default 100) or a float; the payout constant is the float 0.9091. *)
Definition place_bet (bet_amount : number) (totals : nat * number * number)
    (prediction : PredictionEntry.t) : result (nat * number * number) :=
  let '(total_bets, total_winnings, total_wagered) := totals in
  if Num.ltb (PredictionEntry.confidence prediction) 60 then Ok totals
  else
    total_wagered <- num_add total_wagered bet_amount ;;
    total_winnings <-
      (if PredictionEntry.correct prediction
       then
         payout <- num_mul bet_amount (NFloat (Float.nearest 9091 10000)) ;;
         num_add total_winnings payout
       else Ok total_winnings) ;;
    Ok (S total_bets, total_winnings, total_wagered).

(** [for prediction in backtest_results.get('predictions', []): ...] *)
Fixpoint betting_loop (bet_amount : number)
    (predictions : list PredictionEntry.t) (totals : nat * number * number)
  : result (nat * number * number) :=
  match predictions with
  | [] => Ok totals
  | prediction :: rest =>
      totals' <- place_bet bet_amount totals prediction ;;
      betting_loop bet_amount rest totals'
  end.

Definition simulate_betting_performance (backtest_results : backtest_report)
    (bet_amount : number) : result Betting.t :=
  totals <- betting_loop bet_amount (predictions_of backtest_results)
              (0%nat, NInt 0, NInt 0) ;;
  let '(total_bets, total_winnings, total_wagered) := totals in
  profit_loss <- num_sub total_winnings total_wagered ;;
  roi <- (if num_positive total_wagered
          then
            ratio <- num_div profit_loss total_wagered ;;
            num_mul ratio (NInt 100)
          else Ok (NInt 0)) ;;
  Ok {| Betting.total_bets := total_bets;
        Betting.total_wagered := total_wagered;
        Betting.total_winnings := total_winnings;
        Betting.profit_loss := profit_loss;
        Betting.roi_percentage := roi;
        Betting.break_even_accuracy := Float.nearest 5238 100 |}.

End Backtesting.

(* ===================================================================== *)
(** ** backend/services/optimizer.py *)
(* ===================================================================== *)

(** The dictionary returned by [_run_test_backtest]; the error and the
    empty-sample dictionaries have no [correct_predictions]. *)
Module TestBacktest.
Record t : Type := {
  accuracy : Q;
  completed_games : nat;
  correct_predictions : option nat
}.
End TestBacktest.

(** An entry of [results_log]. *)
Module TestLog.
Record t : Type := {
  weights : dict Q;
  accuracy : Q;
  total_games : nat
}.
End TestLog.

(** The dictionary returned by [optimize_factor_weights]. *)
Module Optimization.
Record t : Type := {
  best_weights : option (dict Q);
  best_accuracy : Q;
  best_results : option TestBacktest.t;
  all_tests : list TestLog.t;
  optimization_date : time
}.
End Optimization.

(** An entry of [factor_analysis] in [analyze_factor_importance]. *)
Module Importance.
Record t : Type := {
  baseline_accuracy : Q;
  without_factor_accuracy : Q;
  accuracy_drop : Q;
  importance_score : Q
}.
End Importance.

(** What [analyze_factor_importance] returns. *)
Inductive importance_report : Type :=
| NoData (error : string)
| Analysis (baseline_accuracy : Q) (factor_importance : dict Importance.t)
           (analysis_date : time).

Module AlgorithmOptimizer.
Record t : Type := {
  backtester : Backtester.t;
  base_engine : AdvancedPredictionEngine.t
}.
End AlgorithmOptimizer.

(** [AlgorithmOptimizer()] *)
Definition new_optimizer : AlgorithmOptimizer.t :=
  {| AlgorithmOptimizer.backtester := new_backtester;
     AlgorithmOptimizer.base_engine := new_engine |}.

Definition weight_options : dict (list Q) :=
  [ ("team_strength", map Num.lit [0.25; 0.30; 0.35; 0.40]);
    ("head_to_head", map Num.lit [0.15; 0.20; 0.25]);
    ("home_advantage", map Num.lit [0.10; 0.15; 0.20]);
    ("rest_advantage", map Num.lit [0.05; 0.10; 0.15]);
    ("weather_impact", map Num.lit [0.05; 0.10; 0.15]);
    ("motivation", map Num.lit [0.02; 0.05; 0.08]);
    ("injuries", map Num.lit [0.02; 0.05; 0.08]) ]%Q.

Definition _generate_weight_combinations (options : dict (list Q))
  : list (dict Q) :=
  [ (* Balanced approach *)
    [ ("team_strength", Num.lit 0.35);
      ("head_to_head", Num.lit 0.20);
      ("home_advantage", Num.lit 0.15);
      ("rest_advantage", Num.lit 0.10);
      ("weather_impact", Num.lit 0.10);
      ("motivation", Num.lit 0.05);
      ("injuries", Num.lit 0.05) ];
    (* Heavy team strength focus *)
    [ ("team_strength", Num.lit 0.45);
      ("head_to_head", Num.lit 0.15);
      ("home_advantage", Num.lit 0.15);
      ("rest_advantage", Num.lit 0.10);
      ("weather_impact", Num.lit 0.08);
      ("motivation", Num.lit 0.04);
      ("injuries", Num.lit 0.03) ];
    (* Historical focus *)
    [ ("team_strength", Num.lit 0.30);
      ("head_to_head", Num.lit 0.30);
      ("home_advantage", Num.lit 0.15);
      ("rest_advantage", Num.lit 0.10);
      ("weather_impact", Num.lit 0.08);
      ("motivation", Num.lit 0.04);
      ("injuries", Num.lit 0.03) ] ].

(** A fresh engine with its weights replaced.  Constructing an engine opens
    the database and creates missing tables; the rows stay as they are. *)
Definition _create_test_engine (weights : dict Q) : AdvancedPredictionEngine.t :=
  {| AdvancedPredictionEngine.factor_weights := weights;
     AdvancedPredictionEngine.version := AdvancedPredictionEngine.version new_engine |}.

(** What the loop of [optimize_factor_weights] updates. *)
Module Search.
Record t : Type := {
  best_accuracy : Q;
  best_weights : option (dict Q);
  best_results : option TestBacktest.t;
  results_log : list TestLog.t
}.
End Search.

Definition search_start : Search.t :=
  {| Search.best_accuracy := 0;
     Search.best_weights := None;
     Search.best_results := None;
     Search.results_log := [] |}.

Section WeightSearch.

(** [self._create_test_engine] followed by [self._run_test_backtest]. *)
Variable run_candidate : dict Q -> clocked TestBacktest.t.

(** The body of the loop of [optimize_factor_weights] once the candidate
    has been scored. *)
Definition consider (weights : dict Q) (backtest_results : TestBacktest.t)
    (search : Search.t) : Search.t :=
  let improved :=
    Num.gtb (TestBacktest.accuracy backtest_results)
            (Search.best_accuracy search) in
  {| Search.best_accuracy :=
       if improved then TestBacktest.accuracy backtest_results
       else Search.best_accuracy search;
     Search.best_weights :=
       if improved then Some weights else Search.best_weights search;
     Search.best_results :=
       if improved then Some backtest_results
       else Search.best_results search;
     Search.results_log :=
       Search.results_log search ++
       [ {| TestLog.weights := weights;
            TestLog.accuracy := TestBacktest.accuracy backtest_results;
            TestLog.total_games :=
              TestBacktest.completed_games backtest_results |} ] |}.

(** [for i, weights in enumerate(test_combinations[:10]): ...] *)
Fixpoint search_loop (test_combinations : list (dict Q)) (search : Search.t)
  : clocked Search.t :=
  match test_combinations with
  | [] => ret search
  | weights :: rest =>
      backtest_results <~ run_candidate weights ;;
      search_loop rest (consider weights backtest_results search)
  end.

Definition search_weights (test_combinations : list (dict Q))
  : clocked Optimization.t :=
  search <~ search_loop test_combinations search_start ;;
  stamp <~ now ;;
  ret {| Optimization.best_weights := Search.best_weights search;
         Optimization.best_accuracy := Search.best_accuracy search;
         Optimization.best_results := Search.best_results search;
         Optimization.all_tests := Search.results_log search;
         Optimization.optimization_date := stamp |}.

End WeightSearch.

Section Optimizer.

Variable db : list Game.t.
Variable self : AlgorithmOptimizer.t.

(** [for game in historical_games: ...] of [_run_test_backtest], on
    [(correct, total)]. *)
Fixpoint test_loop (historical_games : list Game.t) (correct total : nat)
  : clocked (nat * nat) :=
  match historical_games with
  | [] => ret (correct, total)
  | game :: rest =>
      completed <~ lift (_is_game_completed game) ;;
      if negb completed then test_loop rest correct total
      else
        prediction <~
          _predict_historical_game db (AlgorithmOptimizer.backtester self) game ;;
        match prediction with
        | None => test_loop rest correct total
        | Some p =>
            actual_winner <~ lift (_get_actual_winner game) ;;
            test_loop rest
              (if py_eq (GamePrediction.predicted_winner p) actual_winner
               then S correct else correct)
              (S total)
        end
  end.

(** The [engine] handed in is never consulted: every prediction comes
    from [self.backtester._predict_historical_game]. *)
Definition _run_test_backtest (engine : AdvancedPredictionEngine.t)
  : clocked TestBacktest.t :=
  ctry_except
    (all_games <~ lift (_get_historical_games db None None) ;;
     let historical_games := firstn 50 all_games in
     match historical_games with
     | [] =>
         ret {| TestBacktest.accuracy := 0;
                TestBacktest.completed_games := 0;
                TestBacktest.correct_predictions := None |}
     | _ =>
         counts <~ test_loop historical_games 0 0 ;;
         let correct := fst counts in
         let total := snd counts in
         ret {| TestBacktest.accuracy :=
                  if (0 <? total)%nat
                  then Num.of_nat correct /! Num.of_nat total
                  else 0;
                TestBacktest.completed_games := total;
                TestBacktest.correct_predictions := Some correct |}
     end)
    (ret {| TestBacktest.accuracy := 0;
            TestBacktest.completed_games := 0;
            TestBacktest.correct_predictions := None |}).

Definition optimize_factor_weights : clocked Optimization.t :=
  let test_combinations := _generate_weight_combinations weight_options in
  search_weights
    (fun weights => _run_test_backtest (_create_test_engine weights))
    (firstn 10 test_combinations).

(** [sum(test_weights.values())] *)
Definition sum_values (l : list Q) : Q := fold_left Num.add l 0.

(** The weights tested without [factor_name]: the entry is popped and its
    weight spread over the others in proportion. *)
Definition ablated_weights (factor_name : string) : result (dict Q) :=
  let base := AdvancedPredictionEngine.factor_weights
                (AlgorithmOptimizer.base_engine self) in
  removed_weight <- getitem base factor_name ;;
  let test_weights := remove factor_name base in
  let total_remaining := sum_values (values test_weights) in
  Ok (if Num.gtb total_remaining 0
      then map (fun kv =>
                  (fst kv,
                   snd kv +! removed_weight *! snd kv /! total_remaining))
               test_weights
      else test_weights).

(** [for factor_name in self.base_engine.factor_weights.keys(): ...] *)
Fixpoint ablation_loop (baseline_accuracy : Q) (factor_names : list string)
    (factor_analysis : dict Importance.t) : clocked (dict Importance.t) :=
  match factor_names with
  | [] => ret factor_analysis
  | factor_name :: rest =>
      test_weights <~ lift (ablated_weights factor_name) ;;
      let test_engine := _create_test_engine test_weights in
      test_results <~ _run_test_backtest test_engine ;;
      let accuracy_drop :=
        baseline_accuracy -! TestBacktest.accuracy test_results in
      ablation_loop baseline_accuracy rest
        (store factor_name
           {| Importance.baseline_accuracy := baseline_accuracy;
              Importance.without_factor_accuracy :=
                TestBacktest.accuracy test_results;
              Importance.accuracy_drop := accuracy_drop;
              Importance.importance_score := accuracy_drop *! 100 |}
           factor_analysis)
  end.

Definition analyze_factor_importance : clocked importance_report :=
  baseline_results <~
    run_backtest db (AlgorithmOptimizer.backtester self) None None ;;
  match baseline_results with
  | NoGames _ _ => ret (NoData "No historical data available for analysis")
  | Results baseline =>
      if (BacktestResults.completed_games baseline =? 0)%nat
      then ret (NoData "No historical data available for analysis")
      else
        factor_analysis <~
          ablation_loop (BacktestResults.accuracy baseline)
            (keys (AdvancedPredictionEngine.factor_weights
                     (AlgorithmOptimizer.base_engine self)))
            [] ;;
        stamp <~ now ;;
        ret (Analysis (BacktestResults.accuracy baseline) factor_analysis stamp)
  end.

End Optimizer.


(* ===================================================================== *)
(** ** backend/services/prediction_engine.py: batches and the performance report *)
(* ===================================================================== *)

(** The dictionary returned by [get_model_performance]. *)
Module ModelPerformance.
Record t : Type := {
  total_predictions : nat;
  correct_predictions : nat;
  accuracy_percentage : Q;
  average_confidence : Q;
  model_version : string
}.
End ModelPerformance.

(** [get_model_performance]: the [try] block builds a dictionary of
    constants and cannot fail. *)
Definition get_model_performance (self : AdvancedPredictionEngine.t)
  : ModelPerformance.t :=
  {| ModelPerformance.total_predictions := 0;
     ModelPerformance.correct_predictions := 0;
     ModelPerformance.accuracy_percentage := 0;
     ModelPerformance.average_confidence := 0;
     ModelPerformance.model_version := AdvancedPredictionEngine.version self |}.

Section BatchPrediction.

Variable db : list Game.t.
Variable self : AdvancedPredictionEngine.t.

(** [self.data_manager.get_prediction_data().get('games', [])]: the games of
    the current week as the collectors fetch them over the network. *)
Variable current_games : clocked (list pyval).

(** [for game in games_data: ...] of [predict_games].  The handler logs
    [game.get('espn_id')], which fails in turn on a game that is no dict. *)
Fixpoint predict_loop (games_data : list pyval)
    (predictions : list GamePrediction.t) : clocked (list GamePrediction.t) :=
  match games_data with
  | [] => ret predictions
  | game :: rest =>
      predictions' <~
        ctry_except
          (prediction <~ _predict_single_game db self game ;;
           ret (match prediction with
                | Some p => predictions ++ [p]
                | None => predictions
                end))
          (_ <~ lift (py_get game "espn_id" PNone) ;; ret predictions) ;;
      predict_loop rest predictions'
  end.

(** [predict_games(games_data=None)]: [None] and the empty list both send
    the engine to the data manager. *)
Definition predict_games (games_data : option (list pyval))
  : clocked (list GamePrediction.t) :=
  games <~ match games_data with
           | None | Some [] => current_games
           | Some games => ret games
           end ;;
  predict_loop games [].

End BatchPrediction.

(* ===================================================================== *)
(** ** backend/services/weather_collector.py: the scoring impact *)
(* ===================================================================== *)

(** The dictionary built by [_calculate_game_impact]. *)
Module GameImpact.
Record t : Type := {
  total_score_impact : Q;
  passing_impact : Q;
  kicking_impact : Q;
  overall_rating : string
}.
End GameImpact.

(** [v < q] and [v > q] against a number: anything but a number raises. *)
Definition py_lt_num (v : pyval) (q : Q) : result bool :=
  match as_num v with
  | Some x => Ok (Num.ltb x q)
  | None => Raised TypeError
  end.

Definition py_gt_num (v : pyval) (q : Q) : result bool :=
  match as_num v with
  | Some x => Ok (Num.gtb x q)
  | None => Raised TypeError
  end.

(** [v in [a, b, ...]] *)
Definition py_in (v : pyval) (l : list pyval) : bool :=
  existsb (fun a => py_eq a v) l.

(** Subtracts from the three impacts at once. *)
Definition lower (impact : GameImpact.t) (total passing kicking : Q)
  : GameImpact.t :=
  {| GameImpact.total_score_impact := GameImpact.total_score_impact impact -! total;
     GameImpact.passing_impact := GameImpact.passing_impact impact -! passing;
     GameImpact.kicking_impact := GameImpact.kicking_impact impact -! kicking;
     GameImpact.overall_rating := GameImpact.overall_rating impact |}.

Definition _calculate_game_impact (temp wind_speed conditions : pyval)
  : result GameImpact.t :=
  let impact :=
    {| GameImpact.total_score_impact := 0;
       GameImpact.passing_impact := 0;
       GameImpact.kicking_impact := 0;
       GameImpact.overall_rating := "neutral" |} in
  (* Temperature impact *)
  freezing <- py_lt_num temp 32 ;;
  impact <- (if freezing then Ok (lower impact 3 2 2)
             else
               hot <- py_gt_num temp 90 ;;
               Ok (if hot then lower impact 1 1 0 else impact)) ;;
  (* Wind impact *)
  strong <- py_gt_num wind_speed 20 ;;
  impact <- (if strong then Ok (lower impact 4 3 4)
             else
               moderate <- py_gt_num wind_speed 15 ;;
               Ok (if moderate then lower impact 2 1 2 else impact)) ;;
  (* Precipitation impact *)
  let impact :=
    if py_in conditions [PStr "Rain"; PStr "Snow"; PStr "Thunderstorm"]
    then lower impact 3 2 1 else impact in
  (* Overall rating *)
  let total_impact := Num.abs (GameImpact.total_score_impact impact) in
  Ok {| GameImpact.total_score_impact := GameImpact.total_score_impact impact;
        GameImpact.passing_impact := GameImpact.passing_impact impact;
        GameImpact.kicking_impact := GameImpact.kicking_impact impact;
        GameImpact.overall_rating :=
          if Num.geb total_impact 5 then "severe"
          else if Num.geb total_impact 3 then "moderate"
          else if Num.geb total_impact 1 then "mild"
          else GameImpact.overall_rating impact |}.

(** The impact as it sits in the weather dictionary of a game. *)
Definition impact_dict (impact : GameImpact.t) : pyval :=
  PDict [ ("total_score_impact", PNum (GameImpact.total_score_impact impact));
          ("passing_impact", PNum (GameImpact.passing_impact impact));
          ("kicking_impact", PNum (GameImpact.kicking_impact impact));
          ("overall_rating", PStr (GameImpact.overall_rating impact)) ].

(* ===================================================================== *)
(** ** backend/services/espn_collector.py: outdoor stadiums *)
(* ===================================================================== *)

(** [not self.stadiums.get(team_id, {}).get('dome', True)] *)
Definition _needs_weather_data (team_id : pyval) : result bool :=
  stadium_info <- stadiums_get team_id ;;
  Ok (negb match stadium_info with
           | Some info => Stadium.dome info
           | None => true
           end).

(* ===================================================================== *)
(** ** backend/services/optimizer.py: recommendations *)
(* ===================================================================== *)

(** An entry of [recommendations]; the field [type] is the constructor. *)
Inductive recommendation : Type :=
| WeightOptimization (priority : string) (description : fstring)
                     (suggested_weights : option (dict Q))
| FactorRemoval (priority : string) (description : fstring)
                (factors : list string)
| DataEnhancement (priority : string) (description : fstring)
                  (action : string).

(** The entry [current_performance] of the result. *)
Module CurrentPerformance.
Record t : Type := { accuracy : Q; total_games_analyzed : nat }.
End CurrentPerformance.

(** The dictionary returned by [recommend_improvements]. *)
Module Improvements.
Record t : Type := {
  recommendations : list recommendation;
  current_performance : CurrentPerformance.t;
  generated_at : time
}.
End Improvements.

Section Recommendations.

Variable db : list Game.t.
Variable self : AlgorithmOptimizer.t.

Definition recommend_improvements : clocked Improvements.t :=
  (* Run various analyses *)
  optimization_results <~ optimize_factor_weights db self ;;
  importance_analysis <~ analyze_factor_importance db self ;;
  let recommendations := [] in
  (* Weight optimization recommendations *)
  let recommendations :=
    if Num.gtb (Optimization.best_accuracy optimization_results)
               (ModelPerformance.accuracy_percentage
                  (get_model_performance (AlgorithmOptimizer.base_engine self)))
    then
      recommendations ++
      [ WeightOptimization "high"
          [ Lit "Optimize factor weights to improve accuracy by ";
            Fmt (PNum (Optimization.best_accuracy optimization_results *! 100))
                ".1f";
            Lit "%" ]
          (Optimization.best_weights optimization_results) ]
    else recommendations in
  (* Factor importance recommendations *)
  let recommendations :=
    match importance_analysis with
    | Analysis _ ((_ :: _) as factor_importance) _ =>
        let low_impact_factors :=
          map fst
              (filter (fun entry =>
                         Num.ltb (Importance.importance_score (snd entry)) 1)
                      factor_importance) in
        match low_impact_factors with
        | [] => recommendations
        | _ :: _ =>
            recommendations ++
            [ FactorRemoval "medium"
                [ Lit "Consider removing low-impact factors: ";
                  Fmt (PStr (String.concat ", " low_impact_factors)) "" ]
                low_impact_factors ]
        end
    | _ => recommendations
    end in
  (* Data quality recommendations *)
  let recommendations :=
    recommendations ++
    [ DataEnhancement "medium"
        [ Lit "Implement weather API integration for better outdoor game predictions" ]
        "weather_integration";
      DataEnhancement "low"
        [ Lit "Add injury report analysis for more accurate predictions" ]
        "injury_integration" ] in
  (* optimization_results.get('best_results', {}).get('completed_games', 0):
     the key is always present, so the default never applies *)
  total_games_analyzed <~
    lift (match Optimization.best_results optimization_results with
          | Some best_results => Ok (TestBacktest.completed_games best_results)
          | None => Raised AttributeError
          end) ;;
  stamp <~ now ;;
  ret {| Improvements.recommendations := recommendations;
         Improvements.current_performance :=
           {| CurrentPerformance.accuracy :=
                Optimization.best_accuracy optimization_results;
              CurrentPerformance.total_games_analyzed := total_games_analyzed |};
         Improvements.generated_at := stamp |}.

End Recommendations.

(* ===================================================================== *)
(** ** Data for the worked examples *)
(* ===================================================================== *)

(** [{'wins': w, 'losses': l, 'ties': t}] *)
Definition season_record (wins losses ties : Q) : pyval :=
  PDict [("wins", PNum wins); ("losses", PNum losses); ("ties", PNum ties)].

Definition team (id name : string) (record : pyval) : pyval :=
  PDict [("id", PStr id); ("name", PStr name); ("record", record)].

(** An upcoming game of an unbeaten home side against a winless visitor. *)
Definition sample_matchup : pyval :=
  PDict [ ("espn_id", PStr "401547417");
          ("status", PStr "STATUS_SCHEDULED");
          ("home_team", team "2" "Buffalo Bills" (season_record 10 0 0));
          ("away_team", team "15" "Miami Dolphins" (season_record 0 10 0)) ].

(** Seven factors that all lost their confidence. *)
Definition silent_factors : list PredictionFactor.t :=
  map (fun n => Factor n 3 (Num.lit 0.2) 0 [Lit "Calculation error"])
      ["Team Strength"; "Head-to-Head"; "Home Advantage"; "Rest Advantage";
       "Weather"; "Motivation"; "Injuries"].

(** A replayed prediction on the home side at the given confidence. *)
Definition settled_bet (confidence : Q) (correct : bool) : PredictionEntry.t :=
  {| PredictionEntry.game_id := SText "401547417";
     PredictionEntry.matchup := [Fmt (PStr "Miami Dolphins") ""; Lit " @ ";
                                 Fmt (PStr "Buffalo Bills") ""];
     PredictionEntry.predicted_winner := PStr "Buffalo Bills";
     PredictionEntry.actual_winner :=
       if correct then PStr "Buffalo Bills" else PStr "Miami Dolphins";
     PredictionEntry.confidence := confidence;
     PredictionEntry.correct := correct;
     PredictionEntry.factors := [] |}.

(** A backtest result holding the given predictions. *)
Definition report_of (predictions : list PredictionEntry.t) : backtest_report :=
  Results
    {| BacktestResults.total_games := List.length predictions;
       BacktestResults.completed_games := List.length predictions;
       BacktestResults.correct_predictions :=
         List.length (filter PredictionEntry.correct predictions);
       BacktestResults.accuracy := 0;
       BacktestResults.avg_confidence := 0;
       BacktestResults.predictions := predictions;
       BacktestResults.performance_by_confidence := [];
       BacktestResults.factor_analysis := [] |}.

(** The final of Miami at Buffalo [n] seasons before 2023. *)
Definition bills_dolphins (n : nat) (home_score away_score : Q)
    (weather : json_text) : Game.t :=
  {| Game.espn_id :=
       SText ("hist_" ++ NilZero.string_of_uint (Nat.to_uint n))%string;
     Game.game_date :=
       SText (NilZero.string_of_uint (Nat.to_uint (2023 - n))
              ++ "-10-01T17:00Z")%string;
     Game.home_team_id := SText "2";
     Game.home_team_name := SText "Buffalo Bills";
     Game.away_team_id := SText "15";
     Game.away_team_name := SText "Miami Dolphins";
     Game.status := SText "STATUS_FINAL";
     Game.home_score := SNum home_score;
     Game.away_score := SNum away_score;
     Game.weather_data := weather;
     Game.raw_data := Json (PDict []) |}.

(** The column text [{"conditions": "clear"}]. *)
Definition clear_weather : json_text :=
  Json (PDict [("conditions", PStr "clear")]).

(** Fifty home wins and, before them, one home loss: 51 rows, most recent
    first. *)
Definition long_season : list Game.t :=
  map (fun n => bills_dolphins n 24 17 clear_weather) (seq 0 50) ++
  [bills_dolphins 50 17 24 clear_weather].

(** One final game, lost by the home side in weather that costs five
    points. *)
Definition stormy_loss : Game.t :=
  bills_dolphins 0 17 24
    (Json (PDict [ ("status", PStr "available");
                   ("conditions", PStr "Snow");
                   ("game_impact",
                     PDict [("total_score_impact", PNum (-5))]) ])).

(** An optimizer whose baseline configuration gives injuries no weight. *)
Definition optimizer_without_injuries : AlgorithmOptimizer.t :=
  {| AlgorithmOptimizer.backtester := new_backtester;
     AlgorithmOptimizer.base_engine :=
       _create_test_engine
         [ ("team_strength", Num.lit 0.35);
           ("head_to_head", Num.lit 0.20);
           ("home_advantage", Num.lit 0.15);
           ("rest_advantage", Num.lit 0.10);
           ("weather_impact", Num.lit 0.15);
           ("motivation", Num.lit 0.05);
           ("injuries", 0) ] |}.

(* ===================================================================== *)
(** ** Notions used in the statements *)
(* ===================================================================== *)

(** The failure policy of a calculator, given its [try] block: it returns
    a factor, and when the block raised, a factor of value 0 and
    confidence 0 that carries a text. *)
Definition failure_policy (attempt calculator : result PredictionFactor.t) : Prop :=
  (exists f, calculator = Ok f) /\
  (raises attempt ->
   exists f, calculator = Ok f /\
             PredictionFactor.value f = 0 /\
             PredictionFactor.confidence f = 0 /\
             exists text, PredictionFactor.explanation f = [Lit text]).

(** The team carries the season record [wins]-[losses]-[ties]. *)
Definition has_record (team : pyval) (wins losses ties : Q) : Prop :=
  exists record,
    py_get team "record" default_record = Ok record /\
    py_getitem record "wins" = Ok (PNum wins) /\
    py_getitem record "losses" = Ok (PNum losses) /\
    py_getitem record "ties" = Ok (PNum ties).

(** A prediction the betting simulation stakes on and that came true. *)
Definition winning_bet (p : PredictionEntry.t) : Prop :=
  (60 <= PredictionEntry.confidence p)%Q /\ PredictionEntry.correct p = true.

(** A prediction with its time stamp blanked. *)
Definition unstamp (p : GamePrediction.t) : GamePrediction.t :=
  {| GamePrediction.game_id := GamePrediction.game_id p;
     GamePrediction.home_team := GamePrediction.home_team p;
     GamePrediction.away_team := GamePrediction.away_team p;
     GamePrediction.predicted_winner := GamePrediction.predicted_winner p;
     GamePrediction.confidence := GamePrediction.confidence p;
     GamePrediction.spread_prediction := GamePrediction.spread_prediction p;
     GamePrediction.total_prediction := GamePrediction.total_prediction p;
     GamePrediction.factors := GamePrediction.factors p;
     GamePrediction.algorithm_version := GamePrediction.algorithm_version p;
     GamePrediction.created_at := 0%nat |}.

(** What a run of a predictor yields, up to the time stamp. *)
Definition unstamped (run : result (option GamePrediction.t) * time)
  : result (option GamePrediction.t) :=
  match fst run with
  | Ok (Some p) => Ok (Some (unstamp p))
  | other => other
  end.

(** Objects that are no containers. *)
Definition atom (v : pyval) : Prop :=
  match v with
  | PList _ | PDict _ => False
  | _ => True
  end.

(** What the weight search has settled on, given its log so far: nothing
    while no candidate scored above 0, otherwise the earliest entry of the
    highest accuracy. *)
Definition settled (search : Search.t) : Prop :=
  (Search.best_weights search = None /\
   Search.best_accuracy search = 0 /\
   forall entry, In entry (Search.results_log search) ->
                 (TestLog.accuracy entry <= 0)%Q)
  \/
  (exists before entry after,
     Search.results_log search = before ++ entry :: after /\
     Search.best_weights search = Some (TestLog.weights entry) /\
     Search.best_accuracy search = TestLog.accuracy entry /\
     (0 < TestLog.accuracy entry)%Q /\
     (forall e, In e before -> (TestLog.accuracy e < TestLog.accuracy entry)%Q) /\
     (forall e, In e after -> (TestLog.accuracy e <= TestLog.accuracy entry)%Q)).

(* ===================================================================== *)
(** ** More data for the worked examples *)
(* ===================================================================== *)

(** A final game stored without its scores. *)
Definition unscored_final : Game.t :=
  {| Game.espn_id := SText "hist_1";
     Game.game_date := SText "2022-10-01T17:00Z";
     Game.home_team_id := SText "2";
     Game.home_team_name := SText "Buffalo Bills";
     Game.away_team_id := SText "15";
     Game.away_team_name := SText "Miami Dolphins";
     Game.status := SText "STATUS_FINAL";
     Game.home_score := SNull;
     Game.away_score := SNull;
     Game.weather_data := clear_weather;
     Game.raw_data := Json (PDict []) |}.

(* ===================================================================== *)
(** ** More notions used in the statements *)
(* ===================================================================== *)

(** The test of [_get_historical_matchups]: the row is a meeting of the
    two teams, either of them at home. *)
Definition involves (game : Game.t) (team1_id team2_id : pyval) : bool :=
  (py_eq (of_sql (Game.home_team_id game)) team1_id &&
   py_eq (of_sql (Game.away_team_id game)) team2_id)
  ||
  (py_eq (of_sql (Game.home_team_id game)) team2_id &&
   py_eq (of_sql (Game.away_team_id game)) team1_id).

(** The names of the seven factors, in the order the engine computes
    them. *)
Definition factor_names : list string :=
  [ "Team Strength"; "Head-to-Head"; "Home Advantage"; "Rest Advantage";
    "Weather"; "Motivation"; "Injuries" ].

(** What a factor of the table looks like: its name, a confidence of at
    most 0.9, a weight that is 0 or read from the configuration and, for a
    placeholder, the value 0. *)
Definition shaped (self : AdvancedPredictionEngine.t) (name : string)
    (placeholder : bool) (f : PredictionFactor.t) : Prop :=
  PredictionFactor.name f = name /\
  (PredictionFactor.confidence f <= 9 # 10)%Q /\
  (PredictionFactor.weight f = 0 \/
   exists key, weight_of self key = Ok (PredictionFactor.weight f)) /\
  (placeholder = true -> PredictionFactor.value f = 0).

(** [isinstance(v, dict)] *)
Definition is_dict (v : pyval) : bool :=
  match v with
  | PDict _ => true
  | _ => false
  end.

(** The JSON columns of the row parse (or are empty). *)
Definition readable (game : Game.t) : bool :=
  match Game.weather_data game, Game.raw_data game with
  | Malformed, _ | _, Malformed => false
  | _, _ => true
  end.

(** The completion test of the backtester can be carried out on the row. *)
Definition judged (game : Game.t) : bool :=
  match _is_game_completed game with
  | Ok _ => true
  | Raised _ => false
  end.

(** The row passes the completion test. *)
Definition completed (game : Game.t) : bool :=
  match _is_game_completed game with
  | Ok b => b
  | Raised _ => false
  end.

(** The labels of the confidence buckets, as [run_backtest] lists them. *)
Definition bucket_labels : list string :=
  ["50-60%"; "60-70%"; "70-80%"; "80%+"].

(** The replayed prediction falls into the bucket of that label. *)
Definition in_bucket (label : string) (entry : PredictionEntry.t) : bool :=
  String.eqb (_get_confidence_bucket (PredictionEntry.confidence entry)) label.

(** The two scores of the row can be compared. *)
Definition comparable (game : Game.t) : bool :=
  match sql_gt (Game.home_score game) (Game.away_score game) with
  | Ok _ => true
  | Raised _ => false
  end.

(** The counters of the tally against the entries it holds. *)
Definition counted (tally : Tally.t) : Prop :=
  Tally.completed_games tally = List.length (Tally.predictions tally) /\
  Tally.correct_predictions tally =
    List.length (filter PredictionEntry.correct (Tally.predictions tally)) /\
  (50 * Num.of_nat (Tally.completed_games tally)
   <= Tally.total_confidence tally
   <= 85 * Num.of_nat (Tally.completed_games tally))%Q.

(** The tally of [run_backtest] before the first game. *)
Definition empty_tally : Tally.t :=
  {| Tally.completed_games := 0;
     Tally.correct_predictions := 0;
     Tally.total_confidence := 0;
     Tally.confidence_buckets :=
       [ ("50-60%", {| Bucket.correct := 0; Bucket.total := 0 |});
         ("60-70%", {| Bucket.correct := 0; Bucket.total := 0 |});
         ("70-80%", {| Bucket.correct := 0; Bucket.total := 0 |});
         ("80%+", {| Bucket.correct := 0; Bucket.total := 0 |}) ];
     Tally.predictions := [] |}.

(** The results [run_backtest] builds from the corpus and the final
    tally. *)
Definition results_of (historical_games : list Game.t) (tally : Tally.t)
  : BacktestResults.t :=
  let completed := Tally.completed_games tally in
  let measured := (0 <? completed)%nat in
  {| BacktestResults.total_games := List.length historical_games;
     BacktestResults.completed_games := completed;
     BacktestResults.correct_predictions := Tally.correct_predictions tally;
     BacktestResults.accuracy :=
       if measured
       then Num.of_nat (Tally.correct_predictions tally) /! Num.of_nat completed
       else 0;
     BacktestResults.avg_confidence :=
       if measured
       then Tally.total_confidence tally /! Num.of_nat completed
       else 0;
     BacktestResults.predictions := Tally.predictions tally;
     BacktestResults.performance_by_confidence := Tally.confidence_buckets tally;
     BacktestResults.factor_analysis :=
       _analyze_factors (Tally.predictions tally) |}.

(** The bucket table an exact count over the replayed predictions gives:
    per label, how many fall into the bucket and how many of those are
    correct. *)
Definition bucket_table (predictions : list PredictionEntry.t) : dict Bucket.t :=
  map (fun label =>
         (label,
          {| Bucket.correct :=
               List.length
                 (filter (fun entry =>
                            in_bucket label entry &&
                            PredictionEntry.correct entry) predictions);
             Bucket.total :=
               List.length (filter (in_bucket label) predictions) |}))
      bucket_labels.

(** The replayed prediction stores the seven factors under their names. *)
Definition named (entry : PredictionEntry.t) : Prop :=
  map FactorEntry.name (PredictionEntry.factors entry) = factor_names.

(** Every factor of the table has been counted [n] times, [c] times in a
    correct prediction, and is not averaged yet. *)
Definition uniform (n c : nat) (table : dict FactorStats.t) : Prop :=
  keys table = factor_names /\
  forall name stats,
    lookup name table = Some stats ->
    FactorStats.total_predictions stats = n /\
    FactorStats.correct_predictions stats = c /\
    FactorStats.accuracy stats = 0.

(** The betting simulation stakes on the prediction: its confidence is at
    least 60. *)
Definition staked (entry : PredictionEntry.t) : bool :=
  negb (Num.ltb (PredictionEntry.confidence entry) 60).

(** What [_calculate_game_impact] can return: the three adjustments are
    never positive, and the rating goes by the size of the total. *)
Definition rated (impact : GameImpact.t) : Prop :=
  (-10 <= GameImpact.total_score_impact impact <= 0)%Q /\
  (-7 <= GameImpact.passing_impact impact <= 0)%Q /\
  (-7 <= GameImpact.kicking_impact impact <= 0)%Q /\
  ((GameImpact.overall_rating impact = "neutral" /\
    GameImpact.total_score_impact impact == 0)%Q \/
   (GameImpact.overall_rating impact = "mild" /\
    -3 < GameImpact.total_score_impact impact <= -1)%Q \/
   (GameImpact.overall_rating impact = "moderate" /\
    -5 < GameImpact.total_score_impact impact <= -3)%Q \/
   (GameImpact.overall_rating impact = "severe" /\
    GameImpact.total_score_impact impact <= -5)%Q).

(** The wagered total after [n] more bets, and the winnings after [n] more
    winning bets. *)
Fixpoint wager (bet_amount : number) (n : nat) (total_wagered : number)
  : result number :=
  match n with
  | O => Ok total_wagered
  | S n' =>
      total_wagered <- num_add total_wagered bet_amount ;;
      wager bet_amount n' total_wagered
  end.

Fixpoint credit (bet_amount : number) (n : nat) (total_winnings : number)
  : result number :=
  match n with
  | O => Ok total_winnings
  | S n' =>
      payout <- num_mul bet_amount (NFloat (Float.nearest 9091 10000)) ;;
      total_winnings <- num_add total_winnings payout ;;
      credit bet_amount n' total_winnings
  end.



(* ===================================================================== *)
(** ** Proof tools *)
(* ===================================================================== *)

(** Case analysis on every test a hypothesis goes through. *)
Ltac break_hyp H :=
  repeat match type of H with
         | context [match ?x with _ => _ end] =>
             destruct x eqn:?; try discriminate H
         | context [if ?x then _ else _] =>
             destruct x eqn:?; try discriminate H
         end.

(* ===================================================================== *)
(** ** Facts about numbers *)
(* ===================================================================== *)

Section NumFacts.

Local Open Scope Q_scope.

Lemma ltb_true x y : Num.ltb x y = true <-> x < y.
Proof.
  unfold Num.ltb.
  destruct (Qcompare_spec x y); split; intros;
    try discriminate; try reflexivity; lra.
Qed.

Lemma ltb_false x y : Num.ltb x y = false <-> y <= x.
Proof.
  unfold Num.ltb.
  destruct (Qcompare_spec x y); split; intros;
    try discriminate; try reflexivity; lra.
Qed.

Lemma gtb_zero_false c : c == 0 -> Num.gtb c 0 = false.
Proof. intros E. unfold Num.gtb. apply ltb_false. lra. Qed.

Lemma add_eq x y : x +! y == x + y.
Proof. apply Qred_correct. Qed.

Lemma mul_eq x y : x *! y == x * y.
Proof. apply Qred_correct. Qed.

Lemma abs_eq x : Num.abs x == Qabs x.
Proof. apply Qred_correct. Qed.

Lemma of_nat_S n : Num.of_nat (S n) == Num.of_nat n + 1.
Proof.
  unfold Num.of_nat. rewrite Nat2Z.inj_succ, <- Z.add_1_r, inject_Z_plus.
  reflexivity.
Qed.

Lemma Qeq_bool_sym x y : Qeq_bool x y = Qeq_bool y x.
Proof.
  destruct (Qeq_bool x y) eqn:E; symmetry.
  - apply Qeq_bool_iff. symmetry. now apply Qeq_bool_iff.
  - destruct (Qeq_bool y x) eqn:F; [|reflexivity].
    apply Qeq_bool_iff in F. symmetry in F. apply Qeq_bool_iff in F.
    congruence.
Qed.

Lemma min_bounds a b lo : lo <= a -> lo <= b -> lo <= Num.min a b <= a.
Proof.
  intros Ha Hb. unfold Num.min.
  destruct (Num.ltb b a) eqn:E;
    [apply ltb_true in E | apply ltb_false in E]; lra.
Qed.

(** Rounding never leaves an interval with integer ends. *)
Lemma round_half_even_bounds (y : Q) (lo hi : Z) :
  inject_Z lo <= y <= inject_Z hi ->
  (lo <= Num.round_half_even y <= hi)%Z.
Proof.
  intros [Hlo Hhi].
  assert (Hf1 : (lo <= Qfloor y)%Z).
  { rewrite <- (Qfloor_Z lo). now apply Qfloor_resp_le. }
  assert (Hf2 : (Qfloor y <= hi)%Z).
  { rewrite <- (Qfloor_Z hi). now apply Qfloor_resp_le. }
  assert (Hup : inject_Z (Qfloor y) < y -> (Qfloor y + 1 <= hi)%Z).
  { intros Hlt. assert (H : inject_Z (Qfloor y) < inject_Z hi) by lra.
    rewrite <- Zlt_Qlt in H. lia. }
  unfold Num.round_half_even.
  destruct (Qcompare_spec (y - inject_Z (Qfloor y)) (1 # 2)) as [E|E|E].
  - destruct (Z.even (Qfloor y)); [lia|].
    split; [lia|]. apply Hup. lra.
  - lia.
  - split; [lia|]. apply Hup. lra.
Qed.

Lemma round1_bounds (x : Q) (lo hi : Z) :
  inject_Z lo <= x <= inject_Z hi ->
  inject_Z lo <= Num.round1 x <= inject_Z hi.
Proof.
  intros [Hlo Hhi].
  assert (H : (10 * lo <= Num.round_half_even (x * 10) <= 10 * hi)%Z).
  { apply round_half_even_bounds.
    rewrite !inject_Z_mult. change (inject_Z 10) with 10. lra. }
  unfold Num.round1. rewrite Qred_correct.
  unfold Qle, inject_Z. simpl. lia.
Qed.

Lemma round1_tenths (x : Q) : exists z : Z, Num.round1 x = Qred (z # 10).
Proof. now exists (Num.round_half_even (x * 10)). Qed.

(** [min(85, abs(spread) * 8 + 50)] lies between 50 and 85. *)
Lemma confidence_formula_bounds (spread : Q) :
  50 <= Num.min 85 (Num.abs spread *! 8 +! 50) <= 85.
Proof.
  apply min_bounds; [lra|].
  rewrite add_eq, mul_eq, abs_eq.
  pose proof (Qabs_nonneg spread). lra.
Qed.

(** A difference of a number with itself, scaled, is the number 0. *)
Lemma self_drop_is_zero b : (b -! b) *! 100 = 0.
Proof.
  unfold Num.sub, Num.mul.
  replace (Qred (b - b)) with 0; [reflexivity|].
  change 0 with (Qred 0). apply Qred_complete. ring.
Qed.

End NumFacts.

(* ===================================================================== *)
(** ** Facts about dictionaries and objects *)
(* ===================================================================== *)

Lemma lookup_store_same {A} k (v : A) d : lookup k (store k v d) = Some v.
Proof.
  induction d as [|[k' v'] d IH]; simpl.
  - now rewrite String.eqb_refl.
  - destruct (String.eqb k k') eqn:E; simpl; rewrite E; [reflexivity|exact IH].
Qed.

Lemma lookup_store_other {A} k k' (v : A) d :
  k <> k' -> lookup k (store k' v d) = lookup k d.
Proof.
  intros N. induction d as [|[k2 v2] d IH]; simpl.
  - destruct (String.eqb_spec k k'); [contradiction|reflexivity].
  - destruct (String.eqb_spec k' k2); simpl.
    + subst k2. destruct (String.eqb_spec k k'); [contradiction|reflexivity].
    + now rewrite IH.
Qed.

Lemma keys_lookup {A} k (d : dict A) v :
  lookup k d = Some v -> In k (keys d).
Proof.
  induction d as [|[k' v'] d IH]; simpl; [discriminate|].
  destruct (String.eqb_spec k k'); [now left; subst|right; auto].
Qed.

Lemma atom_of_sql c : atom (of_sql c).
Proof. destruct c; exact I. Qed.

(** [==] is symmetric on objects that are no containers. *)
Lemma py_eq_sym a b : atom a -> atom b -> py_eq a b = py_eq b a.
Proof.
  destruct a as [|[|]|x|s| |], b as [|[|]|y|u| |]; simpl;
    intros; try contradiction; try reflexivity;
    solve [apply Qeq_bool_sym | apply String.eqb_sym].
Qed.

(* ===================================================================== *)
(** ** The factor calculators *)
(* ===================================================================== *)

(** A calculator whose handler returns a constant zero factor meets the
    failure policy. *)
Lemma zero_handler_policy attempt name text :
  failure_policy attempt (try_except attempt (Ok (Factor name 0 0 0 [Lit text]))).
Proof.
  split.
  - destruct attempt; simpl; eauto.
  - intros [e ->]. simpl. eexists. repeat split. now exists text.
Qed.

(** The handler of the Home Advantage calculator reads the configured
    weight: with the weight present the calculator returns, and after a
    failure it returns the standard advantage. *)
Lemma home_advantage_fallback self home_team_id w :
  weight_of self "home_advantage" = Ok w ->
  (exists f, _calculate_home_advantage_factor self home_team_id = Ok f) /\
  (raises (home_advantage_try self home_team_id) ->
   _calculate_home_advantage_factor self home_team_id =
     Ok (Factor "Home Advantage" (Num.lit 2.5) w (Num.lit 0.8)
           [Lit "Standard advantage"])).
Proof.
  intros Hw. unfold _calculate_home_advantage_factor. split.
  - destruct (home_advantage_try self home_team_id); simpl; eauto.
    rewrite Hw. simpl. eauto.
  - intros [e ->]. simpl. rewrite Hw. reflexivity.
Qed.

(** Without a configured weight the handler fails in turn, and the failure
    leaves the calculator. *)
Remark home_advantage_without_weight_raises :
  _calculate_home_advantage_factor
    (_create_test_engine [("team_strength", 1)]) (PStr "2") = Raised KeyError.
Proof. reflexivity. Qed.











(** C8.  On a home record of 10-0-0 and an away record of 0-10-0 the
    Team-Strength calculator returns value 14 (the difference of the win
    percentages, 1 and 0, times 14) and confidence 0.9 (the smaller of 0.9
    and 20/20), with the weight the engine configures for it. *)
Theorem team_strength_ten_and_zero self home_team away_team w :
  has_record home_team 10 0 0 ->
  has_record away_team 0 10 0 ->
  weight_of self "team_strength" = Ok w ->
  exists f,
    _calculate_team_strength_factor self home_team away_team = Ok f /\
    PredictionFactor.name f = "Team Strength" /\
    PredictionFactor.value f = 14 /\
    PredictionFactor.weight f = w /\
    PredictionFactor.confidence f = Num.lit 0.9.
Proof.
  intros (hr & Hh & Hhw & Hhl & Hht) (ar & Ha & Haw & Hal & Hat) Hw.
  unfold _calculate_team_strength_factor, team_strength_try, games_played,
    win_pct.
  rewrite Hh, Ha. cbn [bind]. rewrite Hhw, Hhl, Hht, Haw, Hal, Hat.
  cbn -[weight_of]. rewrite Hw. cbn.
  eexists. repeat split.
Qed.

Lemma team_strength_ten_and_zero_witness :
  exists f,
    _calculate_team_strength_factor new_engine
      (team "2" "Buffalo Bills" (season_record 10 0 0))
      (team "15" "Miami Dolphins" (season_record 0 10 0)) = Ok f /\
    PredictionFactor.name f = "Team Strength" /\
    PredictionFactor.value f = 14 /\
    PredictionFactor.weight f = Num.lit 0.35 /\
    PredictionFactor.confidence f = Num.lit 0.9.
Proof.
  apply team_strength_ten_and_zero.
  - exists (season_record 10 0 0). repeat split.
  - exists (season_record 0 10 0). repeat split.
  - reflexivity.
Defined.

(* ===================================================================== *)
(** ** The combination step and the single-game prediction *)
(* ===================================================================== *)

(** A factor without confidence leaves both running totals alone. *)
Lemma no_confidence_no_totals factors totals :
  Forall (fun f => (PredictionFactor.confidence f == 0)%Q) factors ->
  fold_left add_factor factors totals = totals.
Proof.
  intros H. revert totals. induction H as [|f fs Hf _ IH]; intros totals.
  - reflexivity.
  - simpl. unfold add_factor at 2. rewrite (gtb_zero_false _ Hf). apply IH.
Qed.

(** C6.  When every factor handed to the combination step has confidence
    0 (the seven of a prediction in particular), the spread is exactly 0
    and the winner is the away team; the confidence is then 50. *)
Theorem zero_confidence_defaults_to_away factors home_team away_team name :
  Forall (fun f => (PredictionFactor.confidence f == 0)%Q) factors ->
  py_getitem away_team "name" = Ok name ->
  _calculate_final_prediction factors home_team away_team =
    Ok {| FinalPrediction.winner := name;
          FinalPrediction.confidence := 50;
          FinalPrediction.spread := 0;
          FinalPrediction.total := PNone |}.
Proof.
  intros Hz Hn. unfold _calculate_final_prediction.
  rewrite (no_confidence_no_totals _ _ Hz). simpl.
  change (Num.gtb 0 0) with false. cbv iota.
  rewrite Hn. reflexivity.
Qed.

Lemma zero_confidence_defaults_to_away_witness :
  _calculate_final_prediction silent_factors
    (team "2" "Buffalo Bills" (season_record 10 0 0))
    (team "15" "Miami Dolphins" (season_record 0 10 0)) =
    Ok {| FinalPrediction.winner := PStr "Miami Dolphins";
          FinalPrediction.confidence := 50;
          FinalPrediction.spread := 0;
          FinalPrediction.total := PNone |}.
Proof.
  apply zero_confidence_defaults_to_away.
  - repeat constructor.
  - reflexivity.
Defined.

(** What a result of the combination step looks like. *)
Lemma final_prediction_inv factors home_team away_team r :
  _calculate_final_prediction factors home_team away_team = Ok r ->
  (py_getitem home_team "name" = Ok (FinalPrediction.winner r) \/
   py_getitem away_team "name" = Ok (FinalPrediction.winner r)) /\
  (50 <= FinalPrediction.confidence r <= 85)%Q /\
  (exists z, FinalPrediction.confidence r = Qred (z # 10)) /\
  (exists z, FinalPrediction.spread r = Qred (z # 10)).
Proof.
  unfold _calculate_final_prediction.
  set (totals := fold_left add_factor factors (0, 0)).
  set (spread := if Num.gtb (snd totals) 0 then fst totals /! snd totals else 0).
  intros H. unfold bind in H.
  destruct (Num.gtb spread 0).
  - destruct (py_getitem home_team "name") eqn:E; [|discriminate].
    injection H as <-. simpl. repeat split;
      try apply (round1_bounds _ 50 85), confidence_formula_bounds;
      try apply round1_tenths.
    now left.
  - destruct (py_getitem away_team "name") eqn:E; [|discriminate].
    injection H as <-. simpl. repeat split;
      try apply (round1_bounds _ 50 85), confidence_formula_bounds;
      try apply round1_tenths.
    now right.
Qed.

Lemma final_prediction_returns factors home_team away_team home_name away_name :
  py_getitem home_team "name" = Ok home_name ->
  py_getitem away_team "name" = Ok away_name ->
  exists r, _calculate_final_prediction factors home_team away_team = Ok r.
Proof.
  intros Hh Ha. unfold _calculate_final_prediction.
  rewrite Hh, Ha. destruct (Num.gtb _ 0); simpl; eauto.
Qed.

(** Where the fields of a returned prediction come from. *)
Lemma predict_single_game_inv db self game t p t' :
  _predict_single_game db self game t = (Ok (Some p), t') ->
  exists home_team away_team r,
    py_getitem game "home_team" = Ok home_team /\
    py_getitem game "away_team" = Ok away_team /\
    _calculate_final_prediction (GamePrediction.factors p) home_team away_team
      = Ok r /\
    py_getitem home_team "name" = Ok (GamePrediction.home_team p) /\
    py_getitem away_team "name" = Ok (GamePrediction.away_team p) /\
    GamePrediction.predicted_winner p = FinalPrediction.winner r /\
    GamePrediction.confidence p = FinalPrediction.confidence r /\
    GamePrediction.spread_prediction p = FinalPrediction.spread r /\
    GamePrediction.created_at p = t /\ t' = S t.
Proof.
  unfold _predict_single_game, cbind, lift, ret, now. intros H.
  break_hyp H.
  injection H as <- <-. simpl.
  eexists _, _, _. repeat split; eassumption.
Qed.

(** An eligible matchup that has the fields the engine reads is predicted,
    whatever the calculators meet, as long as the configuration holds the
    home-advantage weight. *)
Lemma predict_single_game_returns db self game t
    status home_team away_team home_id away_id home_name away_name game_id w :
  py_get game "status" PNone = Ok status ->
  py_eq status (PStr "STATUS_SCHEDULED") = true ->
  py_getitem game "home_team" = Ok home_team ->
  py_getitem game "away_team" = Ok away_team ->
  py_getitem home_team "id" = Ok home_id ->
  py_getitem away_team "id" = Ok away_id ->
  py_getitem home_team "name" = Ok home_name ->
  py_getitem away_team "name" = Ok away_name ->
  py_getitem game "espn_id" = Ok game_id ->
  weight_of self "home_advantage" = Ok w ->
  exists p, _predict_single_game db self game t = (Ok (Some p), S t).
Proof.
  intros Hs He Hh Ha Hhi Hai Hhn Han Hg Hw.
  destruct (zero_handler_policy (team_strength_try self home_team away_team)
              "Team Strength" "Calculation error") as [[f1 E1] _].
  destruct (zero_handler_policy (head_to_head_try db self home_id away_id)
              "Head-to-Head" "Historical data unavailable") as [[f2 E2] _].
  destruct (home_advantage_fallback self home_id w Hw) as [[f3 E3] _].
  destruct (zero_handler_policy (rest_try self game)
              "Rest Advantage" "Data unavailable") as [[f4 E4] _].
  destruct (zero_handler_policy (weather_try self game)
              "Weather" "Weather calculation error") as [[f5 E5] _].
  destruct (zero_handler_policy (motivation_try self game)
              "Motivation" "Motivation data unavailable") as [[f6 E6] _].
  destruct (zero_handler_policy (injury_try self home_id away_id)
              "Injuries" "Injury data unavailable") as [[f7 E7] _].
  destruct (final_prediction_returns [f1; f2; f3; f4; f5; f6; f7]
              home_team away_team home_name away_name Hhn Han) as [r Er].
  unfold _predict_single_game, cbind, lift, ret, now.
  rewrite Hs, He. cbn [negb].
  change (try_except (team_strength_try self home_team away_team) _)
    with (_calculate_team_strength_factor self home_team away_team) in E1.
  change (try_except (head_to_head_try db self home_id away_id) _)
    with (_calculate_head_to_head_factor db self home_id away_id) in E2.
  change (try_except (rest_try self game) _)
    with (_calculate_rest_factor self game) in E4.
  change (try_except (weather_try self game) _)
    with (_calculate_weather_factor self game) in E5.
  change (try_except (motivation_try self game) _)
    with (_calculate_motivation_factor self game) in E6.
  change (try_except (injury_try self home_id away_id) _)
    with (_calculate_injury_factor self home_id away_id) in E7.
  rewrite Hh, Ha, E1, Hhi, Hai, E2, E3, E4, E5, E6, E7.
  rewrite Er, Hg, Hhn, Han. eauto.
Qed.

(** C5.  A prediction returned for an eligible matchup has a confidence
    between 50 and 85 and names as winner the home team or the away team of
    the prediction; no third value occurs, and the sentinel "TIE" occurs
    only if a team carries it as its name. *)
Theorem prediction_confidence_and_winner db self game t p t' :
  _predict_single_game db self game t = (Ok (Some p), t') ->
  (50 <= GamePrediction.confidence p <= 85)%Q /\
  (GamePrediction.predicted_winner p = GamePrediction.home_team p \/
   GamePrediction.predicted_winner p = GamePrediction.away_team p) /\
  (GamePrediction.home_team p <> PStr "TIE" ->
   GamePrediction.away_team p <> PStr "TIE" ->
   GamePrediction.predicted_winner p <> PStr "TIE").
Proof.
  intros H. apply predict_single_game_inv in H.
  destruct H as (home & away & r & _ & _ & Hr & Hh & Ha & Hw & Hc & _).
  apply final_prediction_inv in Hr. destruct Hr as (Hwin & Hb & _).
  rewrite Hc, Hw.
  assert (Hor : FinalPrediction.winner r = GamePrediction.home_team p \/
                FinalPrediction.winner r = GamePrediction.away_team p).
  { destruct Hwin as [E|E]; [left|right]; congruence. }
  repeat split; try apply Hb; try assumption.
  intros Nh Na. destruct Hor as [E|E]; congruence.
Qed.

Lemma prediction_confidence_and_winner_witness :
  exists p,
    _predict_single_game [] new_engine sample_matchup 0%nat
      = (Ok (Some p), 1%nat) /\
    (50 <= GamePrediction.confidence p <= 85)%Q /\
    (GamePrediction.predicted_winner p = GamePrediction.home_team p \/
     GamePrediction.predicted_winner p = GamePrediction.away_team p) /\
    (GamePrediction.home_team p <> PStr "TIE" ->
     GamePrediction.away_team p <> PStr "TIE" ->
     GamePrediction.predicted_winner p <> PStr "TIE").
Proof.
  eexists. split.
  - vm_compute. reflexivity.
  - apply (prediction_confidence_and_winner [] new_engine sample_matchup
             0%nat _ 1%nat).
    vm_compute. reflexivity.
Defined.

(** C10.  The confidence and the spread of a returned prediction are
    rounded to one decimal place: ten times each is an integer. *)
Theorem prediction_rounded_to_tenths db self game t p t' :
  _predict_single_game db self game t = (Ok (Some p), t') ->
  exists m n : Z,
    (GamePrediction.confidence p * 10 == inject_Z m)%Q /\
    (GamePrediction.spread_prediction p * 10 == inject_Z n)%Q.
Proof.
  intros H. apply predict_single_game_inv in H.
  destruct H as (home & away & r & _ & _ & Hr & _ & _ & _ & Hc & Hs & _).
  apply final_prediction_inv in Hr. destruct Hr as (_ & _ & [m Hm] & [n Hn]).
  exists m, n. rewrite Hc, Hs, Hm, Hn, !Qred_correct.
  split; unfold Qeq, inject_Z; simpl; lia.
Qed.

Lemma prediction_rounded_to_tenths_witness :
  exists p,
    _predict_single_game [] new_engine sample_matchup 0%nat
      = (Ok (Some p), 1%nat) /\
    exists m n : Z,
      (GamePrediction.confidence p * 10 == inject_Z m)%Q /\
      (GamePrediction.spread_prediction p * 10 == inject_Z n)%Q.
Proof.
  eexists. split.
  - vm_compute. reflexivity.
  - apply (prediction_rounded_to_tenths [] new_engine sample_matchup
             0%nat _ 1%nat).
    vm_compute. reflexivity.
Defined.

(* ===================================================================== *)
(** ** The betting simulation *)
(* ===================================================================== *)

(** A winning bet is placed like any other winning bet. *)
Lemma winning_bets_loop bet_amount predictions :
  Forall winning_bet predictions ->
  forall totals,
    betting_loop bet_amount predictions totals =
    betting_loop bet_amount
      (repeat (settled_bet 72 true) (List.length predictions)) totals.
Proof.
  induction 1 as [|p l [Hc Hw] _ IH]; intros totals; [reflexivity|].
  cbn [betting_loop List.length repeat].
  assert (place_bet bet_amount totals p
          = place_bet bet_amount totals (settled_bet 72 true)) as ->.
  { unfold place_bet. destruct totals as [[k w] g]. rewrite Hw.
    replace (Num.ltb (PredictionEntry.confidence p) 60) with false
      by (symmetry; now apply ltb_false).
    reflexivity. }
  unfold bind. destruct (place_bet _ _ _); [apply IH|reflexivity].
Qed.

(** C7, as the code has it.  On a backtest result of exactly 10
    predictions, each of confidence at least 60 and each correct, the
    simulation at stake 100 places 10 bets and reports 1000 wagered (the
    int 1000 for the int stake 100, the float 1000.0 for the float stake
    100.0).  The payout, the float 100 * 0.9091, is added up in binary64:
    the winnings are the float 909.0999999999998, less than 909.1 by less
    than 10^-12, and the profit is the float -90.9000000000002, less than
    -90.9 by less than 10^-12. *)
Theorem ten_winning_bets backtest_results bet_amount wagered :
  List.length (predictions_of backtest_results) = 10%nat ->
  Forall winning_bet (predictions_of backtest_results) ->
  In (bet_amount, wagered)
     [ (NInt 100, NInt 1000);
       (NFloat (Float.of_Z 100), NFloat (Float.of_Z 1000)) ] ->
  exists outcome winnings profit,
    simulate_betting_performance backtest_results bet_amount = Ok outcome /\
    Betting.total_bets outcome = 10%nat /\
    Betting.total_wagered outcome = wagered /\
    Betting.total_winnings outcome
      = NFloat (Float.nearest 9090999999999998 10000000000000) /\
    Betting.profit_loss outcome
      = NFloat (Float.nearest (-909000000000002) 10000000000000) /\
    Float.to_Q (Float.nearest 9090999999999998 10000000000000)
      = Some winnings /\
    Float.to_Q (Float.nearest (-909000000000002) 10000000000000)
      = Some profit /\
    (909.1 - (1 # 1000000000000) < winnings < 909.1)%Q /\
    (- (90.9) - (1 # 1000000000000) < profit < - (90.9))%Q.
Proof.
  intros Hlen Hall Hin. unfold simulate_betting_performance.
  rewrite (winning_bets_loop bet_amount _ Hall), Hlen.
  destruct Hin as [E|[E|[]]]; injection E as <- <-;
    eexists _, _, _; (split; [vm_compute; reflexivity|]);
    repeat (split; [vm_compute; reflexivity|]);
    split; split; reflexivity.
Qed.

Lemma ten_winning_bets_witness :
  exists outcome winnings profit,
    simulate_betting_performance
      (report_of (repeat (settled_bet 72 true) 10)) (NInt 100) = Ok outcome /\
    Betting.total_bets outcome = 10%nat /\
    Betting.total_wagered outcome = NInt 1000 /\
    Betting.total_winnings outcome
      = NFloat (Float.nearest 9090999999999998 10000000000000) /\
    Betting.profit_loss outcome
      = NFloat (Float.nearest (-909000000000002) 10000000000000) /\
    Float.to_Q (Float.nearest 9090999999999998 10000000000000)
      = Some winnings /\
    Float.to_Q (Float.nearest (-909000000000002) 10000000000000)
      = Some profit /\
    (909.1 - (1 # 1000000000000) < winnings < 909.1)%Q /\
    (- (90.9) - (1 # 1000000000000) < profit < - (90.9))%Q.
Proof.
  apply ten_winning_bets.
  - reflexivity.
  - repeat constructor; simpl; lra.
  - now left.
Defined.

(** C7, as stated, fails: ten payouts of 100 * 0.9091 add up, in binary64,
    to a float below 909.1, and the profit to a float below -90.9; neither
    is the float that the literal 909.1 or -90.9 denotes. *)
Lemma ten_winning_bets_counterexample :
  exists outcome winnings profit,
    simulate_betting_performance
      (report_of (repeat (settled_bet 72 true) 10)) (NInt 100) = Ok outcome /\
    Betting.total_winnings outcome = NFloat winnings /\
    Betting.profit_loss outcome = NFloat profit /\
    winnings <> Float.nearest 9091 10 /\
    profit <> Float.nearest (-909) 10 /\
    Float.to_Q winnings = Some (7996528166489291 # 8796093022208) /\
    Float.to_Q (Float.nearest 9091 10)
      = Some (7996528166489293 # 8796093022208) /\
    Float.to_Q profit = Some (-799564855718709 # 8796093022208) /\
    Float.to_Q (Float.nearest (-909) 10)
      = Some (-3198259422874829 # 35184372088832).
Proof.
  eexists _, _, _. split; [vm_compute; reflexivity|].
  split; [reflexivity|]. split; [reflexivity|].
  split; [vm_compute; discriminate|]. split; [vm_compute; discriminate|].
  repeat split.
Qed.

(* ===================================================================== *)
(** ** Replaying history: the clock does not matter *)
(* ===================================================================== *)

Section Replay.

Variable db : list Game.t.

Lemma predict_single_game_clock self game t1 t2 :
  unstamped (_predict_single_game db self game t1) =
  unstamped (_predict_single_game db self game t2).
Proof.
  unfold unstamped, _predict_single_game, cbind, lift, ret, now.
  destruct (py_get game "status" PNone); [|reflexivity].
  destruct (negb _); [reflexivity|].
  repeat match goal with
         | |- context [match ?x with Ok _ => _ | Raised _ => _ end] =>
             destruct x; [|reflexivity]
         end.
  reflexivity.
Qed.

Variable self : Backtester.t.

Lemma predict_historical_game_clock game t1 t2 :
  unstamped (_predict_historical_game db self game t1) =
  unstamped (_predict_historical_game db self game t2).
Proof.
  unfold _predict_historical_game, ctry_except, cbind, lift.
  destruct (if has_text _ then _ else _) as [weather|]; [|reflexivity].
  match goal with
  | |- context [_predict_single_game db ?e ?g t1] =>
      pose proof (predict_single_game_clock e g t1 t2) as H;
      destruct (_predict_single_game db e g t1) as [[o1|e1] u1];
      destruct (_predict_single_game db e g t2) as [[o2|e2] u2]
  end; unfold unstamped in *; simpl in *;
    try destruct o1; try destruct o2; try discriminate; try assumption;
    reflexivity.
Qed.

(** The handler of [_predict_historical_game] absorbs every failure. *)
Lemma predict_historical_game_returns game t :
  exists o, fst (_predict_historical_game db self game t) = Ok o.
Proof.
  unfold _predict_historical_game, ctry_except, cbind, lift, ret.
  destruct (if has_text _ then _ else _) as [weather|]; [|simpl; eauto].
  match goal with
  | |- context [_predict_single_game db ?e ?g t] =>
      destruct (_predict_single_game db e g t) as [[o1|e1] u1]
  end; simpl; eauto.
Qed.

(** Two replays of one game agree on everything but the time stamp. *)
Lemma replay_cases game t1 t2 :
  match fst (_predict_historical_game db self game t1),
        fst (_predict_historical_game db self game t2) with
  | Ok (Some p1), Ok (Some p2) => unstamp p1 = unstamp p2
  | Ok None, Ok None => True
  | _, _ => False
  end.
Proof.
  pose proof (predict_historical_game_clock game t1 t2) as H.
  destruct (predict_historical_game_returns game t1) as [o1 E1].
  destruct (predict_historical_game_returns game t2) as [o2 E2].
  unfold unstamped in H. rewrite E1, E2 in *.
  destruct o1, o2; try discriminate; [congruence | exact I].
Qed.

(** The replayed winner is a team name of the row. *)
Lemma predict_historical_game_winner game t p t' :
  _predict_historical_game db self game t = (Ok (Some p), t') ->
  atom (GamePrediction.predicted_winner p).
Proof.
  unfold _predict_historical_game, ctry_except, cbind, lift, ret. intros H.
  destruct (if has_text _ then _ else _) as [weather|]; [|discriminate].
  match type of H with
  | context [_predict_single_game db ?e ?g t] =>
      destruct (_predict_single_game db e g t) as [[o|] u] eqn:E
  end; [|discriminate].
  injection H as -> ->.
  apply predict_single_game_inv in E.
  destruct E as (home & away & r & Hh & Ha & Hr & _ & _ & Hw & _).
  injection Hh as <-. injection Ha as <-.
  apply final_prediction_inv in Hr. destruct Hr as ([E|E] & _);
    injection E as E; rewrite Hw, <- E; apply atom_of_sql.
Qed.

(** The scoring of a replayed game does not read the time stamp. *)
Lemma record_prediction_unstamp game p tally :
  record_prediction game (unstamp p) tally = record_prediction game p tally.
Proof. reflexivity. Qed.

Lemma record_prediction_counts game p tally tally' :
  record_prediction game p tally = Ok tally' ->
  exists winner,
    _get_actual_winner game = Ok winner /\
    Tally.completed_games tally' = S (Tally.completed_games tally) /\
    Tally.correct_predictions tally' =
      if py_eq winner (GamePrediction.predicted_winner p)
      then S (Tally.correct_predictions tally)
      else Tally.correct_predictions tally.
Proof.
  unfold record_prediction, bind. intros H.
  destruct (_get_actual_winner game) as [winner|]; [|discriminate].
  destruct (getitem _ _); [|discriminate].
  injection H as <-. exists winner. repeat split.
Qed.

Lemma actual_winner_atom game winner :
  _get_actual_winner game = Ok winner -> atom winner.
Proof.
  unfold _get_actual_winner, bind. intros H. break_hyp H;
    injection H as <-; try apply atom_of_sql; exact I.
Qed.

(** One turn of the loop of [run_backtest]. *)
Lemma backtest_loop_cons game rest tally t :
  backtest_loop db self (game :: rest) tally t =
  match _is_game_completed game with
  | Raised e => (Raised e, t)
  | Ok false => backtest_loop db self rest tally t
  | Ok true =>
      match _predict_historical_game db self game t with
      | (Ok (Some p), t') =>
          match record_prediction game p tally with
          | Ok tally' => backtest_loop db self rest tally' t'
          | Raised e => (Raised e, t')
          end
      | (Ok None, t') => backtest_loop db self rest tally t'
      | (Raised e, t') => (Raised e, t')
      end
  end.
Proof.
  cbn [backtest_loop]. unfold cbind, lift.
  destruct (_is_game_completed game) as [[|]|]; cbn [negb]; try reflexivity.
  destruct (_predict_historical_game db self game t) as [[[p|]|] t'];
    reflexivity.
Qed.

Lemma backtest_loop_clock games :
  forall tally t1 t2,
    fst (backtest_loop db self games tally t1) =
    fst (backtest_loop db self games tally t2).
Proof.
  induction games as [|game rest IH]; intros tally t1 t2; [reflexivity|].
  rewrite !backtest_loop_cons.
  destruct (_is_game_completed game) as [[|]|]; try reflexivity; [|apply IH].
  pose proof (replay_cases game t1 t2) as H.
  destruct (_predict_historical_game db self game t1) as [[[p1|]|] u1];
    destruct (_predict_historical_game db self game t2) as [[[p2|]|] u2];
    cbn [fst] in H; try contradiction; [|apply IH].
  rewrite <- (record_prediction_unstamp game p1),
          <- (record_prediction_unstamp game p2), H.
  destruct (record_prediction game (unstamp p2) tally); [apply IH|reflexivity].
Qed.

End Replay.

(** C9.  Two runs of the backtest over one corpus, at whatever clock
    readings (the second run after the first in particular), return the same
    result: the same error, or the same totals, accuracy, average
    confidence, bucket table, factor table and prediction entries. *)
Theorem backtest_repeatable db self start_date end_date t1 t2 :
  fst (run_backtest db self start_date end_date t1) =
  fst (run_backtest db self start_date end_date t2).
Proof.
  unfold run_backtest, cbind, lift, ret.
  destruct (_get_historical_games db start_date end_date) as [games|];
    [|reflexivity].
  destruct games as [|game rest]; [reflexivity|].
  match goal with
  | |- context [backtest_loop db self ?g ?s t1] =>
      pose proof (backtest_loop_clock db self g s t1 t2) as H;
      destruct (backtest_loop db self g s t1) as [[tally1|] u1];
      destruct (backtest_loop db self g s t2) as [[tally2|] u2]
  end; cbn [fst] in H; try discriminate H.
  - injection H as ->. reflexivity.
  - injection H as ->. reflexivity.
Qed.

(* ===================================================================== *)
(** ** The optimizer: sampling *)
(* ===================================================================== *)

(** The engine built for a candidate never reaches the predictions. *)
Lemma run_test_backtest_ignores_engine db self engine1 engine2 :
  _run_test_backtest db self engine1 = _run_test_backtest db self engine2.
Proof. reflexivity. Qed.

(** The handler of [_run_test_backtest] absorbs every failure. *)
Lemma run_test_backtest_returns db self engine t :
  exists test_results,
    fst (_run_test_backtest db self engine t) = Ok test_results.
Proof.
  unfold _run_test_backtest, ctry_except, cbind, lift, ret.
  destruct (_get_historical_games db None None) as [games|]; [|simpl; eauto].
  destruct (firstn 50 games); [simpl; eauto|].
  destruct (test_loop _ _ _ _ _ _) as [[counts|] t1]; simpl; eauto.
Qed.

Section Sampling.

Variable db : list Game.t.
Variable self : AlgorithmOptimizer.t.

(** One turn of the loop of [_run_test_backtest]. *)
Lemma test_loop_cons game rest correct total t :
  test_loop db self (game :: rest) correct total t =
  match _is_game_completed game with
  | Raised e => (Raised e, t)
  | Ok false => test_loop db self rest correct total t
  | Ok true =>
      match _predict_historical_game db (AlgorithmOptimizer.backtester self)
              game t with
      | (Ok (Some p), t') =>
          match _get_actual_winner game with
          | Ok winner =>
              test_loop db self rest
                (if py_eq (GamePrediction.predicted_winner p) winner
                 then S correct else correct)
                (S total) t'
          | Raised e => (Raised e, t')
          end
      | (Ok None, t') => test_loop db self rest correct total t'
      | (Raised e, t') => (Raised e, t')
      end
  end.
Proof.
  cbn [test_loop]. unfold cbind, lift.
  destruct (_is_game_completed game) as [[|]|]; cbn [negb]; try reflexivity.
  destruct (_predict_historical_game _ _ game t) as [[[p|]|] t'];
    reflexivity.
Qed.

(** The sampling loop of the optimizer counts what the loop of the
    backtester counts, at whatever clock reading it starts. *)
Lemma test_loop_counts games :
  forall tally t tally' t',
    backtest_loop db (AlgorithmOptimizer.backtester self) games tally t
      = (Ok tally', t') ->
    forall u,
      fst (test_loop db self games (Tally.correct_predictions tally)
             (Tally.completed_games tally) u)
      = Ok (Tally.correct_predictions tally', Tally.completed_games tally').
Proof.
  induction games as [|game rest IH]; intros tally t tally' t' H u.
  - injection H as <- <-. reflexivity.
  - rewrite backtest_loop_cons in H. rewrite test_loop_cons.
    destruct (_is_game_completed game) as [[|]|]; try discriminate;
      [|now apply (IH _ _ _ _ H)].
    pose proof (replay_cases db (AlgorithmOptimizer.backtester self) game t u)
      as R.
    destruct (_predict_historical_game _ _ game t) as [[[p|]|] t1] eqn:E1;
      try discriminate;
      destruct (_predict_historical_game _ _ game u) as [[[q|]|] u1] eqn:E2;
      cbn [fst] in R; try contradiction; [|now apply (IH _ _ _ _ H)].
    destruct (record_prediction game p tally) as [tally1|] eqn:ER;
      [|discriminate].
    apply record_prediction_counts in ER.
    destruct ER as (winner & Ew & Ec & Ek).
    rewrite Ew.
    assert (Eq : GamePrediction.predicted_winner q =
                 GamePrediction.predicted_winner p).
    { change (GamePrediction.predicted_winner (unstamp q) =
              GamePrediction.predicted_winner (unstamp p)). now rewrite R. }
    rewrite Eq, (py_eq_sym (GamePrediction.predicted_winner p) winner).
    + rewrite <- Ek, <- Ec. now apply (IH _ _ _ _ H).
    + eapply predict_historical_game_winner; eassumption.
    + eapply actual_winner_atom; eassumption.
Qed.

(** On a corpus that fits the sample, the sampled accuracy is the accuracy
    of the full backtest. *)
Lemma sample_covers_corpus games baseline t t' :
  _get_historical_games db None None = Ok games ->
  (List.length games <= 50)%nat ->
  run_backtest db (AlgorithmOptimizer.backtester self) None None t
    = (Ok (Results baseline), t') ->
  forall engine u,
    exists test_results,
      fst (_run_test_backtest db self engine u) = Ok test_results /\
      TestBacktest.accuracy test_results = BacktestResults.accuracy baseline.
Proof.
  intros Hg Hlen Hrun engine u.
  unfold run_backtest, cbind, lift, ret in Hrun. rewrite Hg in Hrun.
  unfold _run_test_backtest, ctry_except, cbind, lift, ret.
  rewrite Hg, (firstn_all2 _ Hlen).
  destruct games as [|game rest]; [discriminate|].
  match type of Hrun with
  | context [backtest_loop _ _ ?g ?s t] =>
      destruct (backtest_loop db (AlgorithmOptimizer.backtester self) g s t)
        as [[tally|] t1] eqn:E; [|discriminate];
      pose proof (test_loop_counts g s t tally t1 E u) as C
  end.
  injection Hrun as <- <-.
  cbn [Tally.correct_predictions Tally.completed_games] in C.
  destruct (test_loop db self (game :: rest) 0 0 u) as [[counts|] u1];
    cbn [fst] in C; [|discriminate].
  injection C as ->. eexists. split; reflexivity.
Qed.

End Sampling.

(* ===================================================================== *)
(** ** The optimizer: ablation *)
(* ===================================================================== *)

(** C3 fails on the code.  The configuration gives injuries the weight 0,
    and the weights tested without injuries are the six others as they
    were.  Yet on a corpus of 51 games the factor is not scored 0: the
    baseline accuracy is measured on all 51 games (50 of them predicted
    right), the accuracy without the factor on the first 50 only (all
    right), and the score is (50/51 - 1) * 100 = -100/51. *)
Theorem zero_weight_importance_nonzero :
  lookup "injuries"
    (AdvancedPredictionEngine.factor_weights
       (AlgorithmOptimizer.base_engine optimizer_without_injuries)) = Some 0 /\
  ablated_weights optimizer_without_injuries "injuries" =
    Ok (remove "injuries"
          (AdvancedPredictionEngine.factor_weights
             (AlgorithmOptimizer.base_engine optimizer_without_injuries))) /\
  List.length long_season = 51%nat /\
  _get_historical_games long_season None None = Ok long_season /\
  exists baseline_accuracy factor_importance analysis_date t',
    analyze_factor_importance long_season optimizer_without_injuries 0%nat
      = (Ok (Analysis baseline_accuracy factor_importance analysis_date), t') /\
    baseline_accuracy = 50 # 51 /\
    exists entry,
      lookup "injuries" factor_importance = Some entry /\
      Importance.without_factor_accuracy entry = 1 /\
      Importance.importance_score entry = -100 # 51 /\
      ~ (Importance.importance_score entry == 0)%Q.
Proof.
  split; [reflexivity|]. split; [vm_compute; reflexivity|].
  split; [reflexivity|]. split; [vm_compute; reflexivity|].
  eexists _, _, _, _. split; [vm_compute; reflexivity|].
  split; [reflexivity|].
  eexists. split; [reflexivity|]. repeat split. intros E. discriminate E.
Qed.

(* ===================================================================== *)
(** ** The optimizer: weight search *)
(* ===================================================================== *)

Section SearchFacts.

Variable run_candidate : dict Q -> clocked TestBacktest.t.

Lemma settled_start : settled search_start.
Proof. left. repeat split. intros entry []. Qed.

(** Scoring one more candidate keeps the search settled. *)
Lemma settled_consider weights backtest_results search :
  settled search -> settled (consider weights backtest_results search).
Proof.
  set (a := TestBacktest.accuracy backtest_results).
  set (new := {| TestLog.weights := weights; TestLog.accuracy := a;
                 TestLog.total_games :=
                   TestBacktest.completed_games backtest_results |}).
  intros [(Hw & Ha & Hlog)
         | (before & entry & after & Hlog & Hw & Ha & Hpos & Hb & Haf)];
    unfold consider; fold a; fold new.
  - rewrite Ha. destruct (Num.gtb a 0) eqn:G.
    + apply ltb_true in G. right. exists (Search.results_log search), new, [].
      cbn. repeat split; auto.
      * intros e He. apply Hlog in He. lra.
      * intros e [].
    + apply ltb_false in G. left. cbn. rewrite Hw. repeat split.
      intros e He. apply in_app_or in He. destruct He as [He|[<-|[]]]; auto.
  - rewrite Ha. destruct (Num.gtb a (TestLog.accuracy entry)) eqn:G.
    + apply ltb_true in G. right. exists (Search.results_log search), new, [].
      cbn. repeat split; auto; try lra.
      * intros e He. rewrite Hlog in He. apply in_app_or in He.
        destruct He as [He|[<-|He]];
          [apply Hb in He; lra | lra | apply Haf in He; lra].
      * intros e [].
    + apply ltb_false in G. right. exists before, entry, (after ++ [new]).
      cbn. rewrite Hlog, <- app_assoc. repeat split; auto.
      intros e He. apply in_app_or in He. destruct He as [He|[<-|[]]]; auto.
Qed.

Lemma search_loop_settled candidates :
  forall search t search' t',
    search_loop run_candidate candidates search t = (Ok search', t') ->
    settled search ->
    settled search' /\
    map TestLog.weights (Search.results_log search') =
      map TestLog.weights (Search.results_log search) ++ candidates.
Proof.
  induction candidates as [|weights rest IH]; intros search t search' t' H S.
  - injection H as <- <-. split; [exact S | now rewrite app_nil_r].
  - cbn [search_loop] in H. unfold cbind in H.
    destruct (run_candidate weights t) as [[r|] t1]; [|discriminate].
    apply IH in H; [|now apply settled_consider].
    destruct H as [S' L]. split; [exact S'|].
    rewrite L. cbn. rewrite map_app, <- app_assoc. reflexivity.
Qed.

(** A scorer that always returns lets the search return. *)
Lemma search_loop_returns candidates :
  (forall weights t, exists r, fst (run_candidate weights t) = Ok r) ->
  forall search t,
    exists search',
      fst (search_loop run_candidate candidates search t) = Ok search'.
Proof.
  intros Hrun. induction candidates as [|weights rest IH]; intros search t.
  - simpl. eauto.
  - cbn [search_loop]. unfold cbind.
    destruct (Hrun weights t) as [r Er].
    destruct (run_candidate weights t) as [[r'|] t1]; cbn [fst] in Er;
      [|discriminate].
    apply IH.
Qed.

End SearchFacts.

(** The weight search of the optimizer always returns. *)
Lemma optimize_factor_weights_returns db self t :
  exists outcome, fst (optimize_factor_weights db self t) = Ok outcome.
Proof.
  unfold optimize_factor_weights, search_weights, cbind, now, ret.
  match goal with
  | |- context [search_loop ?run ?cands ?s t] =>
      destruct (search_loop_returns run cands
                  (fun weights u => run_test_backtest_returns db self _ u) s t)
        as [search' E];
      destruct (search_loop run cands s t) as [[search|] t1]
  end; cbn [fst] in E; [|discriminate].
  simpl. eauto.
Qed.

(** C4, as the code has it.  The log of the search lists the candidates in
    order.  When some candidate measured an accuracy above 0, the best
    configuration is the earliest candidate of the highest measured
    accuracy: every earlier one measured strictly less, every later one no
    more.  When no candidate measured above 0, no configuration is
    returned. *)
Theorem search_keeps_first_best run_candidate candidates t outcome t' :
  search_weights run_candidate candidates t = (Ok outcome, t') ->
  map TestLog.weights (Optimization.all_tests outcome) = candidates /\
  ((exists entry, In entry (Optimization.all_tests outcome) /\
                  (0 < TestLog.accuracy entry)%Q) ->
   exists before entry after,
     Optimization.all_tests outcome = before ++ entry :: after /\
     Optimization.best_weights outcome = Some (TestLog.weights entry) /\
     Optimization.best_accuracy outcome = TestLog.accuracy entry /\
     (forall e, In e before -> (TestLog.accuracy e < TestLog.accuracy entry)%Q) /\
     (forall e, In e after -> (TestLog.accuracy e <= TestLog.accuracy entry)%Q)) /\
  ((forall entry, In entry (Optimization.all_tests outcome) ->
                  (TestLog.accuracy entry <= 0)%Q) ->
   Optimization.best_weights outcome = None).
Proof.
  unfold search_weights, cbind, now, ret. intros H.
  destruct (search_loop run_candidate candidates search_start t)
    as [[search|] t1] eqn:E; [|discriminate].
  injection H as <- _.
  apply search_loop_settled in E; [|apply settled_start].
  destruct E as [S L]. cbn. split; [exact L|].
  destruct S as [(Hw & Ha & Hlog)
                | (before & entry & after & Hlog & Hw & Ha & Hpos & Hb & Haf)].
  - split; [|auto]. intros (e & He & Hp). apply Hlog in He. lra.
  - split.
    + intros _. exists before, entry, after. auto.
    + intros Hall. assert (In entry (Search.results_log search)) as I.
      { rewrite Hlog. apply in_or_app. right. now left. }
      apply Hall in I. lra.
Qed.

Lemma search_keeps_first_best_witness :
  exists outcome,
    fst (optimize_factor_weights [stormy_loss] new_optimizer 0%nat) = Ok outcome /\
    (exists entry, In entry (Optimization.all_tests outcome) /\
                   (0 < TestLog.accuracy entry)%Q) /\
    exists before entry after,
      Optimization.all_tests outcome = before ++ entry :: after /\
      Optimization.best_weights outcome = Some (TestLog.weights entry) /\
      Optimization.best_accuracy outcome = TestLog.accuracy entry /\
      (forall e, In e before -> (TestLog.accuracy e < TestLog.accuracy entry)%Q) /\
      (forall e, In e after -> (TestLog.accuracy e <= TestLog.accuracy entry)%Q).
Proof.
  destruct (optimize_factor_weights [stormy_loss] new_optimizer 0%nat)
    as [[outcome|] t'] eqn:E; [|vm_compute in E; discriminate E].
  exists outcome. split; [reflexivity|].
  assert (P : exists entry, In entry (Optimization.all_tests outcome) /\
                            (0 < TestLog.accuracy entry)%Q).
  { vm_compute in E. injection E as <- _. eexists. split; [left; reflexivity|].
    reflexivity. }
  split; [exact P|].
  unfold optimize_factor_weights in E.
  destruct (search_keeps_first_best _ _ _ _ _ E) as (_ & H & _).
  exact (H P).
Defined.

(** C4, as stated, fails on an empty historical store: three candidates
    are evaluated, each measures accuracy 0, and no best configuration is
    returned. *)
Lemma search_without_history_counterexample :
  exists outcome t',
    optimize_factor_weights [] new_optimizer 0%nat = (Ok outcome, t') /\
    map TestLog.accuracy (Optimization.all_tests outcome) = [0; 0; 0] /\
    Optimization.best_weights outcome = None.
Proof.
  eexists _, _. split; [vm_compute; reflexivity|]. split; reflexivity.
Qed.

(** C1 fails on the code.  The store holds one final game, lost by the
    home side in weather worth -5 points.  The search records accuracy 1
    for each of its three candidates, the accuracy of the backtester's own
    engine and its default weights; a backtest run by an engine that
    carries the second candidate's weights (weather 0.08 instead of 0.10)
    predicts the home side and measures accuracy 0. *)
Theorem weight_search_scores_default_engine :
  let candidate := nth 1 (_generate_weight_combinations weight_options) [] in
  let candidate_backtester :=
    {| Backtester.prediction_engine := _create_test_engine candidate |} in
  (exists outcome,
     fst (optimize_factor_weights [stormy_loss] new_optimizer 0%nat) = Ok outcome /\
     map (fun entry => (lookup "weather_impact" (TestLog.weights entry),
                        TestLog.accuracy entry))
         (Optimization.all_tests outcome)
       = [ (Some (Num.lit 0.10), 1); (Some (Num.lit 0.08), 1);
           (Some (Num.lit 0.08), 1) ]) /\
  (exists results,
     fst (run_backtest [stormy_loss] candidate_backtester None None 0%nat)
       = Ok (Results results) /\
     BacktestResults.completed_games results = 1%nat /\
     BacktestResults.accuracy results = 0).
Proof.
  split.
  - eexists. split; [vm_compute; reflexivity|]. reflexivity.
  - eexists. split; [vm_compute; reflexivity|]. split; reflexivity.
Qed.

(* ===================================================================== *)
(** ** The engine: earlier meetings *)
(* ===================================================================== *)

Lemma mapM_id {A} (f : A -> result A) (l l' : list A) :
  (forall a b, f a = Ok b -> b = a) -> mapM f l = Ok l' -> l' = l.
Proof.
  intros Hf. revert l'. induction l as [|a l IH]; intros l' H.
  - now injection H as <-.
  - cbn [mapM] in H. unfold bind in H.
    destruct (f a) as [b|] eqn:E; [|discriminate].
    destruct (mapM f l) as [bs|]; [|discriminate].
    injection H as <-. f_equal; [now apply Hf | now apply IH].
Qed.

(** A fetch that succeeds returns the first [limit] rows as they are. *)
Lemma get_games_prefix db limit games :
  get_games db limit = Ok games -> games = firstn limit db.
Proof.
  apply mapM_id. intros a b H. unfold bind in H. break_hyp H.
  now injection H as <-.
Qed.

Lemma historical_matchups_cases db team1_id team2_id :
  _get_historical_matchups db team1_id team2_id =
    match get_games db 100 with
    | Ok games => Ok (filter (fun game => involves game team1_id team2_id) games)
    | Raised _ => Ok []
    end.
Proof.
  unfold _get_historical_matchups, try_except, bind.
  destruct (get_games db 100); reflexivity.
Qed.

Lemma historical_matchups_swap db team1_id team2_id :
  _get_historical_matchups db team1_id team2_id =
  _get_historical_matchups db team2_id team1_id.
Proof.
  rewrite !historical_matchups_cases.
  destruct (get_games db 100); [|reflexivity]. f_equal.
  apply filter_ext. intros game. unfold involves. apply orb_comm.
Qed.

Lemma historical_matchups_members db team1_id team2_id :
  exists matchups,
    _get_historical_matchups db team1_id team2_id = Ok matchups /\
    forall game, In game matchups ->
      In game (firstn 100 db) /\ involves game team1_id team2_id = true.
Proof.
  rewrite historical_matchups_cases.
  destruct (get_games db 100) as [games|] eqn:E.
  - eexists. split; [reflexivity|]. intros game Hin.
    apply filter_In in Hin. destruct Hin as [Hin Hinv].
    apply get_games_prefix in E. subst games. now split.
  - exists []. split; [reflexivity|]. intros game [].
Qed.

(** X1.  [_get_historical_matchups] does not depend on the order of its
    two team ids, never raises (a failing read of the table gives the empty
    list), and returns only rows among the 100 most recent ones that are a
    meeting of the two teams. *)
Theorem historical_matchups_symmetric db team1_id team2_id :
  _get_historical_matchups db team1_id team2_id =
  _get_historical_matchups db team2_id team1_id /\
  exists matchups,
    _get_historical_matchups db team1_id team2_id = Ok matchups /\
    forall game, In game matchups ->
      In game (firstn 100 db) /\ involves game team1_id team2_id = true.
Proof.
  split; [apply historical_matchups_swap | apply historical_matchups_members].
Qed.

(* ===================================================================== *)
(** ** The engine: the head-to-head factor *)
(* ===================================================================== *)

(** X2.  With the head-to-head weight configured, the head-to-head factor
    of two teams with fewer than three recorded meetings, and of any two
    teams when the table cannot be read, is the neutral one: value 0,
    confidence 0.2, text "Limited historical data" - not the error factor of
    confidence 0. *)
Theorem head_to_head_needs_three_meetings db self home_team_id away_team_id w :
  weight_of self "head_to_head" = Ok w ->
  (raises (get_games db 100) \/
   exists matchups,
     _get_historical_matchups db home_team_id away_team_id = Ok matchups /\
     (List.length matchups < 3)%nat) ->
  _calculate_head_to_head_factor db self home_team_id away_team_id =
    Ok (Factor "Head-to-Head" 0 w (Num.lit 0.2) [Lit "Limited historical data"]).
Proof.
  intros Hw H.
  assert (exists matchups,
            _get_historical_matchups db home_team_id away_team_id = Ok matchups /\
            (List.length matchups < 3)%nat) as (matchups & Hm & Hlen).
  { destruct H as [[e He]|H]; [|exact H].
    exists []. rewrite historical_matchups_cases, He. split; [reflexivity|].
    simpl. lia. }
  unfold _calculate_head_to_head_factor, head_to_head_try.
  rewrite Hm. unfold bind at 1.
  apply Nat.ltb_lt in Hlen. rewrite Hlen, Hw. reflexivity.
Qed.

Lemma head_to_head_needs_three_meetings_witness :
  _calculate_head_to_head_factor
    [stormy_loss; bills_dolphins 1 24 17 Malformed] new_engine
    (PStr "2") (PStr "15") =
    Ok (Factor "Head-to-Head" 0 (Num.lit 0.20) (Num.lit 0.2)
          [Lit "Limited historical data"]).
Proof.
  apply head_to_head_needs_three_meetings.
  - reflexivity.
  - left. exists JSONDecodeError. vm_compute. reflexivity.
Defined.

Lemma py_eq_text c s : py_eq (of_sql c) (PStr s) = true <-> c = SText s.
Proof.
  destruct c as [|q|u]; simpl; split; intros H; try discriminate.
  - apply String.eqb_eq in H. now subst.
  - injection H as ->. apply String.eqb_refl.
Qed.

(** A row of a meeting between two distinct teams has exactly one of them
    at home. *)
Lemma involves_one_home game (h a : string) :
  h <> a ->
  involves game (PStr h) (PStr a) = true ->
  (py_eq (of_sql (Game.home_team_id game)) (PStr h) = true /\
   py_eq (of_sql (Game.home_team_id game)) (PStr a) = false) \/
  (py_eq (of_sql (Game.home_team_id game)) (PStr h) = false /\
   py_eq (of_sql (Game.home_team_id game)) (PStr a) = true).
Proof.
  intros N H. unfold involves in H.
  destruct (py_eq (of_sql (Game.home_team_id game)) (PStr h)) eqn:Eh;
    destruct (py_eq (of_sql (Game.home_team_id game)) (PStr a)) eqn:Ea;
    auto; try (simpl in H; discriminate).
  apply py_eq_text in Eh, Ea. congruence.
Qed.

(** The margins of one row seen from either side cancel, and they fail
    together. *)
Lemma margins_cancel (x y : sqlval) :
  match sql_gt x y, sql_sub x y, sql_gt y x, sql_sub y x with
  | Ok _, Ok m, Ok _, Ok m' => (m + m' == 0)%Q
  | Raised _, _, Raised _, _ => True
  | Ok _, Raised _, Ok _, Raised _ => True
  | _, _, _, _ => False
  end.
Proof.
  destruct x as [|p|s], y as [|q|u]; simpl; try exact I.
  unfold Num.sub. rewrite !Qred_correct. ring.
Qed.

Lemma head_to_head_loop_swap (h a : string) games :
  h <> a ->
  Forall (fun game => involves game (PStr h) (PStr a) = true) games ->
  forall wins total wins' total',
    match head_to_head_loop (PStr h) games wins total,
          head_to_head_loop (PStr a) games wins' total' with
    | Ok r, Ok r' => (snd r + snd r' == total + total')%Q
    | Raised _, Raised _ => True
    | _, _ => False
    end.
Proof.
  intros N H. induction H as [|game rest Hg _ IH]; intros wins total wins' total'.
  - simpl. reflexivity.
  - cbn [head_to_head_loop].
    pose proof (margins_cancel (Game.home_score game) (Game.away_score game)) as M.
    destruct (involves_one_home game h a N Hg) as [[-> ->]|[-> ->]]; unfold bind;
      destruct (sql_gt (Game.home_score game) (Game.away_score game)) as [w1|];
      destruct (sql_sub (Game.home_score game) (Game.away_score game)) as [m|];
      destruct (sql_gt (Game.away_score game) (Game.home_score game)) as [w2|];
      destruct (sql_sub (Game.away_score game) (Game.home_score game)) as [m'|];
      try contradiction; try exact I;
      match goal with
      | |- match head_to_head_loop _ _ ?w ?t with _ => _ end =>
          match goal with
          | |- context [head_to_head_loop (PStr a) rest ?w' ?t'] =>
              specialize (IH w t w' t')
          end
      end;
      destruct (head_to_head_loop (PStr h) rest _ _) as [r|];
      destruct (head_to_head_loop (PStr a) rest _ _) as [r'|]; auto;
      rewrite IH; unfold Num.add; rewrite !Qred_correct; lra.
Qed.

Lemma last_n_incl {A} n (l : list A) : incl (last_n n l) l.
Proof.
  unfold last_n. intros x Hx.
  rewrite <- (firstn_skipn (List.length l - n) l). apply in_or_app. now right.
Qed.

(** X3.  Swapping the home and the away side of two distinct teams negates
    the value of the head-to-head factor and leaves its confidence and its
    weight as they are: the factor is the average margin of the last five
    meetings from the home side's point of view. *)
Theorem head_to_head_antisymmetric db self (h a : string) :
  h <> a ->
  exists f f',
    _calculate_head_to_head_factor db self (PStr h) (PStr a) = Ok f /\
    _calculate_head_to_head_factor db self (PStr a) (PStr h) = Ok f' /\
    (PredictionFactor.value f' == - PredictionFactor.value f)%Q /\
    PredictionFactor.confidence f' = PredictionFactor.confidence f /\
    PredictionFactor.weight f' = PredictionFactor.weight f.
Proof.
  intros N.
  unfold _calculate_head_to_head_factor, head_to_head_try.
  destruct (historical_matchups_members db (PStr h) (PStr a))
    as (matchups & Hm & Hin).
  rewrite <- (historical_matchups_swap db (PStr h) (PStr a)), Hm.
  unfold bind, try_except. cbv beta iota.
  destruct (List.length matchups <? 3)%nat.
  - destruct (weight_of self "head_to_head") as [w|];
      do 2 eexists; (split; [reflexivity|]); (split; [reflexivity|]);
      simpl; repeat split; reflexivity.
  - assert (Forall (fun game => involves game (PStr h) (PStr a) = true)
                   (last_n 5 matchups)) as HF.
    { apply Forall_forall. intros game Hg. apply Hin.
      exact (last_n_incl 5 matchups game Hg). }
    pose proof (head_to_head_loop_swap h a _ N HF 0%nat 0%Q 0%nat 0%Q) as L.
    destruct (head_to_head_loop (PStr h) (last_n 5 matchups) 0 0) as [r|];
      destruct (head_to_head_loop (PStr a) (last_n 5 matchups) 0 0) as [r'|];
      try contradiction.
    + destruct (weight_of self "head_to_head") as [w|];
        do 2 eexists; (split; [reflexivity|]); (split; [reflexivity|]);
        simpl; repeat split; try reflexivity.
      unfold Num.div. rewrite !Qred_correct.
      assert (snd r' == - snd r)%Q as -> by lra.
      unfold Qdiv. ring.
    + do 2 eexists; (split; [reflexivity|]); (split; [reflexivity|]);
        simpl; repeat split; reflexivity.
Qed.

Lemma head_to_head_antisymmetric_witness :
  exists f f',
    _calculate_head_to_head_factor long_season new_engine (PStr "2") (PStr "15")
      = Ok f /\
    _calculate_head_to_head_factor long_season new_engine (PStr "15") (PStr "2")
      = Ok f' /\
    (PredictionFactor.value f' == - PredictionFactor.value f)%Q /\
    PredictionFactor.confidence f' = PredictionFactor.confidence f /\
    PredictionFactor.weight f' = PredictionFactor.weight f.
Proof.
  apply (head_to_head_antisymmetric long_season new_engine "2" "15").
  discriminate.
Defined.

(* ===================================================================== *)
(** ** The engine: the factor table of a prediction *)
(* ===================================================================== *)

Lemma min_le_l a b : (Num.min a b <= a)%Q.
Proof.
  unfold Num.min. destruct (Num.ltb b a) eqn:E; [|lra].
  apply ltb_true in E. lra.
Qed.

Ltac shape_of H :=
  unfold try_except in H;
  match type of H with
  | match ?body with _ => _ end = _ =>
      let E := fresh "E" in
      destruct body eqn:E;
      [ injection H as ->; unfold bind in E; break_hyp E; injection E as <-
      | try (unfold bind in H; break_hyp H); injection H as <- ]
  end;
  (split; [|split; [|split]]); simpl; try reflexivity; try discriminate;
  try (unfold Num.lit; simpl; lra);
  try (now left); try (right; eexists; eassumption).

Lemma team_strength_shaped self home_team away_team f :
  _calculate_team_strength_factor self home_team away_team = Ok f ->
  shaped self "Team Strength" false f.
Proof.
  unfold _calculate_team_strength_factor, team_strength_try. intros H.
  shape_of H. apply (min_le_l (Num.lit 0.9)).
Qed.

Lemma head_to_head_shaped db self home_id away_id f :
  _calculate_head_to_head_factor db self home_id away_id = Ok f ->
  shaped self "Head-to-Head" false f.
Proof.
  unfold _calculate_head_to_head_factor, head_to_head_try. intros H.
  shape_of H.
  match goal with
  | |- (Num.min ?a ?b <= _)%Q => pose proof (min_le_l a b) as M
  end.
  unfold Num.lit in M. simpl in M. lra.
Qed.

Lemma home_advantage_shaped self home_id f :
  _calculate_home_advantage_factor self home_id = Ok f ->
  shaped self "Home Advantage" false f.
Proof.
  unfold _calculate_home_advantage_factor, home_advantage_try. intros H.
  shape_of H.
Qed.

Lemma rest_shaped self game f :
  _calculate_rest_factor self game = Ok f -> shaped self "Rest Advantage" true f.
Proof. unfold _calculate_rest_factor, rest_try. intros H. shape_of H. Qed.

Lemma weather_shaped self game f :
  _calculate_weather_factor self game = Ok f -> shaped self "Weather" false f.
Proof. unfold _calculate_weather_factor, weather_try. intros H. shape_of H. Qed.

Lemma motivation_shaped self game f :
  _calculate_motivation_factor self game = Ok f -> shaped self "Motivation" true f.
Proof.
  unfold _calculate_motivation_factor, motivation_try. intros H. shape_of H.
Qed.

Lemma injury_shaped self home_id away_id f :
  _calculate_injury_factor self home_id away_id = Ok f -> shaped self "Injuries" true f.
Proof. unfold _calculate_injury_factor, injury_try. intros H. shape_of H. Qed.

(** The seven calculators behind the factors of a returned prediction. *)
Lemma predict_single_game_factors db self game t p t' :
  _predict_single_game db self game t = (Ok (Some p), t') ->
  exists home_team away_team home_id away_id f1 f2 f3 f4 f5 f6 f7,
    py_getitem game "home_team" = Ok home_team /\
    py_getitem game "away_team" = Ok away_team /\
    py_getitem home_team "id" = Ok home_id /\
    py_getitem away_team "id" = Ok away_id /\
    _calculate_team_strength_factor self home_team away_team = Ok f1 /\
    _calculate_head_to_head_factor db self home_id away_id = Ok f2 /\
    _calculate_home_advantage_factor self home_id = Ok f3 /\
    _calculate_rest_factor self game = Ok f4 /\
    _calculate_weather_factor self game = Ok f5 /\
    _calculate_motivation_factor self game = Ok f6 /\
    _calculate_injury_factor self home_id away_id = Ok f7 /\
    GamePrediction.factors p = [f1; f2; f3; f4; f5; f6; f7].
Proof.
  unfold _predict_single_game, cbind, lift, ret, now. intros H.
  break_hyp H.
  injection H as <- <-. simpl.
  eexists _, _, _, _, _, _, _, _, _, _, _. repeat split; eassumption.
Qed.

(** The factors of a returned prediction carry the seven names in order. *)
Lemma predict_single_game_names db self game t p t' :
  _predict_single_game db self game t = (Ok (Some p), t') ->
  map PredictionFactor.name (GamePrediction.factors p) = factor_names.
Proof.
  intros H. apply predict_single_game_factors in H.
  destruct H as (home_team & away_team & home_id & away_id &
                 f1 & f2 & f3 & f4 & f5 & f6 & f7 &
                 _ & _ & _ & _ & H1 & H2 & H3 & H4 & H5 & H6 & H7 & ->).
  apply team_strength_shaped in H1. apply head_to_head_shaped in H2.
  apply home_advantage_shaped in H3. apply rest_shaped in H4.
  apply weather_shaped in H5. apply motivation_shaped in H6.
  apply injury_shaped in H7.
  destruct H1 as (N1 & _), H2 as (N2 & _), H3 as (N3 & _), H4 as (N4 & _),
           H5 as (N5 & _), H6 as (N6 & _), H7 as (N7 & _).
  simpl. now rewrite N1, N2, N3, N4, N5, N6, N7.
Qed.

(** X4.  A returned prediction lists exactly seven factors, named and
    ordered as the engine computes them; none has a confidence above 0.9,
    and the three placeholders (rest, motivation, injuries) have value 0
    whatever the game. *)
Theorem prediction_factor_table db self game t p t' :
  _predict_single_game db self game t = (Ok (Some p), t') ->
  map PredictionFactor.name (GamePrediction.factors p) = factor_names /\
  Forall (fun f => (PredictionFactor.confidence f <= 9 # 10)%Q)
         (GamePrediction.factors p) /\
  forall f, In f (GamePrediction.factors p) ->
            In (PredictionFactor.name f)
               ["Rest Advantage"; "Motivation"; "Injuries"] ->
            PredictionFactor.value f = 0.
Proof.
  intros H. apply predict_single_game_factors in H.
  destruct H as (home_team & away_team & home_id & away_id &
                 f1 & f2 & f3 & f4 & f5 & f6 & f7 &
                 _ & _ & _ & _ & H1 & H2 & H3 & H4 & H5 & H6 & H7 & ->).
  apply team_strength_shaped in H1. apply head_to_head_shaped in H2.
  apply home_advantage_shaped in H3. apply rest_shaped in H4.
  apply weather_shaped in H5. apply motivation_shaped in H6.
  apply injury_shaped in H7.
  destruct H1 as (N1 & C1 & _), H2 as (N2 & C2 & _), H3 as (N3 & C3 & _),
           H4 as (N4 & C4 & _ & V4), H5 as (N5 & C5 & _),
           H6 as (N6 & C6 & _ & V6), H7 as (N7 & C7 & _ & V7).
  split; [|split].
  - simpl. now rewrite N1, N2, N3, N4, N5, N6, N7.
  - repeat constructor; assumption.
  - intros f Hf Hn. simpl in Hf.
    destruct Hf as [<-|[<-|[<-|[<-|[<-|[<-|[<-|[]]]]]]]];
      rewrite ?N1, ?N2, ?N3, ?N4, ?N5, ?N6, ?N7 in Hn; simpl in Hn;
      auto; repeat (destruct Hn as [Hn|Hn]; try discriminate Hn);
      contradiction.
Qed.

Lemma prediction_factor_table_witness :
  exists p,
    _predict_single_game [] new_engine sample_matchup 0%nat
      = (Ok (Some p), 1%nat) /\
    map PredictionFactor.name (GamePrediction.factors p) = factor_names /\
    Forall (fun f => (PredictionFactor.confidence f <= 9 # 10)%Q)
           (GamePrediction.factors p) /\
    forall f, In f (GamePrediction.factors p) ->
              In (PredictionFactor.name f)
                 ["Rest Advantage"; "Motivation"; "Injuries"] ->
              PredictionFactor.value f = 0.
Proof.
  eexists. split.
  - vm_compute. reflexivity.
  - apply (prediction_factor_table [] new_engine sample_matchup 0%nat _ 1%nat).
    vm_compute. reflexivity.
Defined.

(* ===================================================================== *)
(** ** The engine: the spread *)
(* ===================================================================== *)

Lemma round_half_even_le (y : Q) (hi : Z) :
  (y <= inject_Z hi)%Q -> (Num.round_half_even y <= hi)%Z.
Proof.
  intros H. apply (round_half_even_bounds y (Qfloor y) hi).
  split; [apply Qfloor_le | exact H].
Qed.

Lemma round_half_even_ge (y : Q) (lo : Z) :
  (inject_Z lo <= y)%Q -> (lo <= Num.round_half_even y)%Z.
Proof.
  intros H. apply (round_half_even_bounds y lo (Qceiling y)).
  split; [exact H | apply Qle_ceiling].
Qed.

(** Rounding to tenths does not cross zero. *)
Lemma round1_sign (x : Q) :
  ((0 < Num.round1 x -> 0 < x) /\ (Num.round1 x < 0 -> x < 0))%Q.
Proof.
  unfold Num.round1. split; intros H; rewrite Qred_correct in H.
  - destruct (Qlt_le_dec 0 x) as [L|L]; [exact L|exfalso].
    assert (Num.round_half_even (x * 10) <= 0)%Z as R.
    { apply round_half_even_le. change (inject_Z 0) with 0%Q. lra. }
    unfold Qlt in H. simpl in H. lia.
  - destruct (Qlt_le_dec x 0) as [L|L]; [exact L|exfalso].
    assert (0 <= Num.round_half_even (x * 10))%Z as R.
    { apply round_half_even_ge. change (inject_Z 0) with 0%Q. lra. }
    unfold Qlt in H. simpl in H. lia.
Qed.

Lemma final_prediction_sign factors home_team away_team r :
  _calculate_final_prediction factors home_team away_team = Ok r ->
  ((0 < FinalPrediction.spread r)%Q ->
   py_getitem home_team "name" = Ok (FinalPrediction.winner r)) /\
  ((FinalPrediction.spread r < 0)%Q ->
   py_getitem away_team "name" = Ok (FinalPrediction.winner r)).
Proof.
  unfold _calculate_final_prediction.
  set (totals := fold_left add_factor factors (0, 0)).
  set (spread := if Num.gtb (snd totals) 0 then fst totals /! snd totals else 0).
  intros H. unfold bind in H.
  destruct (round1_sign spread) as [Hpos Hneg].
  destruct (Num.gtb spread 0) eqn:G.
  - destruct (py_getitem home_team "name") eqn:E; [|discriminate].
    injection H as <-. simpl. split; [reflexivity|].
    intros L. apply Hneg in L. apply ltb_true in G. lra.
  - destruct (py_getitem away_team "name") eqn:E; [|discriminate].
    injection H as <-. simpl. split; [|reflexivity].
    intros L. apply Hpos in L. apply ltb_false in G. lra.
Qed.

(** X5.  The winner of a returned prediction agrees with the sign of its
    spread: a positive spread goes with the home team, a negative one with
    the away team. *)
Theorem spread_sign_names_winner db self game t p t' :
  _predict_single_game db self game t = (Ok (Some p), t') ->
  ((0 < GamePrediction.spread_prediction p)%Q ->
   GamePrediction.predicted_winner p = GamePrediction.home_team p) /\
  ((GamePrediction.spread_prediction p < 0)%Q ->
   GamePrediction.predicted_winner p = GamePrediction.away_team p).
Proof.
  intros H. apply predict_single_game_inv in H.
  destruct H as (home & away & r & _ & _ & Hr & Hh & Ha & Hw & _ & Hs & _).
  apply final_prediction_sign in Hr. destruct Hr as [Hpos Hneg].
  rewrite Hw, Hs. split; intros L.
  - apply Hpos in L. congruence.
  - apply Hneg in L. congruence.
Qed.

Lemma spread_sign_names_winner_witness :
  exists p,
    _predict_single_game [] new_engine sample_matchup 0%nat
      = (Ok (Some p), 1%nat) /\
    ((0 < GamePrediction.spread_prediction p)%Q ->
     GamePrediction.predicted_winner p = GamePrediction.home_team p) /\
    ((GamePrediction.spread_prediction p < 0)%Q ->
     GamePrediction.predicted_winner p = GamePrediction.away_team p).
Proof.
  eexists. split.
  - vm_compute. reflexivity.
  - apply (spread_sign_names_winner [] new_engine sample_matchup 0%nat _ 1%nat).
    vm_compute. reflexivity.
Defined.







(* ===================================================================== *)
(** ** The engine: a batch of games *)
(* ===================================================================== *)

(** The clock is read once, at the end of a prediction that is returned. *)
Lemma predict_single_game_ticks db self game t :
  match _predict_single_game db self game t with
  | (Ok (Some _), t') => t' = S t
  | (_, t') => t' = t
  end.
Proof.
  unfold _predict_single_game, cbind, lift, ret, now.
  destruct (py_get game "status" PNone); [|reflexivity].
  destruct (negb _); [reflexivity|].
  repeat match goal with
         | |- context [match ?x with Ok _ => _ | Raised _ => _ end] =>
             destruct x; [|reflexivity]
         end.
  reflexivity.
Qed.

(** One turn of the loop of [predict_games]. *)
Lemma predict_loop_cons db self game rest predictions t :
  predict_loop db self (game :: rest) predictions t =
  match _predict_single_game db self game t with
  | (Ok (Some p), t') => predict_loop db self rest (predictions ++ [p]) t'
  | (Ok None, t') => predict_loop db self rest predictions t'
  | (Raised _, t') =>
      match py_get game "espn_id" PNone with
      | Ok _ => predict_loop db self rest predictions t'
      | Raised e => (Raised e, t')
      end
  end.
Proof.
  cbn [predict_loop]. unfold cbind, ctry_except, lift, ret.
  destruct (_predict_single_game db self game t) as [[[p|]|] t'];
    try reflexivity.
  destruct (py_get game "espn_id" PNone); reflexivity.
Qed.

Lemma predict_loop_dicts db self games :
  Forall (fun game => is_dict game = true) games ->
  forall predictions t,
  exists added,
    predict_loop db self games predictions t =
      (Ok (predictions ++ added), (t + List.length added)%nat) /\
    (List.length added <= List.length games)%nat /\
    Forall (fun p => exists game u,
                In game games /\
                _predict_single_game db self game u = (Ok (Some p), S u))
           added.
Proof.
  induction 1 as [|game rest Hd _ IH]; intros predictions t.
  - exists []. simpl. rewrite app_nil_r, Nat.add_0_r. repeat split.
    + unfold ret. reflexivity.
    + constructor.
  - rewrite predict_loop_cons.
    pose proof (predict_single_game_ticks db self game t) as Ht.
    destruct (_predict_single_game db self game t) as [[[p|]|] t'] eqn:E.
    + subst t'. destruct (IH (predictions ++ [p]) (S t)) as (added & -> & Hl & Hin).
      exists (p :: added). rewrite <- app_assoc. simpl.
      rewrite Nat.add_succ_r. repeat split; [lia|].
      constructor.
      * exists game, t. split; [now left | exact E].
      * eapply Forall_impl; [|exact Hin].
        intros q (g & u & Hg & Hq). exists g, u. split; [now right | exact Hq].
    + subst t'. destruct (IH predictions t) as (added & -> & Hl & Hin).
      exists added. repeat split; [simpl; lia|].
      eapply Forall_impl; [|exact Hin].
      intros q (g & u & Hg & Hq). exists g, u. split; [now right | exact Hq].
    + subst t'. destruct game; try discriminate Hd. cbn [py_get].
      destruct (IH predictions t) as (added & -> & Hl & Hin).
      exists added. repeat split; [simpl; lia|].
      eapply Forall_impl; [|exact Hin].
      intros q (g & u & Hg & Hq). exists g, u. split; [now right | exact Hq].
Qed.

(** X7.  A batch of games that are all dictionaries never fails:
    [predict_games] skips the games that are not scheduled and those whose
    prediction raises, and returns, in order, predictions that each are the
    prediction of one of the games; the clock is read once per prediction
    returned. *)
Theorem predict_games_skips_failures db self current_games games t :
  games <> [] ->
  Forall (fun game => is_dict game = true) games ->
  exists predictions,
    predict_games db self current_games (Some games) t =
      (Ok predictions, (t + List.length predictions)%nat) /\
    (List.length predictions <= List.length games)%nat /\
    Forall (fun p => exists game u,
                In game games /\
                _predict_single_game db self game u = (Ok (Some p), S u))
           predictions.
Proof.
  intros Hne Hd.
  destruct (predict_loop_dicts db self games Hd [] t) as (added & E & Hl & Hin).
  exists added. unfold predict_games, cbind.
  destruct games as [|game rest]; [contradiction|].
  unfold ret at 1. rewrite E. now repeat split.
Qed.

Lemma predict_games_skips_failures_witness :
  exists predictions,
    predict_games [] new_engine (ret [])
      (Some [PDict []; sample_matchup;
             PDict [("status", PStr "STATUS_SCHEDULED")]; sample_matchup])
      5%nat =
      (Ok predictions, (5 + List.length predictions)%nat) /\
    (List.length predictions <= 4)%nat /\
    Forall (fun p => exists game u,
                In game [PDict []; sample_matchup;
                         PDict [("status", PStr "STATUS_SCHEDULED")];
                         sample_matchup] /\
                _predict_single_game [] new_engine game u = (Ok (Some p), S u))
           predictions.
Proof.
  apply (predict_games_skips_failures [] new_engine (ret [])
           [PDict []; sample_matchup;
            PDict [("status", PStr "STATUS_SCHEDULED")]; sample_matchup]
           5%nat).
  - discriminate.
  - repeat constructor.
Defined.

Lemma predict_single_game_non_dict db self game t :
  is_dict game = false ->
  _predict_single_game db self game t = (Raised AttributeError, t).
Proof.
  intros H. destruct game; try discriminate H; reflexivity.
Qed.

Lemma predict_loop_non_dict db self games :
  Exists (fun game => is_dict game = false) games ->
  forall predictions t,
  exists t', predict_loop db self games predictions t
             = (Raised AttributeError, t').
Proof.
  induction games as [|game rest IH]; intros Hex predictions t.
  - inversion Hex.
  - rewrite predict_loop_cons.
    destruct (is_dict game) eqn:D.
    + assert (Exists (fun game => is_dict game = false) rest) as Hrest.
      { inversion Hex; subst; [congruence|assumption]. }
      destruct game; try discriminate D. cbn [py_get].
      destruct (_predict_single_game db self (PDict d) t) as [[[p|]|] t'];
        now apply IH.
    + rewrite (predict_single_game_non_dict _ _ _ _ D).
      destruct game; try discriminate D; cbn [py_get]; eauto.
Qed.

(** X8.  One game of the batch that is no dictionary aborts the whole
    batch: the handler that should skip it calls [game.get] itself, and
    [predict_games] raises AttributeError, losing the predictions made so
    far. *)
Theorem predict_games_aborts_on_non_dict db self current_games games t :
  Exists (fun game => is_dict game = false) games ->
  exists t',
    predict_games db self current_games (Some games) t
      = (Raised AttributeError, t').
Proof.
  intros Hex. unfold predict_games, cbind.
  destruct games as [|game rest]; [inversion Hex|].
  unfold ret at 1. now apply predict_loop_non_dict.
Qed.

Lemma predict_games_aborts_on_non_dict_witness :
  exists t',
    predict_games [] new_engine (ret [])
      (Some [sample_matchup; PNone; sample_matchup]) 0%nat
      = (Raised AttributeError, t').
Proof.
  apply predict_games_aborts_on_non_dict.
  apply Exists_cons_tl, Exists_cons_hd. reflexivity.
Defined.

(* ===================================================================== *)
(** ** The backtester: the corpus *)
(* ===================================================================== *)

(** A fetch returns the rows as they are, or fails on the first row with
    an unreadable JSON column. *)
Lemma get_games_cases db limit :
  get_games db limit =
    if forallb readable (firstn limit db) then Ok (firstn limit db)
    else Raised JSONDecodeError.
Proof.
  unfold get_games. induction (firstn limit db) as [|game rows IH].
  - reflexivity.
  - cbn [mapM forallb]. rewrite IH. unfold bind.
    destruct (forallb readable rows); unfold readable;
      destruct (Game.weather_data game), (Game.raw_data game); reflexivity.
Qed.

Lemma filterM_completed rows :
  match filterM _is_game_completed rows with
  | Ok kept => forallb judged rows = true /\ kept = filter completed rows
  | Raised _ => forallb judged rows = false
  end.
Proof.
  induction rows as [|game rows IH]; [now split|].
  cbn [filterM forallb filter]. unfold bind.
  assert (judged game = match _is_game_completed game with
                        | Ok _ => true | Raised _ => false end) as ->
    by reflexivity.
  assert (completed game = match _is_game_completed game with
                           | Ok b => b | Raised _ => false end) as ->
    by reflexivity.
  destruct (_is_game_completed game) as [b|]; [|reflexivity].
  destruct (filterM _is_game_completed rows) as [kept|].
  - destruct IH as [-> ->]. now split.
  - now rewrite IH.
Qed.

Lemma historical_games_cases db start_date end_date :
  _get_historical_games db start_date end_date =
    Ok (if forallb (fun game => readable game && judged game) (firstn 500 db)
        then filter completed (firstn 500 db)
        else []).
Proof.
  unfold _get_historical_games, try_except, bind.
  rewrite get_games_cases.
  assert (forallb (fun game => readable game && judged game) (firstn 500 db)
          = forallb readable (firstn 500 db) && forallb judged (firstn 500 db))
    as ->.
  { induction (firstn 500 db) as [|g l IH]; [reflexivity|].
    cbn [forallb]. rewrite IH.
    destruct (readable g), (judged g), (forallb readable l); reflexivity. }
  destruct (forallb readable (firstn 500 db)); [|reflexivity].
  pose proof (filterM_completed (firstn 500 db)) as H.
  destruct (filterM _is_game_completed (firstn 500 db)) as [kept|].
  - destruct H as [-> ->]. reflexivity.
  - rewrite H. reflexivity.
Qed.

(** X9.  [_get_historical_games] ignores the two dates it is given and
    never raises.  It returns the rows that pass the completion test among
    the 500 most recent ones, in their order - unless one of those 500 rows
    has an unreadable JSON column or cannot be tested (a status other than
    final with a score that is no number): then it returns no row at all. *)
Theorem historical_games_all_or_nothing db start_date end_date :
  _get_historical_games db start_date end_date =
    Ok (if forallb (fun game => readable game && judged game) (firstn 500 db)
        then filter completed (firstn 500 db)
        else []).
Proof. apply historical_games_cases. Qed.

(* ===================================================================== *)
(** ** The backtester: what the loop keeps true *)
(* ===================================================================== *)

Section LoopInvariant.

Variable db : list Game.t.
Variable self : Backtester.t.
Variable I : Tally.t -> Prop.

Lemma backtest_loop_invariant games :
  (forall game p tally tally' t t',
      In game games ->
      _predict_historical_game db self game t = (Ok (Some p), t') ->
      record_prediction game p tally = Ok tally' ->
      I tally -> I tally') ->
  forall tally t tally' t',
    I tally ->
    backtest_loop db self games tally t = (Ok tally', t') ->
    I tally'.
Proof.
  induction games as [|game rest IH]; intros Hstep tally t tally' t' H0 H.
  - injection H as <- _. exact H0.
  - rewrite backtest_loop_cons in H.
    assert (forall game p tally tally' t t',
               In game rest ->
               _predict_historical_game db self game t = (Ok (Some p), t') ->
               record_prediction game p tally = Ok tally' ->
               I tally -> I tally') as Hrest.
    { intros g p a b u v Hin. apply Hstep. now right. }
    destruct (_is_game_completed game) as [[|]|]; try discriminate H.
    + destruct (_predict_historical_game db self game t) as [[[p|]|] u] eqn:E;
        try discriminate H.
      * destruct (record_prediction game p tally) as [tally1|] eqn:R;
          try discriminate H.
        eapply (IH Hrest); [|exact H].
        eapply Hstep; [now left|exact E|exact R|exact H0].
      * eapply (IH Hrest); [exact H0|exact H].
    + eapply (IH Hrest); [exact H0|exact H].
Qed.

End LoopInvariant.

Lemma predict_historical_game_inv db self game t p t' :
  _predict_historical_game db self game t = (Ok (Some p), t') ->
  exists game_data u,
    _predict_single_game db (Backtester.prediction_engine self) game_data u
      = (Ok (Some p), t') /\
    py_getitem game_data "home_team" =
      Ok (PDict [ ("id", of_sql (Game.home_team_id game));
                  ("name", of_sql (Game.home_team_name game));
                  ("record", PDict [("wins", PNum 0); ("losses", PNum 0);
                                    ("ties", PNum 0)]) ]) /\
    py_getitem game_data "away_team" =
      Ok (PDict [ ("id", of_sql (Game.away_team_id game));
                  ("name", of_sql (Game.away_team_name game));
                  ("record", PDict [("wins", PNum 0); ("losses", PNum 0);
                                    ("ties", PNum 0)]) ]).
Proof.
  unfold _predict_historical_game, ctry_except, cbind, lift, ret. intros H.
  destruct (if has_text _ then _ else _) as [weather|]; [|discriminate].
  match type of H with
  | context [_predict_single_game db ?e ?g t] =>
      destruct (_predict_single_game db e g t) as [[o|] u] eqn:E
  end; [|discriminate].
  injection H as -> ->. eexists _, _. split; [exact E|]. split; reflexivity.
Qed.

Lemma predict_historical_game_confidence db self game t p t' :
  _predict_historical_game db self game t = (Ok (Some p), t') ->
  (50 <= GamePrediction.confidence p <= 85)%Q.
Proof.
  intros H. apply predict_historical_game_inv in H.
  destruct H as (game_data & u & H & _).
  apply predict_single_game_inv in H.
  destruct H as (home & away & r & _ & _ & Hr & _ & _ & _ & -> & _).
  apply final_prediction_inv in Hr. apply Hr.
Qed.

Lemma record_prediction_entry game p tally tally' :
  record_prediction game p tally = Ok tally' ->
  exists winner counts,
    _get_actual_winner game = Ok winner /\
    getitem (Tally.confidence_buckets tally)
      (_get_confidence_bucket (GamePrediction.confidence p)) = Ok counts /\
    let is_correct := py_eq winner (GamePrediction.predicted_winner p) in
    let entry :=
      {| PredictionEntry.game_id := Game.espn_id game;
         PredictionEntry.matchup :=
           [Fmt (of_sql (Game.away_team_name game)) ""; Lit " @ ";
            Fmt (of_sql (Game.home_team_name game)) ""];
         PredictionEntry.predicted_winner := GamePrediction.predicted_winner p;
         PredictionEntry.actual_winner := winner;
         PredictionEntry.confidence := GamePrediction.confidence p;
         PredictionEntry.correct := is_correct;
         PredictionEntry.factors :=
           map (fun f =>
                  {| FactorEntry.name := PredictionFactor.name f;
                     FactorEntry.value := PredictionFactor.value f;
                     FactorEntry.weight := PredictionFactor.weight f |})
               (GamePrediction.factors p) |} in
    tally' =
      {| Tally.completed_games := S (Tally.completed_games tally);
         Tally.correct_predictions :=
           if is_correct then S (Tally.correct_predictions tally)
           else Tally.correct_predictions tally;
         Tally.total_confidence :=
           Tally.total_confidence tally +! GamePrediction.confidence p;
         Tally.confidence_buckets :=
           store (_get_confidence_bucket (GamePrediction.confidence p))
             {| Bucket.correct :=
                  if is_correct then S (Bucket.correct counts)
                  else Bucket.correct counts;
                Bucket.total := S (Bucket.total counts) |}
             (Tally.confidence_buckets tally);
         Tally.predictions := Tally.predictions tally ++ [entry] |}.
Proof.
  unfold record_prediction, bind. intros H.
  destruct (_get_actual_winner game) as [winner|]; [|discriminate].
  destruct (getitem _ _) as [counts|]; [|discriminate].
  injection H as <-. exists winner, counts. repeat split.
Qed.

Lemma counted_step db self game p tally tally' t t' :
  _predict_historical_game db self game t = (Ok (Some p), t') ->
  record_prediction game p tally = Ok tally' ->
  counted tally -> counted tally'.
Proof.
  intros Hp Hr (Hc & Hk & Hq).
  apply predict_historical_game_confidence in Hp.
  apply record_prediction_entry in Hr.
  destruct Hr as (winner & counts & _ & _ & ->). cbv zeta.
  unfold counted. cbn [Tally.completed_games Tally.correct_predictions
                       Tally.total_confidence Tally.predictions].
  rewrite filter_app, !length_app. cbn [filter PredictionEntry.correct].
  split; [|split].
  - simpl. lia.
  - destruct (py_eq winner (GamePrediction.predicted_winner p)); simpl; lia.
  - rewrite add_eq, of_nat_S. lra.
Qed.

Lemma backtest_loop_bound db self games :
  forall tally t tally' t',
    backtest_loop db self games tally t = (Ok tally', t') ->
    (Tally.completed_games tally'
     <= Tally.completed_games tally + List.length games)%nat.
Proof.
  induction games as [|game rest IH]; intros tally t tally' t' H.
  - injection H as <- _. simpl. lia.
  - rewrite backtest_loop_cons in H. cbn [List.length].
    destruct (_is_game_completed game) as [[|]|]; try discriminate H.
    + destruct (_predict_historical_game db self game t) as [[[p|]|] u];
        try discriminate H.
      * destruct (record_prediction game p tally) as [tally1|] eqn:R;
          try discriminate H.
        apply IH in H. apply record_prediction_counts in R.
        destruct R as (_ & _ & R & _). lia.
      * apply IH in H. lia.
    + apply IH in H. lia.
Qed.

(** How a results dictionary of [run_backtest] comes about. *)
Lemma run_backtest_inv db self start_date end_date t r :
  fst (run_backtest db self start_date end_date t) = Ok (Results r) ->
  exists games tally t',
    _get_historical_games db start_date end_date = Ok games /\
    games <> [] /\
    backtest_loop db self games empty_tally t = (Ok tally, t') /\
    r = results_of games tally.
Proof.
  unfold run_backtest, cbind, lift, ret. intros H.
  destruct (_get_historical_games db start_date end_date) as [games|];
    [|discriminate].
  destruct games as [|game rest]; [discriminate|].
  change {| Tally.completed_games := 0;
            Tally.correct_predictions := 0;
            Tally.total_confidence := 0;
            Tally.confidence_buckets := _;
            Tally.predictions := [] |} with empty_tally in H.
  destruct (backtest_loop db self (game :: rest) empty_tally t)
    as [[tally|] t'] eqn:E; [|discriminate].
  cbn [fst] in H. injection H as <-.
  exists (game :: rest), tally, t'.
  split; [reflexivity|]. split; [discriminate|]. split; [exact E|reflexivity].
Qed.

Lemma of_nat_le m n : (m <= n)%nat -> (Num.of_nat m <= Num.of_nat n)%Q.
Proof.
  intros H. unfold Num.of_nat. rewrite <- Zle_Qle. lia.
Qed.

Lemma of_nat_pos n : (0 < n)%nat -> (0 < Num.of_nat n)%Q.
Proof.
  intros H. unfold Num.of_nat. change 0%Q with (inject_Z 0).
  rewrite <- Zlt_Qlt. lia.
Qed.

Lemma counted_results games tally :
  counted tally ->
  (Tally.completed_games tally <= List.length games)%nat ->
  let r := results_of games tally in
  (BacktestResults.completed_games r <= BacktestResults.total_games r)%nat /\
  (BacktestResults.correct_predictions r
   <= BacktestResults.completed_games r)%nat /\
  List.length (BacktestResults.predictions r)
    = BacktestResults.completed_games r /\
  List.length (filter PredictionEntry.correct (BacktestResults.predictions r))
    = BacktestResults.correct_predictions r /\
  (0 <= BacktestResults.accuracy r <= 1)%Q /\
  ((0 < BacktestResults.completed_games r)%nat ->
   (50 <= BacktestResults.avg_confidence r <= 85)%Q).
Proof.
  intros (Hc & Hk & Hq) Hle. cbv zeta. unfold results_of. simpl.
  assert (Tally.correct_predictions tally <= Tally.completed_games tally)%nat
    as Hcc.
  { rewrite Hc, Hk. apply filter_length_le. }
  split; [exact Hle|]. split; [exact Hcc|].
  split; [now symmetry|]. split; [now symmetry|]. split.
  - destruct (0 <? Tally.completed_games tally)%nat eqn:P; [|lra].
    apply Nat.ltb_lt in P. unfold Num.div. rewrite Qred_correct. split.
    + apply Qle_shift_div_l; [now apply of_nat_pos|].
      rewrite Qmult_0_l. apply (of_nat_le 0). lia.
    + apply Qle_shift_div_r; [now apply of_nat_pos|].
      rewrite Qmult_1_l. now apply of_nat_le.
  - intros P. apply Nat.ltb_lt in P as P'. rewrite P'.
    unfold Num.div. rewrite Qred_correct. split.
    + apply Qle_shift_div_l; [now apply of_nat_pos | lra].
    + apply Qle_shift_div_r; [now apply of_nat_pos | lra].
Qed.

Lemma counted_empty : counted empty_tally.
Proof.
  split; [reflexivity|]. split; [reflexivity|].
  cbn [empty_tally Tally.completed_games Tally.total_confidence].
  change (Num.of_nat 0) with 0%Q. lra.
Qed.

Lemma backtest_loop_counted db self games t tally t' :
  backtest_loop db self games empty_tally t = (Ok tally, t') ->
  counted tally.
Proof.
  apply (backtest_loop_invariant db self counted); [|apply counted_empty].
  intros game p a b u v _. apply counted_step.
Qed.

(** X10.  The results of a backtest are consistent: the corpus is not
    empty, no more games are predicted than the corpus holds, no more
    predictions are correct than were made, the list of predictions has one
    entry per predicted game of which [correct_predictions] are marked
    correct, the accuracy lies between 0 and 1 and, when a game was
    predicted, the average confidence lies between 50 and 85. *)
Theorem backtest_results_consistent db self start_date end_date t r :
  fst (run_backtest db self start_date end_date t) = Ok (Results r) ->
  (0 < BacktestResults.total_games r)%nat /\
  (BacktestResults.completed_games r <= BacktestResults.total_games r)%nat /\
  (BacktestResults.correct_predictions r
   <= BacktestResults.completed_games r)%nat /\
  List.length (BacktestResults.predictions r)
    = BacktestResults.completed_games r /\
  List.length (filter PredictionEntry.correct (BacktestResults.predictions r))
    = BacktestResults.correct_predictions r /\
  (0 <= BacktestResults.accuracy r <= 1)%Q /\
  ((0 < BacktestResults.completed_games r)%nat ->
   (50 <= BacktestResults.avg_confidence r <= 85)%Q).
Proof.
  intros H. apply run_backtest_inv in H.
  destruct H as (games & tally & t' & _ & Hne & Hloop & ->).
  split.
  - simpl. destruct games; [contradiction|simpl; lia].
  - apply counted_results.
    + eapply backtest_loop_counted, Hloop.
    + apply backtest_loop_bound in Hloop. simpl in Hloop. exact Hloop.
Qed.

(* ===================================================================== *)
(** ** The backtester: the bucket table *)
(* ===================================================================== *)

Lemma confidence_bucket_cases confidence :
  In (_get_confidence_bucket confidence) bucket_labels.
Proof.
  unfold _get_confidence_bucket, bucket_labels.
  destruct (Num.geb confidence 80); [simpl; tauto|].
  destruct (Num.geb confidence 70); [simpl; tauto|].
  destruct (Num.geb confidence 60); simpl; tauto.
Qed.

Lemma bucketed_step game p tally tally' :
  record_prediction game p tally = Ok tally' ->
  Tally.confidence_buckets tally = bucket_table (Tally.predictions tally) ->
  Tally.confidence_buckets tally' = bucket_table (Tally.predictions tally').
Proof.
  intros Hr Hb. apply record_prediction_entry in Hr.
  destruct Hr as (winner & counts & _ & Hg & ->). cbv zeta.
  cbn [Tally.confidence_buckets Tally.predictions].
  rewrite Hb in *. clear Hb.
  match goal with
  | |- context [Tally.predictions tally ++ [?e]] => set (entry := e)
  end.
  set (ok := py_eq winner (GamePrediction.predicted_winner p)) in *.
  assert (forall label,
             in_bucket label entry =
             String.eqb (_get_confidence_bucket (GamePrediction.confidence p))
                        label) as Hin by reflexivity.
  assert (PredictionEntry.correct entry = ok) as Hok by reflexivity.
  pose proof (confidence_bucket_cases (GamePrediction.confidence p)) as Hb.
  unfold bucket_table, bucket_labels in *. cbn [map] in *.
  rewrite !filter_app, !length_app. cbn [filter]. rewrite !Hin, Hok.
  clearbody entry ok. clear Hin Hok.
  destruct Hb as [E|[E|[E|[E|[]]]]]; rewrite <- E in *;
    unfold getitem in Hg; cbn in Hg; injection Hg as <-;
    destruct ok; cbn; rewrite ?Nat.add_0_r, ?Nat.add_1_r; reflexivity.
Qed.

Lemma backtest_loop_bucketed db self games t tally t' :
  backtest_loop db self games empty_tally t = (Ok tally, t') ->
  Tally.confidence_buckets tally = bucket_table (Tally.predictions tally).
Proof.
  apply (backtest_loop_invariant db self
           (fun tally => Tally.confidence_buckets tally
                         = bucket_table (Tally.predictions tally)));
    [|reflexivity].
  intros game p a b u v _ _. apply bucketed_step.
Qed.

(** X11.  The table [performance_by_confidence] of a backtest is an exact
    count: it has the four buckets in their fixed order, and for each the
    number of replayed predictions whose confidence falls into it and the
    number of those that were correct. *)
Theorem backtest_buckets_exact db self start_date end_date t r :
  fst (run_backtest db self start_date end_date t) = Ok (Results r) ->
  BacktestResults.performance_by_confidence r
    = bucket_table (BacktestResults.predictions r).
Proof.
  intros H. apply run_backtest_inv in H.
  destruct H as (games & tally & t' & _ & _ & Hloop & ->).
  simpl. eapply backtest_loop_bucketed, Hloop.
Qed.

(* ===================================================================== *)
(** ** The backtester: the factor table *)
(* ===================================================================== *)

Lemma keys_store_present {A} k (v : A) d :
  In k (keys d) -> keys (store k v d) = keys d.
Proof.
  induction d as [|[k' v'] d IH]; simpl; [contradiction|].
  destruct (String.eqb_spec k k') as [->|N]; [reflexivity|].
  intros [E|H]; [congruence|]. simpl. f_equal. now apply IH.
Qed.

Lemma keys_store_absent {A} k (v : A) d :
  ~ In k (keys d) -> keys (store k v d) = keys d ++ [k].
Proof.
  induction d as [|[k' v'] d IH]; simpl; [reflexivity|].
  intros H. destruct (String.eqb_spec k k') as [->|N]; [tauto|].
  simpl. f_equal. apply IH. tauto.
Qed.

Lemma lookup_keys {A} k (d : dict A) :
  In k (keys d) -> exists v, lookup k d = Some v.
Proof.
  induction d as [|[k' v'] d IH]; simpl; [contradiction|].
  destruct (String.eqb_spec k k') as [->|N]; [eauto|].
  intros [E|H]; [congruence|auto].
Qed.

Lemma lookup_In {A} k (v : A) d :
  NoDup (keys d) -> In (k, v) d -> lookup k d = Some v.
Proof.
  induction d as [|[k' v'] d IH]; simpl; [contradiction|].
  intros Hnd [E|H].
  - injection E as -> ->. now rewrite String.eqb_refl.
  - inversion Hnd as [|? ? Hk Hd]. subst.
    destruct (String.eqb_spec k k') as [->|N]; [|now apply IH].
    exfalso. apply Hk. change (In (fst (k', v)) (map fst d)).
    now apply in_map.
Qed.

Lemma factor_names_distinct : NoDup factor_names.
Proof.
  unfold factor_names.
  repeat (apply NoDup_cons;
          [simpl; intros H;
           repeat (destruct H as [H|H]; [discriminate H|]); exact H|]).
  apply NoDup_nil.
Qed.

(** The keys of the table after the factors of one prediction are
    counted: nothing new when all are there already ... *)
Lemma count_factors_keys_present ok factors :
  forall table,
    (forall f, In f factors -> In (FactorEntry.name f) (keys table)) ->
    keys (fold_left (count_factor ok) factors table) = keys table.
Proof.
  induction factors as [|f fs IH]; intros table H; [reflexivity|].
  cbn [fold_left].
  assert (keys (count_factor ok table f) = keys table) as E.
  { unfold count_factor. apply keys_store_present. apply H. now left. }
  rewrite IH, E; [reflexivity|].
  intros g Hg. rewrite E. apply H. now right.
Qed.

(** ... and the new names in their order when none is. *)
Lemma count_factors_keys_absent ok factors :
  forall table,
    NoDup (keys table ++ map FactorEntry.name factors) ->
    keys (fold_left (count_factor ok) factors table) =
    keys table ++ map FactorEntry.name factors.
Proof.
  induction factors as [|f fs IH]; intros table H.
  - simpl. now rewrite app_nil_r.
  - cbn [fold_left map] in *.
    assert (keys (count_factor ok table f) = keys table ++ [FactorEntry.name f])
      as E.
    { unfold count_factor. apply keys_store_absent.
      apply NoDup_remove_2 in H. intros Hin. apply H.
      apply in_or_app. now left. }
    rewrite IH, E, <- app_assoc; [reflexivity|].
    rewrite E, <- app_assoc. exact H.
Qed.

(** What counting the factors of one prediction does to an entry. *)
Lemma count_factors_lookup ok factors :
  NoDup (map FactorEntry.name factors) ->
  forall table name stats,
    lookup name (fold_left (count_factor ok) factors table) = Some stats ->
    (In name (map FactorEntry.name factors) /\
     let before :=
       get table name
         {| FactorStats.total_predictions := 0;
            FactorStats.correct_predictions := 0;
            FactorStats.avg_impact := 0;
            FactorStats.accuracy := 0 |} in
     FactorStats.total_predictions stats
       = S (FactorStats.total_predictions before) /\
     FactorStats.correct_predictions stats
       = (if ok then S (FactorStats.correct_predictions before)
          else FactorStats.correct_predictions before) /\
     FactorStats.accuracy stats = FactorStats.accuracy before)
    \/
    (~ In name (map FactorEntry.name factors) /\
     lookup name table = Some stats).
Proof.
  induction factors as [|f fs IH]; intros Hnd table name stats H.
  - right. split; [tauto|exact H].
  - cbn [fold_left map] in *. inversion Hnd as [|? ? Hf Hfs]. subst.
    destruct (IH Hfs _ _ _ H) as [(Hin & Ht & Hc & Ha)|(Hout & Hl)].
    + left. split; [now right|].
      assert (name <> FactorEntry.name f) as N by (intros ->; contradiction).
      cbv zeta in *. unfold count_factor, get in Ht, Hc, Ha.
      rewrite (lookup_store_other _ _ _ _ N) in Ht, Hc, Ha.
      now repeat split.
    + destruct (String.eqb_spec name (FactorEntry.name f)) as [->|N].
      * left. split; [now left|].
        unfold count_factor in Hl. rewrite lookup_store_same in Hl.
        injection Hl as <-. cbv zeta. now repeat split.
      * right. split.
        -- intros [E|Hin]; [congruence|contradiction].
        -- unfold count_factor in Hl.
           now rewrite (lookup_store_other _ _ _ _ N) in Hl.
Qed.

(** Counting the seven factors of one prediction into the table. *)
Lemma count_factors_uniform (ok : bool) factors table n c :
  map FactorEntry.name factors = factor_names ->
  (table = [] /\ n = 0%nat /\ c = 0%nat) \/ uniform n c table ->
  uniform (S n) (if ok then S c else c)
          (fold_left (count_factor ok) factors table).
Proof.
  intros Hn Ht.
  assert (NoDup (map FactorEntry.name factors)) as Hnd
    by (rewrite Hn; apply factor_names_distinct).
  split.
  - destruct Ht as [(-> & _)|[Hk _]].
    + rewrite count_factors_keys_absent; [exact Hn|exact Hnd].
    + rewrite count_factors_keys_present; [exact Hk|].
      intros f Hf. rewrite Hk, <- Hn. now apply in_map.
  - intros name stats Hl.
    destruct (count_factors_lookup ok factors Hnd _ _ _ Hl)
      as [(Hin & Ht' & Hc & Ha)|(Hout & Hl')].
    + cbv zeta in *. unfold get in *.
      destruct Ht as [(-> & -> & ->)|[Hk Hu]].
      * cbn [lookup] in *. rewrite Ht', Hc, Ha. now repeat split.
      * rewrite Hn, <- Hk in Hin. apply lookup_keys in Hin.
        destruct Hin as [before Hb]. rewrite Hb in Ht', Hc, Ha.
        destruct (Hu _ _ Hb) as (Hn1 & Hn2 & Hn3).
        rewrite Ht', Hc, Ha, Hn1, Hn2, Hn3. now repeat split.
    + exfalso. apply Hout.
      destruct Ht as [(-> & _)|[Hk _]]; [discriminate Hl'|].
      rewrite Hn, <- Hk. eapply keys_lookup, Hl'.
Qed.

Lemma count_predictions_uniform predictions :
  Forall named predictions ->
  forall table n c,
    uniform n c table ->
    uniform (n + List.length predictions)
            (c + List.length (filter PredictionEntry.correct predictions))
            (fold_left
               (fun acc pred =>
                  fold_left (count_factor (PredictionEntry.correct pred))
                            (PredictionEntry.factors pred) acc)
               predictions table).
Proof.
  induction 1 as [|entry rest Hn _ IH]; intros table n c Hu.
  - simpl. now rewrite !Nat.add_0_r.
  - cbn [fold_left filter List.length].
    pose proof (count_factors_uniform (PredictionEntry.correct entry)
                  _ table n c Hn (or_intror Hu)) as H1.
    apply IH in H1.
    destruct (PredictionEntry.correct entry); cbn [List.length];
      rewrite ?Nat.add_succ_r; exact H1.
Qed.

Lemma analyze_factors_uniform predictions name stats :
  Forall named predictions ->
  predictions <> [] ->
  keys (_analyze_factors predictions) = factor_names /\
  (In (name, stats) (_analyze_factors predictions) ->
   FactorStats.total_predictions stats = List.length predictions /\
   FactorStats.correct_predictions stats
     = List.length (filter PredictionEntry.correct predictions) /\
   FactorStats.accuracy stats
     = Num.of_nat (List.length (filter PredictionEntry.correct predictions))
       /! Num.of_nat (List.length predictions)).
Proof.
  intros Hn Hne. destruct predictions as [|entry rest]; [contradiction|].
  inversion Hn as [|? ? He Hrest]. subst.
  unfold _analyze_factors. cbn [fold_left].
  pose proof (count_factors_uniform (PredictionEntry.correct entry)
                _ [] 0 0 He (or_introl (conj eq_refl (conj eq_refl eq_refl))))
    as H1.
  apply (count_predictions_uniform rest Hrest) in H1.
  match type of H1 with
  | uniform ?n ?c ?table =>
      set (T := table) in *;
      assert (n = List.length (entry :: rest)) as En by reflexivity;
      assert (c = List.length (filter PredictionEntry.correct (entry :: rest)))
        as Ec by (cbn [filter]; destruct (PredictionEntry.correct entry);
                  reflexivity);
      rewrite En, Ec in H1; clear En Ec
  end.
  destruct H1 as [Hk Hu]. split.
  - unfold keys in *. rewrite map_map. exact Hk.
  - intros Hin. apply in_map_iff in Hin.
    destruct Hin as ([k s] & E & Hin). injection E as -> <-.
    apply lookup_In in Hin; [|rewrite Hk; apply factor_names_distinct].
    destruct (Hu _ _ Hin) as (Ht & Hc & Ha).
    cbn [snd]. unfold average_stats. rewrite Ht. cbn [List.length Nat.ltb Nat.leb].
    cbn [FactorStats.total_predictions FactorStats.correct_predictions
         FactorStats.accuracy].
    rewrite Hc. now repeat split.
Qed.

Lemma named_step db self game p tally tally' t t' :
  _predict_historical_game db self game t = (Ok (Some p), t') ->
  record_prediction game p tally = Ok tally' ->
  Forall named (Tally.predictions tally) ->
  Forall named (Tally.predictions tally').
Proof.
  intros Hp Hr Hn. apply predict_historical_game_inv in Hp.
  destruct Hp as (game_data & u & Hp & _).
  apply predict_single_game_names in Hp.
  apply record_prediction_entry in Hr.
  destruct Hr as (winner & counts & _ & _ & ->). cbv zeta.
  cbn [Tally.predictions]. apply Forall_app. split; [exact Hn|].
  constructor; [|constructor].
  unfold named. cbn [PredictionEntry.factors].
  rewrite map_map. cbn [FactorEntry.name]. exact Hp.
Qed.

Lemma backtest_loop_named db self games t tally t' :
  backtest_loop db self games empty_tally t = (Ok tally, t') ->
  Forall named (Tally.predictions tally).
Proof.
  apply (backtest_loop_invariant db self
           (fun tally => Forall named (Tally.predictions tally)));
    [|constructor].
  intros game p a b u v _. apply named_step.
Qed.

(** X12.  The factor analysis of a backtest cannot tell the factors apart:
    when a game was predicted, the table has the seven factors in their
    order, and each of them is credited with every prediction, with every
    correct prediction and with the overall accuracy. *)
Theorem factor_analysis_uniform db self start_date end_date t r :
  fst (run_backtest db self start_date end_date t) = Ok (Results r) ->
  (0 < BacktestResults.completed_games r)%nat ->
  keys (BacktestResults.factor_analysis r) = factor_names /\
  forall name stats,
    In (name, stats) (BacktestResults.factor_analysis r) ->
    FactorStats.total_predictions stats = BacktestResults.completed_games r /\
    FactorStats.correct_predictions stats
      = BacktestResults.correct_predictions r /\
    FactorStats.accuracy stats = BacktestResults.accuracy r.
Proof.
  intros H Hpos. apply run_backtest_inv in H.
  destruct H as (games & tally & t' & _ & _ & Hloop & ->).
  pose proof (backtest_loop_counted _ _ _ _ _ _ Hloop) as (Hc & Hk & _).
  pose proof (backtest_loop_named _ _ _ _ _ _ Hloop) as Hn.
  unfold results_of in *.
  cbn [BacktestResults.completed_games BacktestResults.correct_predictions
       BacktestResults.accuracy BacktestResults.factor_analysis] in *.
  apply Nat.ltb_lt in Hpos as Hpos'. rewrite Hpos', Hc, Hk.
  assert (Tally.predictions tally <> []) as Hne.
  { intros E. rewrite Hc, E in Hpos. simpl in Hpos. lia. }
  split.
  - apply (analyze_factors_uniform _ "" {| FactorStats.total_predictions := 0;
                                           FactorStats.correct_predictions := 0;
                                           FactorStats.avg_impact := 0;
                                           FactorStats.accuracy := 0 |} Hn Hne).
  - intros name stats. apply (analyze_factors_uniform _ name stats Hn Hne).
Qed.

(* ===================================================================== *)
(** ** The backtester: replayed predictions *)
(* ===================================================================== *)

(** Without a season record the team-strength factor is the neutral one,
    or the error factor when the weight is missing. *)
Lemma team_strength_without_records self home_id home_name away_id away_name f :
  _calculate_team_strength_factor self
    (PDict [ ("id", home_id); ("name", home_name);
             ("record", PDict [("wins", PNum 0); ("losses", PNum 0);
                               ("ties", PNum 0)]) ])
    (PDict [ ("id", away_id); ("name", away_name);
             ("record", PDict [("wins", PNum 0); ("losses", PNum 0);
                               ("ties", PNum 0)]) ]) = Ok f ->
  PredictionFactor.name f = "Team Strength" /\
  PredictionFactor.value f = 0 /\
  (PredictionFactor.confidence f <= 1 # 10)%Q.
Proof.
  unfold _calculate_team_strength_factor. intros H.
  match type of H with
  | try_except ?body _ = _ =>
      change body with
        (w <- weight_of self "team_strength" ;;
         Ok (Factor "Team Strength" 0 w (Num.lit 0.1)
               [Lit "Insufficient season data"])) in H
  end.
  unfold try_except, bind in H.
  destruct (weight_of self "team_strength"); injection H as <-; simpl;
    repeat split; unfold Num.lit; simpl; lra.
Qed.

(** X13.  A replayed prediction never uses the team-strength factor: the
    backtester hands the engine both teams with a record of 0-0-0, so the
    first factor of the prediction is "Team Strength" with value 0 and a
    confidence of at most 0.1, whatever the teams. *)
Theorem replay_ignores_team_strength db self game t p t' :
  _predict_historical_game db self game t = (Ok (Some p), t') ->
  exists f others,
    GamePrediction.factors p = f :: others /\
    PredictionFactor.name f = "Team Strength" /\
    PredictionFactor.value f = 0 /\
    (PredictionFactor.confidence f <= 1 # 10)%Q.
Proof.
  intros H. apply predict_historical_game_inv in H.
  destruct H as (game_data & u & H & Hh & Ha).
  apply predict_single_game_factors in H.
  destruct H as (home_team & away_team & home_id & away_id &
                 f1 & f2 & f3 & f4 & f5 & f6 & f7 &
                 Hh' & Ha' & _ & _ & H1 & _ & _ & _ & _ & _ & _ & ->).
  rewrite Hh in Hh'. rewrite Ha in Ha'.
  injection Hh' as <-. injection Ha' as <-.
  apply team_strength_without_records in H1.
  exists f1, [f2; f3; f4; f5; f6; f7]. split; [reflexivity|exact H1].
Qed.

(** A row with readable weather is predicted when the engine has its
    home-advantage weight. *)
Lemma predict_historical_game_predicts db self game t w :
  readable game = true ->
  weight_of (Backtester.prediction_engine self) "home_advantage" = Ok w ->
  exists p, _predict_historical_game db self game t = (Ok (Some p), S t).
Proof.
  intros Hr Hw. unfold _predict_historical_game, ctry_except, cbind, lift.
  assert (exists weather,
             (if has_text (Game.weather_data game)
              then json_loads (Game.weather_data game)
              else Ok (PDict [])) = Ok weather) as [weather ->].
  { unfold readable in Hr.
    destruct (Game.weather_data game); try discriminate Hr; simpl; eauto. }
  match goal with
  | |- context [_predict_single_game db ?e ?g t] =>
      destruct (predict_single_game_returns db e g t
                  (PStr "STATUS_SCHEDULED")
                  (PDict [ ("id", of_sql (Game.home_team_id game));
                           ("name", of_sql (Game.home_team_name game));
                           ("record", PDict [("wins", PNum 0);
                                             ("losses", PNum 0);
                                             ("ties", PNum 0)]) ])
                  (PDict [ ("id", of_sql (Game.away_team_id game));
                           ("name", of_sql (Game.away_team_name game));
                           ("record", PDict [("wins", PNum 0);
                                             ("losses", PNum 0);
                                             ("ties", PNum 0)]) ])
                  (of_sql (Game.home_team_id game))
                  (of_sql (Game.away_team_id game))
                  (of_sql (Game.home_team_name game))
                  (of_sql (Game.away_team_name game))
                  (of_sql (Game.espn_id game)) w)
        as [p Hp]; try reflexivity; try exact Hw
  end.
  rewrite Hp. eauto.
Qed.

Lemma actual_winner_cases game :
  _get_actual_winner game =
    if comparable game
    then _get_actual_winner game
    else Raised TypeError.
Proof.
  unfold comparable, _get_actual_winner, bind.
  destruct (Game.home_score game), (Game.away_score game); reflexivity.
Qed.

Lemma actual_winner_returns game :
  comparable game = true -> exists winner, _get_actual_winner game = Ok winner.
Proof.
  unfold comparable, _get_actual_winner, bind.
  destruct (Game.home_score game), (Game.away_score game);
    try discriminate; simpl; intros _;
    repeat match goal with
           | |- context [if ?b then _ else _] => destruct b
           end; eauto.
Qed.

Lemma record_prediction_returns game p tally :
  comparable game = true ->
  Tally.confidence_buckets tally = bucket_table (Tally.predictions tally) ->
  exists tally', record_prediction game p tally = Ok tally'.
Proof.
  intros Hc Hb. destruct (actual_winner_returns game Hc) as [winner Hw].
  unfold record_prediction, bind. rewrite Hw, Hb.
  pose proof (confidence_bucket_cases (GamePrediction.confidence p)) as Hl.
  unfold bucket_table, bucket_labels in *. cbn [map].
  destruct Hl as [E|[E|[E|[E|[]]]]]; rewrite <- E;
    unfold getitem; cbn; eauto.
Qed.

Lemma backtest_loop_returns db self games :
  Forall (fun game => comparable game = true) games ->
  forall tally t,
    Tally.confidence_buckets tally = bucket_table (Tally.predictions tally) ->
    Forall (fun game => exists b, _is_game_completed game = Ok b) games ->
    exists tally', fst (backtest_loop db self games tally t) = Ok tally'.
Proof.
  induction 1 as [|game rest Hc _ IH]; intros tally t Hb Hj.
  - simpl. eauto.
  - rewrite backtest_loop_cons.
    inversion Hj as [|? ? [b Hg] Hrest]. subst. rewrite Hg.
    destruct b; [|now apply IH].
    destruct (predict_historical_game_returns db self game t) as [o Ho].
    destruct (_predict_historical_game db self game t) as [r u] eqn:E.
    cbn [fst] in Ho. subst r. destruct o as [p|]; [|now apply IH].
    destruct (record_prediction_returns game p tally Hc Hb) as [tally1 R].
    rewrite R. apply IH; [|exact Hrest].
    eapply bucketed_step; eassumption.
Qed.

Lemma filter_completed_judged rows :
  Forall (fun game => exists b, _is_game_completed game = Ok b)
         (filter completed rows).
Proof.
  apply Forall_forall. intros game Hin. apply filter_In in Hin.
  destruct Hin as [_ Hc]. unfold completed in Hc.
  destruct (_is_game_completed game); [eauto|discriminate].
Qed.

Lemma Forall_filter {A} (P : A -> Prop) f l :
  Forall P l -> Forall P (filter f l).
Proof.
  intros H. apply Forall_forall. intros x Hin. apply filter_In in Hin.
  rewrite Forall_forall in H. now apply H.
Qed.

(** X14.  A backtest over a table whose 500 most recent rows all have
    comparable scores returns: with a results dictionary, or with the
    "no games" error dictionary - it does not raise. *)
Theorem backtest_returns_on_comparable_scores db self start_date end_date t :
  Forall (fun game => comparable game = true) (firstn 500 db) ->
  exists report, fst (run_backtest db self start_date end_date t) = Ok report.
Proof.
  intros Hc. unfold run_backtest, cbind, lift, ret.
  rewrite historical_games_cases.
  destruct (forallb _ (firstn 500 db)); [|simpl; eauto].
  destruct (filter completed (firstn 500 db)) as [|game rest] eqn:E;
    [simpl; eauto|].
  destruct (backtest_loop_returns db self (game :: rest)) with
    (tally := empty_tally) (t := t) as [tally Ht].
  - rewrite <- E. now apply Forall_filter.
  - reflexivity.
  - rewrite <- E. apply filter_completed_judged.
  - change {| Tally.completed_games := 0;
              Tally.correct_predictions := 0;
              Tally.total_confidence := 0;
              Tally.confidence_buckets := _;
              Tally.predictions := [] |} with empty_tally.
    destruct (backtest_loop db self (game :: rest) empty_tally t)
      as [[tally1|] u]; [simpl; eauto|discriminate Ht].
Qed.

Lemma backtest_loop_crashes db self games w :
  weight_of (Backtester.prediction_engine self) "home_advantage" = Ok w ->
  Forall (fun game => readable game = true /\
                      _is_game_completed game = Ok true) games ->
  Exists (fun game => comparable game = false) games ->
  forall tally t,
    Tally.confidence_buckets tally = bucket_table (Tally.predictions tally) ->
    fst (backtest_loop db self games tally t) = Raised TypeError.
Proof.
  intros Hw Hall. induction Hall as [|game rest [Hr Hg] _ IH];
    intros Hex tally t Hb; [inversion Hex|].
  rewrite backtest_loop_cons, Hg.
  destruct (predict_historical_game_predicts db self game t w Hr Hw)
    as [p ->].
  destruct (comparable game) eqn:C.
  - destruct (record_prediction_returns game p tally C Hb) as [tally1 R].
    rewrite R. apply IH.
    + inversion Hex; subst; [congruence|assumption].
    + eapply bucketed_step; eassumption.
  - unfold record_prediction, bind.
    rewrite actual_winner_cases, C. reflexivity.
Qed.

(** X15.  One completed game whose scores cannot be compared (a missing
    score, or a number against a text) crashes the backtest: with readable
    rows and an engine that has its home-advantage weight, [run_backtest]
    raises TypeError instead of returning a result. *)
Theorem backtest_crashes_on_incomparable_scores
    db self start_date end_date t w :
  weight_of (Backtester.prediction_engine self) "home_advantage" = Ok w ->
  forallb (fun game => readable game && judged game) (firstn 500 db) = true ->
  Exists (fun game => completed game = true /\ comparable game = false)
         (firstn 500 db) ->
  fst (run_backtest db self start_date end_date t) = Raised TypeError.
Proof.
  intros Hw Hall Hex. unfold run_backtest, cbind, lift, ret.
  rewrite historical_games_cases, Hall.
  assert (Forall (fun game => readable game = true /\
                              _is_game_completed game = Ok true)
                 (filter completed (firstn 500 db))) as HF.
  { apply Forall_forall. intros game Hin. apply filter_In in Hin.
    destruct Hin as [Hin Hc]. rewrite forallb_forall in Hall.
    apply Hall in Hin. apply andb_prop in Hin. split; [apply Hin|].
    unfold completed in Hc.
    destruct (_is_game_completed game) as [[|]|]; congruence. }
  assert (Exists (fun game => comparable game = false)
                 (filter completed (firstn 500 db))) as HE.
  { apply Exists_exists in Hex. destruct Hex as (game & Hin & Hc & Hn).
    apply Exists_exists. exists game. split; [|exact Hn].
    apply filter_In. now split. }
  destruct (filter completed (firstn 500 db)) as [|game rest];
    [inversion HE|].
  change {| Tally.completed_games := 0;
            Tally.correct_predictions := 0;
            Tally.total_confidence := 0;
            Tally.confidence_buckets := _;
            Tally.predictions := [] |} with empty_tally.
  pose proof (backtest_loop_crashes db self (game :: rest) w Hw HF HE
                empty_tally t eq_refl) as H.
  destruct (backtest_loop db self (game :: rest) empty_tally t)
    as [[tally|] u]; [discriminate H|].
  cbn [fst] in *. injection H as ->. reflexivity.
Qed.

(* ===================================================================== *)
(** ** The backtester: worked examples *)
(* ===================================================================== *)

Lemma backtest_results_consistent_witness :
  exists r,
    fst (run_backtest long_season new_backtester None None 0%nat)
      = Ok (Results r) /\
    (0 < BacktestResults.total_games r)%nat /\
    (BacktestResults.completed_games r <= BacktestResults.total_games r)%nat /\
    (BacktestResults.correct_predictions r
     <= BacktestResults.completed_games r)%nat /\
    List.length (BacktestResults.predictions r)
      = BacktestResults.completed_games r /\
    List.length (filter PredictionEntry.correct (BacktestResults.predictions r))
      = BacktestResults.correct_predictions r /\
    (0 <= BacktestResults.accuracy r <= 1)%Q /\
    ((0 < BacktestResults.completed_games r)%nat ->
     (50 <= BacktestResults.avg_confidence r <= 85)%Q).
Proof.
  eexists. split.
  - vm_compute. reflexivity.
  - apply (backtest_results_consistent long_season new_backtester None None
             0%nat).
    vm_compute. reflexivity.
Defined.

Lemma backtest_buckets_exact_witness :
  exists r,
    fst (run_backtest long_season new_backtester None None 0%nat)
      = Ok (Results r) /\
    BacktestResults.performance_by_confidence r
      = bucket_table (BacktestResults.predictions r).
Proof.
  eexists. split.
  - vm_compute. reflexivity.
  - apply (backtest_buckets_exact long_season new_backtester None None 0%nat).
    vm_compute. reflexivity.
Defined.

Lemma factor_analysis_uniform_witness :
  exists r,
    fst (run_backtest long_season new_backtester None None 0%nat)
      = Ok (Results r) /\
    keys (BacktestResults.factor_analysis r) = factor_names /\
    forall name stats,
      In (name, stats) (BacktestResults.factor_analysis r) ->
      FactorStats.total_predictions stats = BacktestResults.completed_games r /\
      FactorStats.correct_predictions stats
        = BacktestResults.correct_predictions r /\
      FactorStats.accuracy stats = BacktestResults.accuracy r.
Proof.
  eexists. split.
  - vm_compute. reflexivity.
  - apply (factor_analysis_uniform long_season new_backtester None None 0%nat).
    + vm_compute. reflexivity.
    + vm_compute. lia.
Defined.

Lemma replay_ignores_team_strength_witness :
  exists p,
    _predict_historical_game long_season new_backtester stormy_loss 0%nat
      = (Ok (Some p), 1%nat) /\
    exists f others,
      GamePrediction.factors p = f :: others /\
      PredictionFactor.name f = "Team Strength" /\
      PredictionFactor.value f = 0 /\
      (PredictionFactor.confidence f <= 1 # 10)%Q.
Proof.
  eexists. split.
  - vm_compute. reflexivity.
  - apply (replay_ignores_team_strength long_season new_backtester
             stormy_loss 0%nat _ 1%nat).
    vm_compute. reflexivity.
Defined.

Lemma backtest_returns_on_comparable_scores_witness :
  exists report,
    fst (run_backtest [stormy_loss] new_backtester None None 0%nat) = Ok report.
Proof.
  apply backtest_returns_on_comparable_scores.
  repeat constructor.
Defined.

Lemma backtest_crashes_on_incomparable_scores_witness :
  fst (run_backtest [stormy_loss; unscored_final] new_backtester None None
         0%nat) = Raised TypeError.
Proof.
  apply (backtest_crashes_on_incomparable_scores _ _ _ _ _ (Num.lit 0.15)).
  - reflexivity.
  - reflexivity.
  - apply Exists_cons_tl, Exists_cons_hd. split; reflexivity.
Defined.

(* ===================================================================== *)
(** ** The betting simulation: what the totals depend on *)
(* ===================================================================== *)

Lemma to_float_error a e : to_float a = Raised e -> e = OverflowError.
Proof.
  destruct a as [z|f]; cbn [to_float]; [|discriminate].
  destruct (Float.is_infinite _); congruence.
Qed.

Lemma num_add_error a b e : num_add a b = Raised e -> e = OverflowError.
Proof.
  destruct a, b; cbn [num_add]; unfold bind; try discriminate; intros H;
    repeat match type of H with
           | context [to_float ?x] =>
               let E := fresh "E" in
               destruct (to_float x) eqn:E;
               [|apply to_float_error in E; congruence]
           end; discriminate H.
Qed.

Lemma num_mul_error a b e : num_mul a b = Raised e -> e = OverflowError.
Proof.
  destruct a, b; cbn [num_mul]; unfold bind; try discriminate; intros H;
    repeat match type of H with
           | context [to_float ?x] =>
               let E := fresh "E" in
               destruct (to_float x) eqn:E;
               [|apply to_float_error in E; congruence]
           end; discriminate H.
Qed.

Lemma wager_error bet_amount n :
  forall total e, wager bet_amount n total = Raised e -> e = OverflowError.
Proof.
  induction n as [|n IH]; intros total e H; [discriminate H|].
  cbn [wager] in H. unfold bind in H.
  destruct (num_add total bet_amount) eqn:E.
  - eapply IH, H.
  - apply num_add_error in E. congruence.
Qed.

Lemma credit_error bet_amount n :
  forall total e, credit bet_amount n total = Raised e -> e = OverflowError.
Proof.
  induction n as [|n IH]; intros total e H; [discriminate H|].
  cbn [credit] in H. unfold bind in H.
  destruct (num_mul bet_amount _) as [payout|] eqn:E1.
  - destruct (num_add total payout) eqn:E2.
    + eapply IH, H.
    + apply num_add_error in E2. congruence.
  - apply num_mul_error in E1. congruence.
Qed.

(** The loop in closed form: the wagered total goes through one addition
    per bet, the winnings through one per winning bet, and whichever of
    them fails, fails the loop. *)
Lemma betting_loop_counts bet_amount predictions :
  forall total_bets total_winnings total_wagered,
    betting_loop bet_amount predictions
      (total_bets, total_winnings, total_wagered) =
    match wager bet_amount (List.length (filter staked predictions))
                total_wagered,
          credit bet_amount
                 (List.length
                    (filter (fun entry =>
                               staked entry && PredictionEntry.correct entry)
                            predictions))
                 total_winnings with
    | Ok wagered, Ok winnings =>
        Ok ((total_bets + List.length (filter staked predictions))%nat,
            winnings, wagered)
    | _, _ => Raised OverflowError
    end.
Proof.
  induction predictions as [|p l IH]; intros k w g.
  - cbn. now rewrite Nat.add_0_r.
  - cbn [betting_loop filter]. unfold place_bet.
    assert (staked p = negb (Num.ltb (PredictionEntry.confidence p) 60))
      as -> by reflexivity.
    destruct (Num.ltb (PredictionEntry.confidence p) 60); cbn [negb andb bind];
      [apply IH|].
    destruct (PredictionEntry.correct p); cbn [List.length wager credit];
      unfold bind.
    + destruct (num_add g bet_amount) as [g1|e1] eqn:E1;
        [|apply num_add_error in E1; subst; reflexivity].
      destruct (num_mul bet_amount _) as [payout|e2] eqn:E2.
      * destruct (num_add w payout) as [w1|e3] eqn:E3.
        -- rewrite IH, Nat.add_succ_r. reflexivity.
        -- apply num_add_error in E3. subst.
           destruct (wager bet_amount _ g1); reflexivity.
      * apply num_mul_error in E2. subst.
        destruct (wager bet_amount _ g1); reflexivity.
    + destruct (num_add g bet_amount) as [g1|e1] eqn:E1;
        [|apply num_add_error in E1; subst; reflexivity].
      rewrite IH, Nat.add_succ_r. reflexivity.
Qed.

(** An int stake is wagered exactly. *)
Lemma wager_int z n :
  forall total,
    wager (NInt z) n (NInt total) = Ok (NInt (total + Z.of_nat n * z)).
Proof.
  induction n as [|n IH]; intros total.
  - cbn [wager]. do 2 f_equal. lia.
  - cbn [wager num_add bind]. rewrite IH. do 2 f_equal. lia.
Qed.

(** X16.  The betting simulation looks at nothing but two counts: two
    backtest results with the same number of predictions of confidence 60
    or more, and the same number of correct ones among them, get the same
    answer at the same stake - the same totals, profit and return, or the
    same exception - whatever the games and whatever their order.  When
    the simulation returns, total_bets is the first of these counts, and at
    an int stake total_wagered is the int total_bets * stake. *)
Theorem betting_depends_on_counts results1 results2 bet_amount :
  List.length (filter staked (predictions_of results1))
    = List.length (filter staked (predictions_of results2)) ->
  List.length
    (filter (fun entry => staked entry && PredictionEntry.correct entry)
            (predictions_of results1))
    = List.length
        (filter (fun entry => staked entry && PredictionEntry.correct entry)
                (predictions_of results2)) ->
  simulate_betting_performance results1 bet_amount =
  simulate_betting_performance results2 bet_amount /\
  forall outcome,
    simulate_betting_performance results1 bet_amount = Ok outcome ->
    Betting.total_bets outcome
      = List.length (filter staked (predictions_of results1)) /\
    forall stake,
      bet_amount = NInt stake ->
      Betting.total_wagered outcome
        = NInt (Z.of_nat (Betting.total_bets outcome) * stake).
Proof.
  intros Hn Hm. unfold simulate_betting_performance.
  split; [now rewrite !betting_loop_counts, Hn, Hm|].
  rewrite betting_loop_counts. intros outcome H.
  destruct (wager bet_amount _ (NInt 0)) as [wagered|] eqn:W;
    [|discriminate H].
  destruct (credit bet_amount _ (NInt 0)) as [winnings|]; [|discriminate H].
  cbn [bind Nat.add] in H.
  destruct (num_sub winnings wagered) as [profit|]; [|discriminate H].
  cbn [bind] in H.
  destruct (if num_positive wagered then _ else _) as [roi|];
    [|discriminate H].
  injection H as <-.
  cbn [Betting.total_bets Betting.total_wagered].
  split; [reflexivity|].
  intros stake ->. rewrite wager_int in W. injection W as <-. reflexivity.
Qed.

Lemma betting_depends_on_counts_witness :
  let results1 :=
    report_of [settled_bet 72 true; settled_bet 55 true;
               settled_bet 81 false; settled_bet 64 true] in
  let results2 :=
    report_of [settled_bet 90 false; settled_bet 60 true;
               settled_bet 61 true] in
  simulate_betting_performance results1 (NInt 100) =
  simulate_betting_performance results2 (NInt 100) /\
  forall outcome,
    simulate_betting_performance results1 (NInt 100) = Ok outcome ->
    Betting.total_bets outcome
      = List.length (filter staked (predictions_of results1)) /\
    forall stake,
      NInt 100 = NInt stake ->
      Betting.total_wagered outcome
        = NInt (Z.of_nat (Betting.total_bets outcome) * stake).
Proof.
  cbv zeta. apply betting_depends_on_counts; reflexivity.
Defined.

(* ===================================================================== *)
(** ** The optimizer: one score for every candidate *)
(* ===================================================================== *)

Lemma test_loop_clock db self games :
  forall correct total t1 t2,
    fst (test_loop db self games correct total t1) =
    fst (test_loop db self games correct total t2).
Proof.
  induction games as [|game rest IH]; intros correct total t1 t2;
    [reflexivity|].
  rewrite !test_loop_cons.
  destruct (_is_game_completed game) as [[|]|]; try reflexivity; [|apply IH].
  pose proof (replay_cases db (AlgorithmOptimizer.backtester self) game t1 t2)
    as H.
  destruct (_predict_historical_game _ _ game t1) as [[[p1|]|] u1];
    destruct (_predict_historical_game _ _ game t2) as [[[p2|]|] u2];
    cbn [fst] in H; try contradiction; [|apply IH].
  destruct (_get_actual_winner game) as [winner|]; [|reflexivity].
  assert (GamePrediction.predicted_winner p1 =
          GamePrediction.predicted_winner p2) as ->.
  { change (GamePrediction.predicted_winner (unstamp p1) =
            GamePrediction.predicted_winner (unstamp p2)). now rewrite H. }
  apply IH.
Qed.

(** The sampled backtest gives one result, whatever the engine it is
    handed and whenever it runs. *)
Lemma run_test_backtest_constant db self :
  exists test_results,
    forall engine t,
      fst (_run_test_backtest db self engine t) = Ok test_results.
Proof.
  destruct (run_test_backtest_returns db self new_engine 0%nat) as [r Hr].
  exists r. intros engine t. rewrite <- Hr.
  unfold _run_test_backtest, ctry_except, cbind, lift, ret.
  destruct (_get_historical_games db None None) as [games|]; [|reflexivity].
  destruct (firstn 50 games) as [|game rest]; [reflexivity|].
  pose proof (test_loop_clock db self (game :: rest) 0%nat 0%nat t 0%nat) as H.
  destruct (test_loop db self (game :: rest) 0 0 t) as [[c1|] u1];
    destruct (test_loop db self (game :: rest) 0 0 0%nat) as [[c2|] u2];
    cbn [fst] in *; try discriminate H; try reflexivity.
  now injection H as ->.
Qed.

Section BlindSearch.

Variable run_candidate : dict Q -> clocked TestBacktest.t.
Variable test_results : TestBacktest.t.
Hypothesis constant :
  forall weights t, fst (run_candidate weights t) = Ok test_results.

(** Once the shared score has been seen, no later candidate improves on
    it. *)
Lemma search_loop_stalls candidates :
  forall search t,
    (Num.gtb (TestBacktest.accuracy test_results)
             (Search.best_accuracy search) = false) ->
    exists search' t',
      search_loop run_candidate candidates search t = (Ok search', t') /\
      Search.best_accuracy search' = Search.best_accuracy search /\
      Search.best_weights search' = Search.best_weights search /\
      Search.best_results search' = Search.best_results search /\
      Search.results_log search' =
        Search.results_log search ++
        map (fun weights =>
               {| TestLog.weights := weights;
                  TestLog.accuracy := TestBacktest.accuracy test_results;
                  TestLog.total_games :=
                    TestBacktest.completed_games test_results |})
            candidates.
Proof.
  induction candidates as [|weights rest IH]; intros search t G.
  - exists search, t. simpl. rewrite app_nil_r. now repeat split.
  - cbn [search_loop]. unfold cbind.
    pose proof (constant weights t) as E.
    destruct (run_candidate weights t) as [r t1]. cbn [fst] in E. subst r.
    destruct (IH (consider weights test_results search) t1)
      as (search' & t' & -> & Ha & Hw & Hr & Hl).
    { unfold consider. cbn [Search.best_accuracy]. now rewrite G. }
    exists search', t'. unfold consider in Ha, Hw, Hr, Hl.
    cbn [Search.best_accuracy Search.best_weights Search.best_results
         Search.results_log] in Ha, Hw, Hr, Hl.
    rewrite G in Ha, Hw, Hr.
    repeat split; try assumption.
    rewrite Hl, <- app_assoc. reflexivity.
Qed.

Lemma gtb_irrefl x : Num.gtb x x = false.
Proof. unfold Num.gtb. apply ltb_false. lra. Qed.

Lemma search_weights_blind first others t :
  exists outcome t',
    search_weights run_candidate (first :: others) t = (Ok outcome, t') /\
    Forall (fun entry =>
              TestLog.accuracy entry = TestBacktest.accuracy test_results)
           (Optimization.all_tests outcome) /\
    map TestLog.weights (Optimization.all_tests outcome) = first :: others /\
    if Num.gtb (TestBacktest.accuracy test_results) 0
    then Optimization.best_weights outcome = Some first /\
         Optimization.best_accuracy outcome
           = TestBacktest.accuracy test_results /\
         Optimization.best_results outcome = Some test_results
    else Optimization.best_weights outcome = None /\
         Optimization.best_accuracy outcome = 0 /\
         Optimization.best_results outcome = None.
Proof.
  unfold search_weights. cbn [search_loop]. unfold cbind at 1 2.
  pose proof (constant first t) as E.
  destruct (run_candidate first t) as [r t1]. cbn [fst] in E. subst r.
  destruct (search_loop_stalls others (consider first test_results search_start)
              t1) as (search' & t' & -> & Ha & Hw & Hr & Hl).
  { unfold consider, search_start. cbn [Search.best_accuracy].
    destruct (Num.gtb (TestBacktest.accuracy test_results) 0) eqn:G;
      [apply gtb_irrefl|exact G]. }
  unfold cbind, now, ret. eexists _, _. split; [reflexivity|].
  cbn [Optimization.all_tests Optimization.best_weights
       Optimization.best_accuracy Optimization.best_results].
  rewrite Ha, Hw, Hr, Hl. unfold consider, search_start.
  cbn [Search.best_accuracy Search.best_weights Search.best_results
       Search.results_log app].
  split; [|split].
  - constructor; [reflexivity|]. apply Forall_forall. intros e He.
    apply in_map_iff in He. destruct He as (w & <- & _). reflexivity.
  - cbn [map]. f_equal. rewrite map_map. cbn [TestLog.weights].
    apply map_id.
  - destruct (Num.gtb (TestBacktest.accuracy test_results) 0);
      now repeat split.
Qed.

End BlindSearch.

(** X18.  The weight search cannot tell its candidates apart: it always
    returns, every entry of its log carries one and the same accuracy
    (that of the backtester's own engine on the sample), and the best
    configuration it reports is the first candidate of the list, or none
    when that accuracy is 0. *)
Theorem weight_search_is_blind db self t :
  exists outcome accuracy,
    fst (optimize_factor_weights db self t) = Ok outcome /\
    Forall (fun entry => TestLog.accuracy entry = accuracy)
           (Optimization.all_tests outcome) /\
    map TestLog.weights (Optimization.all_tests outcome)
      = _generate_weight_combinations weight_options /\
    (Optimization.best_weights outcome = None \/
     Optimization.best_weights outcome
       = Some (nth 0 (_generate_weight_combinations weight_options) [])).
Proof.
  destruct (run_test_backtest_constant db self) as [r Hr].
  unfold optimize_factor_weights.
  destruct (search_weights_blind
              (fun weights => _run_test_backtest db self
                                (_create_test_engine weights))
              r (fun weights u => Hr (_create_test_engine weights) u)
              (nth 0 (_generate_weight_combinations weight_options) [])
              (tl (_generate_weight_combinations weight_options)) t)
    as (outcome & t' & E & Hall & Hlog & Hbest).
  exists outcome, (TestBacktest.accuracy r).
  change (firstn 10 (_generate_weight_combinations weight_options))
    with (nth 0 (_generate_weight_combinations weight_options) []
          :: tl (_generate_weight_combinations weight_options)).
  rewrite E. split; [reflexivity|]. split; [exact Hall|].
  split; [exact Hlog|].
  destruct (Num.gtb (TestBacktest.accuracy r) 0);
    [right|left]; apply Hbest.
Qed.

(* ===================================================================== *)
(** ** The optimizer: one importance for every factor *)
(* ===================================================================== *)

Lemma ablation_loop_constant db self test_results baseline_accuracy :
  (forall engine t,
      fst (_run_test_backtest db self engine t) = Ok test_results) ->
  forall names analysis t analysis' t',
    ablation_loop db self baseline_accuracy names analysis t
      = (Ok analysis', t') ->
    let entry :=
      {| Importance.baseline_accuracy := baseline_accuracy;
         Importance.without_factor_accuracy :=
           TestBacktest.accuracy test_results;
         Importance.accuracy_drop :=
           baseline_accuracy -! TestBacktest.accuracy test_results;
         Importance.importance_score :=
           (baseline_accuracy -! TestBacktest.accuracy test_results) *! 100 |} in
    forall name,
      (In name names -> lookup name analysis' = Some entry) /\
      (~ In name names -> lookup name analysis' = lookup name analysis).
Proof.
  intros Hr. induction names as [|n rest IH];
    intros analysis t analysis' t' H entry name.
  - injection H as <- <-. split; [contradiction|reflexivity].
  - cbn [ablation_loop] in H. unfold cbind, lift in H.
    destruct (ablated_weights self n) as [test_weights|]; [|discriminate].
    pose proof (Hr (_create_test_engine test_weights) t) as E.
    destruct (_run_test_backtest db self (_create_test_engine test_weights) t)
      as [r t1]. cbn [fst] in E. subst r.
    destruct (IH _ _ _ _ H name) as [Hin Hout]. fold entry in Hin, Hout.
    destruct (in_dec string_dec name rest) as [I|I].
    + split; [intros _; now apply Hin|].
      intros N. exfalso. apply N. now right.
    + split.
      * intros [->|J]; [|contradiction].
        rewrite (Hout I). apply lookup_store_same.
      * intros N. rewrite (Hout I). apply lookup_store_other.
        intros ->. apply N. now left.
Qed.

(** X19.  The importance analysis cannot rank the factors: when it
    returns an analysis, every factor of the configuration has an entry,
    and all entries carry one and the same score (the accuracy of the full
    backtest minus that of the sample, times 100), because the ablated
    weights never reach a prediction. *)
Theorem importance_scores_identical db self t
    baseline_accuracy factor_importance analysis_date t' :
  analyze_factor_importance db self t
    = (Ok (Analysis baseline_accuracy factor_importance analysis_date), t') ->
  exists score,
    (forall name entry,
        lookup name factor_importance = Some entry ->
        Importance.importance_score entry = score /\
        Importance.baseline_accuracy entry = baseline_accuracy) /\
    (forall name,
        In name (keys (AdvancedPredictionEngine.factor_weights
                         (AlgorithmOptimizer.base_engine self))) ->
        exists entry, lookup name factor_importance = Some entry).
Proof.
  intros H. destruct (run_test_backtest_constant db self) as [r Hr].
  unfold analyze_factor_importance in H. unfold cbind at 1 in H.
  destruct (run_backtest db (AlgorithmOptimizer.backtester self) None None t)
    as [[[msg n|baseline]|] t1] eqn:Hrun; try discriminate.
  destruct (_ =? 0)%nat; [discriminate|].
  unfold cbind, now, ret in H.
  destruct (ablation_loop _ _ _ _ _ t1) as [[analysis|] t2] eqn:Hloop;
    [|discriminate].
  injection H as <- <- _ _.
  pose proof (ablation_loop_constant db self r _ Hr _ _ _ _ _ Hloop) as HL.
  cbv zeta in HL.
  exists ((BacktestResults.accuracy baseline -! TestBacktest.accuracy r) *! 100).
  split.
  - intros name entry Hl.
    destruct (HL name) as [Hin Hout].
    destruct (in_dec string_dec name
                (keys (AdvancedPredictionEngine.factor_weights
                         (AlgorithmOptimizer.base_engine self)))) as [I|I].
    + rewrite (Hin I) in Hl. injection Hl as <-. now split.
    + rewrite (Hout I) in Hl. discriminate Hl.
  - intros name Hin. eexists. apply (HL name). exact Hin.
Qed.

Lemma importance_scores_identical_witness :
  exists baseline_accuracy factor_importance analysis_date t',
    analyze_factor_importance long_season new_optimizer 0%nat
      = (Ok (Analysis baseline_accuracy factor_importance analysis_date), t') /\
    exists score,
      (forall name entry,
          lookup name factor_importance = Some entry ->
          Importance.importance_score entry = score /\
          Importance.baseline_accuracy entry = baseline_accuracy) /\
      (forall name,
          In name (keys (AdvancedPredictionEngine.factor_weights
                           (AlgorithmOptimizer.base_engine new_optimizer))) ->
          exists entry, lookup name factor_importance = Some entry).
Proof.
  eexists _, _, _, _. split.
  - vm_compute. reflexivity.
  - eapply (importance_scores_identical long_season new_optimizer 0%nat).
    vm_compute. reflexivity.
Defined.

(* ===================================================================== *)
(** ** The optimizer: the ablated weights *)
(* ===================================================================== *)








(* ===================================================================== *)
(** ** The optimizer: recommendations *)
(* ===================================================================== *)

Lemma optimize_factor_weights_cases db self t :
  exists outcome t1 test_results,
    optimize_factor_weights db self t = (Ok outcome, t1) /\
    (forall engine u,
        fst (_run_test_backtest db self engine u) = Ok test_results) /\
    if Num.gtb (TestBacktest.accuracy test_results) 0
    then Optimization.best_weights outcome
           = Some (nth 0 (_generate_weight_combinations weight_options) []) /\
         Optimization.best_accuracy outcome
           = TestBacktest.accuracy test_results /\
         Optimization.best_results outcome = Some test_results
    else Optimization.best_weights outcome = None /\
         Optimization.best_accuracy outcome = 0 /\
         Optimization.best_results outcome = None.
Proof.
  destruct (run_test_backtest_constant db self) as [r Hr].
  unfold optimize_factor_weights.
  destruct (search_weights_blind
              (fun weights => _run_test_backtest db self
                                (_create_test_engine weights))
              r (fun weights u => Hr (_create_test_engine weights) u)
              (nth 0 (_generate_weight_combinations weight_options) [])
              (tl (_generate_weight_combinations weight_options)) t)
    as (outcome & t' & E & _ & _ & Hbest).
  exists outcome, t', r.
  change (firstn 10 (_generate_weight_combinations weight_options))
    with (nth 0 (_generate_weight_combinations weight_options) []
          :: tl (_generate_weight_combinations weight_options)).
  split; [exact E|]. split; [exact Hr|exact Hbest].
Qed.

Lemma analyze_factor_importance_without_history db self t :
  _get_historical_games db None None = Ok [] ->
  analyze_factor_importance db self t
    = (Ok (NoData "No historical data available for analysis"), t).
Proof.
  intros Hg. unfold analyze_factor_importance, run_backtest, cbind, lift, ret.
  rewrite Hg. reflexivity.
Qed.

(** X21.  Without usable history the recommendations cannot be produced:
    when [_get_historical_games] returns no game, the weight search finds
    no best configuration, its [best_results] is [None], and
    [recommend_improvements] raises AttributeError on reading the number of
    games analysed from it. *)
Theorem recommendations_need_history db self t :
  _get_historical_games db None None = Ok [] ->
  fst (recommend_improvements db self t) = Raised AttributeError.
Proof.
  intros Hg. unfold recommend_improvements.
  destruct (optimize_factor_weights_cases db self t)
    as (outcome & t1 & r & E & Hr & Hbest).
  assert (TestBacktest.accuracy r = 0) as Hacc.
  { specialize (Hr new_engine 0%nat).
    unfold _run_test_backtest, ctry_except, cbind, lift, ret in Hr.
    rewrite Hg in Hr. cbn in Hr. now injection Hr as <-. }
  rewrite Hacc in Hbest. change (Num.gtb 0 0) with false in Hbest.
  destruct Hbest as (_ & _ & Hres).
  unfold cbind at 1. rewrite E.
  unfold cbind at 1. rewrite (analyze_factor_importance_without_history _ _ _ Hg).
  unfold cbind, lift. rewrite Hres. reflexivity.
Qed.

Lemma recommendations_need_history_witness :
  fst (recommend_improvements [] new_optimizer 0%nat) = Raised AttributeError.
Proof.
  apply recommendations_need_history. reflexivity.
Defined.

(** X22.  When [recommend_improvements] returns, its list opens with the
    high-priority advice to optimise the weights, whose suggested weights
    are the first candidate of the search, and closes with the two fixed
    data recommendations; between them stands at most the advice to remove
    factors. *)
Theorem recommendations_shape db self t improvements t' :
  recommend_improvements db self t = (Ok improvements, t') ->
  exists description between,
    Improvements.recommendations improvements =
      WeightOptimization "high" description
        (Some (nth 0 (_generate_weight_combinations weight_options) []))
      :: between ++
      [ DataEnhancement "medium"
          [ Lit "Implement weather API integration for better outdoor game predictions" ]
          "weather_integration";
        DataEnhancement "low"
          [ Lit "Add injury report analysis for more accurate predictions" ]
          "injury_integration" ] /\
    (between = [] \/
     exists text factors, between = [FactorRemoval "medium" text factors]).
Proof.
  unfold recommend_improvements. intros H.
  destruct (optimize_factor_weights_cases db self t)
    as (outcome & t1 & r & E & _ & Hbest).
  unfold cbind at 1 in H. rewrite E in H.
  unfold cbind at 1 in H.
  destruct (analyze_factor_importance db self t1) as [[analysis|] t2];
    [|discriminate H].
  unfold cbind, lift, now, ret in H.
  destruct (Num.gtb (TestBacktest.accuracy r) 0) eqn:G.
  - destruct Hbest as (Hw & Ha & Hres). rewrite Hw, Ha, Hres in H.
    change (ModelPerformance.accuracy_percentage (get_model_performance _))
      with 0%Q in H.
    rewrite G in H. injection H as <- _.
    cbn [Improvements.recommendations].
    eexists.
    destruct analysis as [msg|b [|first others] d].
    + exists []. split; [reflexivity|now left].
    + exists []. split; [reflexivity|now left].
    + match goal with
      | |- context [map fst (filter ?f ?l)] =>
          destruct (map fst (filter f l)) as [|low lows]
      end.
      * exists []. split; [reflexivity|now left].
      * eexists [_]. split; [reflexivity|]. right. eauto.
  - destruct Hbest as (_ & _ & Hres). rewrite Hres in H. discriminate H.
Qed.

Lemma recommendations_shape_witness :
  exists improvements t',
    recommend_improvements [stormy_loss] new_optimizer 0%nat
      = (Ok improvements, t') /\
    exists description between,
      Improvements.recommendations improvements =
        WeightOptimization "high" description
          (Some (nth 0 (_generate_weight_combinations weight_options) []))
        :: between ++
        [ DataEnhancement "medium"
            [ Lit "Implement weather API integration for better outdoor game predictions" ]
            "weather_integration";
          DataEnhancement "low"
            [ Lit "Add injury report analysis for more accurate predictions" ]
            "injury_integration" ] /\
      (between = [] \/
       exists text factors, between = [FactorRemoval "medium" text factors]).
Proof.
  eexists _, _. split.
  - vm_compute. reflexivity.
  - eapply (recommendations_shape [stormy_loss] new_optimizer 0%nat).
    vm_compute. reflexivity.
Defined.

(* ===================================================================== *)
(** ** The weather collector: the impact on a game *)
(* ===================================================================== *)

Ltac settle_rating :=
  repeat split; first [reflexivity | discriminate].

Ltac impact_cases H :=
  repeat match type of H with
         | context [py_lt_num ?a ?b] =>
             destruct (py_lt_num a b) as [[|]|]; cbv beta iota in H;
             try discriminate H
         | context [py_gt_num ?a ?b] =>
             destruct (py_gt_num a b) as [[|]|]; cbv beta iota in H;
             try discriminate H
         | context [py_in ?a ?b] => destruct (py_in a b)
         end.

Lemma game_impact_rated temp wind_speed conditions impact :
  _calculate_game_impact temp wind_speed conditions = Ok impact ->
  rated impact.
Proof.
  unfold _calculate_game_impact, bind. intros H.
  impact_cases H; injection H as <-; unfold rated; vm_compute;
    (split; [settle_rating|]); (split; [settle_rating|]);
    (split; [settle_rating|]);
    first [ left; settle_rating
          | right; left; settle_rating
          | right; right; left; settle_rating
          | right; right; right; settle_rating ].
Qed.

(** X23.  [_calculate_game_impact] fails exactly when the temperature or
    the wind speed is no number, and then with TypeError.  Otherwise it
    returns adjustments that are never positive - the total between -10 and
    0, passing and kicking between -7 and 0 - and a rating that goes by the
    total: neutral at 0, mild down to -2, moderate down to -4, severe from
    -5 on. *)
Theorem game_impact_never_positive temp wind_speed conditions :
  (_calculate_game_impact temp wind_speed conditions = Raised TypeError <->
   as_num temp = None \/ as_num wind_speed = None) /\
  (raises (_calculate_game_impact temp wind_speed conditions) ->
   _calculate_game_impact temp wind_speed conditions = Raised TypeError) /\
  forall impact,
    _calculate_game_impact temp wind_speed conditions = Ok impact ->
    rated impact.
Proof.
  split; [|split; [|apply game_impact_rated]].
  - unfold _calculate_game_impact, bind, py_lt_num, py_gt_num.
    destruct (as_num temp) as [x|], (as_num wind_speed) as [y|];
      try (split; [auto|reflexivity]).
    + split; [|intros [H|H]; discriminate H].
      destruct (Num.ltb x 32), (Num.gtb x 90), (Num.gtb y 20), (Num.gtb y 15);
        discriminate.
    + split; [auto|intros _].
      destruct (Num.ltb x 32), (Num.gtb x 90); reflexivity.
  - intros [e H]. rewrite H. f_equal.
    unfold _calculate_game_impact, bind, py_lt_num, py_gt_num in H.
    destruct (as_num temp) as [x|], (as_num wind_speed) as [y|];
      try (destruct (Num.ltb x 32), (Num.gtb x 90));
      try (destruct (Num.gtb y 20), (Num.gtb y 15));
      cbv beta iota in H; congruence.
Qed.

(* ===================================================================== *)
(** ** Measured weather in the engine *)
(* ===================================================================== *)

(** X24.  Measured weather only ever counts against the home team: for a
    game whose weather dictionary has no status and carries the impact
    computed by [_calculate_game_impact], the weather factor of the engine
    has the total score impact as its value - between -10 and 0 - at
    confidence 0.7 and the configured weight. *)
Theorem measured_weather_counts_against_home
    self game weather temp wind_speed conditions impact w :
  py_get game "weather" (PDict []) = Ok (PDict weather) ->
  lookup "status" weather = None ->
  lookup "game_impact" weather = Some (impact_dict impact) ->
  _calculate_game_impact temp wind_speed conditions = Ok impact ->
  weight_of self "weather_impact" = Ok w ->
  exists f,
    _calculate_weather_factor self game = Ok f /\
    (PredictionFactor.value f == GameImpact.total_score_impact impact)%Q /\
    (-10 <= PredictionFactor.value f <= 0)%Q /\
    PredictionFactor.confidence f = Num.lit 0.7 /\
    PredictionFactor.weight f = w.
Proof.
  intros Hg Hs Hi Hc Hw. apply game_impact_rated in Hc.
  destruct Hc as (Hb & _).
  unfold _calculate_weather_factor, weather_try. rewrite Hg.
  unfold bind at 1.
  assert (truthy (PDict weather) = true) as ->
    by (destruct weather; [discriminate Hi|reflexivity]).
  cbn [negb py_get]. unfold get. rewrite Hs, Hi.
  cbn [bind py_eq as_num]. cbv beta iota.
  unfold impact_dict. cbn [py_get]. unfold get.
  cbn [lookup String.eqb Ascii.eqb Bool.eqb].
  unfold bind at 1. rewrite Hw. unfold bind at 1.
  cbn [float_field as_num bind try_except].
  eexists. split; [reflexivity|].
  cbn [Factor PredictionFactor.value PredictionFactor.confidence
       PredictionFactor.weight].
  rewrite Qred_correct. repeat split; apply Hb.
Qed.

Lemma measured_weather_counts_against_home_witness :
  exists f,
    _calculate_weather_factor new_engine
      (PDict [ ("espn_id", PStr "401547417");
               ("weather",
                 PDict [ ("conditions", PStr "Snow");
                         ("game_impact",
                           impact_dict
                             {| GameImpact.total_score_impact := -10;
                                GameImpact.passing_impact := -7;
                                GameImpact.kicking_impact := -7;
                                GameImpact.overall_rating := "severe" |}) ]) ])
      = Ok f /\
    (PredictionFactor.value f == -10)%Q /\
    (-10 <= PredictionFactor.value f <= 0)%Q /\
    PredictionFactor.confidence f = Num.lit 0.7 /\
    PredictionFactor.weight f = Num.lit 0.10.
Proof.
  eapply (measured_weather_counts_against_home new_engine _ _
            (PNum 20) (PNum 25) (PStr "Snow")
            {| GameImpact.total_score_impact := -10;
               GameImpact.passing_impact := -7;
               GameImpact.kicking_impact := -7;
               GameImpact.overall_rating := "severe" |}).
  - reflexivity.
  - reflexivity.
  - reflexivity.
  - vm_compute. reflexivity.
  - reflexivity.
Defined.

(* ===================================================================== *)
(** ** Stadiums: weather and the dome bonus *)
(* ===================================================================== *)

(** X25.  The stadium table is read with two different defaults.  For a
    team of the table, weather is needed exactly when the stadium is no
    dome, and the home advantage is 3.0 in a dome and 2.5 outdoors.  A team
    id missing from the table needs no weather, as if it played in a dome,
    yet gets the home advantage 2.5 of an outdoor stadium. *)
Theorem stadium_defaults_disagree self (team_id : string) w :
  weight_of self "home_advantage" = Ok w ->
  exists needs_weather f,
    _needs_weather_data (PStr team_id) = Ok needs_weather /\
    _calculate_home_advantage_factor self (PStr team_id) = Ok f /\
    match lookup team_id NFL_STADIUMS with
    | Some info =>
        needs_weather = negb (Stadium.dome info) /\
        PredictionFactor.value f = if Stadium.dome info then 3 else Num.lit 2.5
    | None =>
        needs_weather = false /\ PredictionFactor.value f = Num.lit 2.5
    end.
Proof.
  intros Hw.
  unfold _needs_weather_data, _calculate_home_advantage_factor,
    home_advantage_try, stadiums_get, bind, try_except.
  cbn [hashable]. rewrite Hw.
  destruct (lookup team_id NFL_STADIUMS) as [info|].
  - destruct (Stadium.dome info); eexists _, _;
      (split; [reflexivity|]); (split; [reflexivity|]); split; reflexivity.
  - eexists _, _. (split; [reflexivity|]); (split; [reflexivity|]).
    split; reflexivity.
Qed.

Lemma stadium_defaults_disagree_witness :
  exists needs_weather f,
    _needs_weather_data (PStr "99") = Ok needs_weather /\
    _calculate_home_advantage_factor new_engine (PStr "99") = Ok f /\
    match lookup "99" NFL_STADIUMS with
    | Some info =>
        needs_weather = negb (Stadium.dome info) /\
        PredictionFactor.value f = if Stadium.dome info then 3 else Num.lit 2.5
    | None =>
        needs_weather = false /\ PredictionFactor.value f = Num.lit 2.5
    end.
Proof.
  apply (stadium_defaults_disagree new_engine "99" (Num.lit 0.15)).
  reflexivity.
Defined.

(* ===================================================================== *)
(** ** The backtester: a row that hides the history *)
(* ===================================================================== *)

(** X26.  One bad row hides the whole history from the backtest: when one
    of the 500 most recent rows has an unreadable JSON column or cannot be
    put to the completion test, [run_backtest] reports that no historical
    games were found, however many completed games the table holds. *)
Theorem bad_row_hides_history db self start_date end_date t :
  Exists (fun game => readable game = false \/ judged game = false)
         (firstn 500 db) ->
  run_backtest db self start_date end_date t =
    (Ok (NoGames "No historical games found for backtesting" 0), t).
Proof.
  intros Hex. unfold run_backtest, cbind, lift, ret.
  rewrite historical_games_cases.
  assert (forallb (fun game => readable game && judged game) (firstn 500 db)
          = false) as ->; [|reflexivity].
  induction Hex as [game rest [H|H]|game rest _ IH]; cbn [forallb].
  - now rewrite H.
  - rewrite H. apply andb_false_iff. left. apply andb_false_r.
  - rewrite IH. apply andb_false_r.
Qed.

Lemma bad_row_hides_history_witness :
  run_backtest [stormy_loss; bills_dolphins 1 24 17 Malformed]
    new_backtester None None 0%nat =
    (Ok (NoGames "No historical games found for backtesting" 0), 0%nat).
Proof.
  apply bad_row_hides_history.
  apply Exists_cons_tl, Exists_cons_hd. left. reflexivity.
Defined.
